(** * Exam portal: session lifecycle and submission integrity

    A shallow embedding of the server side of the exam portal (the route
    handlers under [app/api]) together with the properties of its
    specification.

    A handler is a function from a request and the server state to a
    response and the next server state.  Every clock read and every
    random draw of a handler is a field of its request, named after the
    place that reads it.  Requests are served one at a time and the
    record store answers every query: interleavings of handlers and the
    connectivity branches of their [catch] blocks (503) are outside the
    embedding, and so is the store's own expiry of passcode records,
    which removes only records older than five minutes. *)

From Stdlib Require Import ZArith Lia Ascii String.
From Stdlib Require QArith.
From stdpp Require Import base option list strings gmap pretty sorting.

Local Open Scope string_scope.

(** ** JavaScript values *)

Module Js.

(** JSON-shaped values, as request bodies and token payloads carry them.
    Numbers are integers: option indices, course ids and epoch
    milliseconds are the only numbers the handlers compute with. *)
#[warnings="-register-all"]
Inductive JsValue :=
| JUndefined
| JNull
| JBool (b : bool)
| JNum (n : Z)
| JStr (s : string)
| JArr (elems : list JsValue)
| JObj (props : list (string * JsValue)).

(** An object is the list of its own properties in creation order. *)
Definition JsObject := list (string * JsValue).

(** ToBoolean. *)
Definition truthy (v : JsValue) : bool :=
  match v with
  | JUndefined | JNull => false
  | JBool b => b
  | JNum n => negb (n =? 0)%Z
  | JStr s => negb (String.eqb s "")
  | JArr _ | JObj _ => true
  end.

(** [o.k]: the value of an own property, [undefined] when absent. *)
Fixpoint get (o : JsObject) (k : string) : JsValue :=
  match o with
  | [] => JUndefined
  | (k', v) :: o' => if String.eqb k' k then v else get o' k
  end.

Definition digit_of (c : ascii) : option N :=
  let n := N_of_ascii c in
  if ((48 <=? n) && (n <=? 57))%N then Some (n - 48)%N else None.

Fixpoint digits_value (acc : N) (cs : list ascii) : option N :=
  match cs with
  | [] => Some acc
  | c :: cs' =>
      match digit_of c with
      | Some d => digits_value (10 * acc + d)%N cs'
      | None => None
      end
  end.

(** A property key is an array index when it is the canonical decimal
    form of an integer below 2^32 - 1. *)
Definition array_index (k : string) : option N :=
  match list_ascii_of_string k with
  | [] => None
  | c :: cs =>
      if (Ascii.eqb c "0"%char && negb (Nat.eqb (length cs) 0))%bool then None
      else match digits_value 0 (c :: cs) with
           | Some v => if (v <? 4294967295)%N then Some v else None
           | None => None
           end
  end.

Fixpoint insert_by_index (e : N * JsValue) (l : list (N * JsValue))
  : list (N * JsValue) :=
  match l with
  | [] => [e]
  | e' :: l' =>
      if (e.1 <? e'.1)%N then e :: e' :: l' else e' :: insert_by_index e l'
  end.

Definition sort_by_index (l : list (N * JsValue)) : list (N * JsValue) :=
  foldr insert_by_index [] l.

Definition index_props (o : JsObject) : list (N * JsValue) :=
  omap (fun kv => match array_index kv.1 with
                  | Some n => Some (n, kv.2)
                  | None => None
                  end) o.

Definition string_props (o : JsObject) : list JsValue :=
  omap (fun kv => match array_index kv.1 with
                  | Some _ => None
                  | None => Some kv.2
                  end) o.

(** Property values in own-property-key order: array indices ascending,
    then the other keys in creation order. *)
Definition ownValues (o : JsObject) : list JsValue :=
  (sort_by_index (index_props o)).*2 ++ string_props o.

Definition chars_of (s : string) : list JsValue :=
  (fun c => JStr (String c EmptyString)) <$> list_ascii_of_string s.

(** [Object.values(v)]; [None] is the TypeError raised on [undefined]
    and [null]. *)
Definition objectValues (v : JsValue) : option (list JsValue) :=
  match v with
  | JUndefined | JNull => None
  | JBool _ | JNum _ => Some []
  | JStr s => Some (chars_of s)
  | JArr l => Some l
  | JObj o => Some (ownValues o)
  end.

(** SameValueZero, the comparison of [includes] and of [Map] keys.
    Arrays and objects compare by identity; every array or object the
    handlers meet is freshly parsed, so two of them are never the same. *)
Definition sameValueZero (a b : JsValue) : bool :=
  match a, b with
  | JUndefined, JUndefined => true
  | JNull, JNull => true
  | JBool x, JBool y => Bool.eqb x y
  | JNum x, JNum y => (x =? y)%Z
  | JStr x, JStr y => String.eqb x y
  | _, _ => false
  end.

(** [arr.includes(v)] on an array of numbers. *)
Definition includes (arr : list Z) (v : JsValue) : bool :=
  existsb (fun x => sameValueZero (JNum x) v) arr.

(** [o.k = v]: an existing property keeps its place. *)
Fixpoint set (o : JsObject) (k : string) (v : JsValue) : JsObject :=
  match o with
  | [] => [(k, v)]
  | (k', v') :: o' =>
      if String.eqb k' k then (k', v) :: o' else (k', v') :: set o' k v
  end.

(** What survives a JSON round trip of an object literal: properties
    whose value is [undefined] are dropped. *)
Definition is_defined (v : JsValue) : bool :=
  match v with JUndefined => false | _ => true end.

Definition json_object (o : JsObject) : JsObject :=
  filter (fun kv => is_defined kv.2 = true) o.

Definition of_string (s : option string) : JsValue :=
  match s with Some x => JStr x | None => JUndefined end.

Definition of_number (n : option Z) : JsValue :=
  match n with Some x => JNum x | None => JUndefined end.

(** [v.toString()] for a value other than [undefined] and [null]: a
    number prints in decimal, an array joins its elements. *)
Fixpoint toString (v : JsValue) : string :=
  match v with
  | JUndefined => "undefined"
  | JNull => "null"
  | JBool b => if b then "true" else "false"
  | JNum n => pretty n
  | JStr s => s
  | JArr l =>
      String.concat ","
        ((fix each (l : list JsValue) : list string :=
            match l with
            | [] => []
            | x :: l' =>
                match x with
                | JUndefined | JNull => ""
                | _ => toString x
                end :: each l'
            end) l)
  | JObj _ => "[object Object]"
  end.

(** The store's cast of a value to a String path; [None] is a cast
    error (arrays and plain objects). *)
Definition castString (v : JsValue) : option (option string) :=
  match v with
  | JStr s => Some (Some s)
  | JNum n => Some (Some (pretty n))
  | JBool b => Some (Some (if b then "true" else "false"))
  | JNull | JUndefined => Some None
  | JArr _ | JObj _ => None
  end.

(** [a[i]] on an array: [undefined] out of range. *)
Definition at_index (a : list JsValue) (i : nat) : JsValue :=
  default JUndefined (a !! i).

End Js.

Import Js.

(** ** Stored documents *)

(** model/Question: one question of a form. *)
Record Question := mkQuestion {
  questionId : string;
  question : string;
  options : list string;
  correctAnswer : list Z;
}.

Record Form := mkForm {
  formId : string;
  questions : list Question;
}.

(** ** Scoring (app/api/exam/submit/route.ts) *)

Definition mark_step (questions : list Question) (answerarr : list JsValue)
    (mark : Z) (i : nat) : Z :=
  match questions !! i with
  | Some q =>
      if includes (correctAnswer q) (at_index answerarr i)
      then (mark + 1)%Z else mark
  | None => mark
  end.

(** [calculateMarks]: the loop runs [i] over [0 .. questions.length - 1];
    [None] is the TypeError of [Object.values]. *)
Definition calculateMarks (questions : list Question) (userAnswers : JsValue)
  : option Z :=
  match objectValues userAnswers with
  | Some answerarr =>
      Some (foldl (mark_step questions answerarr) 0%Z
              (seq 0 (length questions)))
  | None => None
  end.

(** The specification's wording of the score: the number of positions
    [i] whose question's correct-answer set contains the [i]-th
    submitted value. *)
Definition awarded (questions : list Question) (values : list JsValue)
    (i : nat) : Prop :=
  ∃ q n, questions !! i = Some q ∧ values !! i = Some (JNum n)
         ∧ n ∈ correctAnswer q.

#[global] Instance awarded_dec questions values i :
  Decision (awarded questions values i).
Proof.
  unfold awarded.
  destruct (questions !! i) as [q|]; [|right; by intros (? & ? & ? & _)].
  destruct (values !! i) as [[| | |n| | |]|];
    try (right; intros (? & ? & _ & ? & _); congruence).
  destruct (decide (n ∈ correctAnswer q)) as [Hin|Hout].
  - left. by exists q, n.
  - right. intros (q' & n' & [= <-] & [= <-] & Hin). done.
Defined.

Definition score_spec (questions : list Question) (values : list JsValue)
  : Z :=
  Z.of_nat (length (filter (awarded questions values)
                      (seq 0 (length questions)))).

(** [awarded] as the loop body tests it. *)
Definition awardedb (questions : list Question) (values : list JsValue)
    (i : nat) : bool :=
  match questions !! i, values !! i with
  | Some q, Some (JNum n) => bool_decide (n ∈ correctAnswer q)
  | _, _ => false
  end.

(** ** Dates (ECMAScript time values, milliseconds since the epoch) *)

Module Date.

Definition msPerSecond : Z := 1000.
Definition msPerMinute : Z := 60000.
Definition msPerHour : Z := 3600000.
Definition msPerDay : Z := 86400000.

Definition Day (t : Z) : Z := (t / msPerDay)%Z.
Definition HourFromTime (t : Z) : Z := ((t / msPerHour) mod 24)%Z.
Definition MinFromTime (t : Z) : Z := ((t / msPerMinute) mod 60)%Z.
Definition SecFromTime (t : Z) : Z := ((t / msPerSecond) mod 60)%Z.
Definition msFromTime (t : Z) : Z := (t mod msPerSecond)%Z.

Definition MakeTime (hour min sec ms : Z) : Z :=
  (hour * msPerHour + min * msPerMinute + sec * msPerSecond + ms)%Z.
Definition MakeDate (day time : Z) : Z := (day * msPerDay + time)%Z.

Section Zone.
(** [LocalTZA t isUTC]: the local zone's offset at [t], where [t] is a
    UTC instant ([isUTC = true]) or a local time ([isUTC = false]). *)
Variable LocalTZA : Z -> bool -> Z.

Definition LocalTime (t : Z) : Z := (t + LocalTZA t true)%Z.
Definition UTC (t : Z) : Z := (t - LocalTZA t false)%Z.

(** [d.getHours()] *)
Definition getHours (t : Z) : Z := HourFromTime (LocalTime t).

(** [d.setHours(hour)]: the hour field of the local time is replaced
    and the result converted back (time values stay in Date range). *)
Definition setHours (t hour : Z) : Z :=
  let lt := LocalTime t in
  UTC (MakeDate (Day lt)
         (MakeTime hour (MinFromTime lt) (SecFromTime lt) (msFromTime lt))).
End Zone.

End Date.

(** ** Signed tokens (jose) *)

Module Jose.

(** A token is its payload with the key that signed it: verification
    under a key accepts exactly the tokens signed with that key. *)
Record Jwt := mkJwt {
  jwt_payload : JsObject;
  jwt_key : string;
}.

Definition epoch_seconds (now : Z) : Z := (now / 1000)%Z.

(** [new SignJWT(claims).setProtectedHeader(..).setIssuedAt()
    .setExpirationTime(span).sign(key)] at clock reading [now]. *)
Definition SignJWT (claims : JsObject) (span_seconds : Z) (key : string)
    (now : Z) : Jwt :=
  let iat := epoch_seconds now in
  mkJwt (set (set (json_object claims) "iat" (JNum iat))
           "exp" (JNum (iat + span_seconds))) key.

(** [jwtVerify(token, key)] at clock reading [now]: the payload, or
    [None] for the exception (bad signature, or [exp] reached). *)
Definition jwtVerify (token : Jwt) (key : string) (now : Z)
  : option JsObject :=
  if String.eqb (jwt_key token) key then
    match get (jwt_payload token) "exp" with
    | JUndefined => Some (jwt_payload token)
    | JNum exp =>
        if (exp <=? epoch_seconds now)%Z then None
        else Some (jwt_payload token)
    | _ => None
    end
  else None.

End Jose.

Import Jose.

(** ** The host: what the runtime and the environment provide *)

Record Host := mkHost {
  LocalTZA : Z -> bool -> Z;        (* the server's time zone *)
  trim : string -> string;          (* String.prototype.trim *)
  toISOString : Z -> string;        (* Date.prototype.toISOString *)
  JWT_SECRET : string;              (* process.env.JWT_SECRET, or the fallback *)
  NODE_ENV : string;
}.

(** ** Documents of the record store *)

(** model/Otp; the collection is unique on [phone], which keys the map. *)
Module OTP.
Record t := mk {
  countryCode : string;
  otp : string;
  createdAt : Z;
}.
End OTP.

Record SessionData := mkSession {
  isActive : bool;
  startTime : option Z;
  deviceId : option string;
  expiresAt : option Z;
}.

(** model/Student, the fields the handlers read or write. *)
Record Student := mkStudent {
  student_id : string;                (* _id *)
  Student_Name : option string;       (* "Student Name" *)
  Student_RollNo : option string;     (* "Student RollNo" *)
  Branch : option string;
  College_Name : option string;       (* "College Name" *)
  University_Name : option string;    (* "University Name" *)
  Course_ID : option Z;               (* "Course ID" *)
  Student_Phone : option string;
  marks : option Z;
  answers : JsValue;
  attempted : bool;
  sessionData : SessionData;
}.

(** ** Process-local state *)

Record RateLimit := mkRate {
  count : Z;
  timestamp : Z;
}.

Record CacheEntry := mkEntry {
  entry_questions : list JsObject;
  entry_timestamp : Z;
}.

(** A JavaScript [Map]: entries in insertion order, keys compared with
    SameValueZero. *)
Module JsMap.
Section Ops.
Context {V : Type}.

Fixpoint get (m : list (JsValue * V)) (k : JsValue) : option V :=
  match m with
  | [] => None
  | (k', v) :: m' => if sameValueZero k' k then Some v else get m' k
  end.

(** [set] keeps the place of an existing key and appends a new one. *)
Fixpoint set (m : list (JsValue * V)) (k : JsValue) (v : V)
  : list (JsValue * V) :=
  match m with
  | [] => [(k, v)]
  | (k', v') :: m' =>
      if sameValueZero k' k then (k', v) :: m'
      else (k', v') :: set m' k v
  end.

Definition size (m : list (JsValue * V)) : nat := length m.
End Ops.
End JsMap.

(** ** The server *)

Record Server := mkServer {
  otps : gmap string OTP.t;                 (* OTP collection *)
  students : list Student;                      (* Student collection *)
  forms : list Form;                            (* questions collection *)
  rateLimitCache : gmap string RateLimit;       (* send-otp/route.ts *)
  QUESTION_CACHE : list (JsValue * CacheEntry); (* questions/route.ts *)
}.

(** ** Responses *)

Record Cookie := mkCookie {
  cookie_value : Jwt;
  httpOnly : bool;
  secure : bool;
  maxAge : Z;
  path : string;
}.

Inductive Body :=
| BNone
| BCode (code : string)
| BOtp (dev_otp : option string)
| BToken (token : Jwt)
| BLogin (studentName : option string) (expiresAt : string)
    (studentInfo : JsObject)
| BQuestions (formId : JsValue) (questions : list JsObject)
    (totalQuestions : nat) (cacheHit : bool)
| BSubmitted (totalQuestions : nat).

Record Response := mkResponse {
  status : Z;
  success : bool;
  message : string;
  body : Body;
  set_cookie : option Cookie;
}.

Definition failure (st : Z) (msg : string) : Response :=
  mkResponse st false msg BNone None.

(** ** Helpers shared by the handlers *)

(** [s || d] on an optional string: absent and empty are falsy. *)
Definition or_else (s : option string) (d : string) : string :=
  match s with
  | Some x => if String.eqb x "" then d else x
  | None => d
  end.

Definition is_digit (c : ascii) : bool :=
  let n := N_of_ascii c in ((48 <=? n) && (n <=? 57))%N.

(** [/^\d{n}$/.test(s)] *)
Definition digits (n : nat) (s : string) : bool :=
  Nat.eqb (String.length s) n && forallb is_digit (list_ascii_of_string s).

Definition findById (id : JsValue) (l : list Student) : option Student :=
  match id with
  | JStr i => List.find (fun s => String.eqb (student_id s) i) l
  | _ => None
  end.

Definition findByRollNo (roll : string) (l : list Student) : option Student :=
  List.find (fun s => match Student_RollNo s with
                      | Some r => String.eqb r roll
                      | None => false
                      end) l.

(** [updateOne({_id: id}, ..)]: the first document with that id. *)
Fixpoint updateOne (id : string) (f : Student -> Student) (l : list Student)
  : list Student :=
  match l with
  | [] => []
  | s :: l' =>
      if String.eqb (student_id s) id then f s :: l'
      else s :: updateOne id f l'
  end.

Definition findForm (id : option string) (l : list Form) : option Form :=
  match id with
  | Some i => List.find (fun f => String.eqb (formId f) i) l
  | None => None
  end.

(** ** POST /api/auth/send-otp *)

Module SendOtp.

Definition RATE_LIMIT_WINDOW : Z := 15 * 60 * 1000.
Definition MAX_REQUESTS : Z := 5.

Record ReqBody := mkBody {
  phone : option string;
  countryCode : option string;
}.

Record Req := mkReq {
  ip : option string;          (* the x-forwarded-for header *)
  json : option ReqBody;       (* [None]: the body does not parse *)
  now : Z;                     (* Date.now() *)
  random : Z;                  (* Math.floor(Math.random() * 900000) *)
  created : Z;                 (* new Date() of the upsert *)
  delivered : bool;            (* the messaging call went through *)
}.

Definition resend_message : string :=
  "Please wait before requesting another OTP".
Definition too_many_message : string :=
  "Too many OTP requests. Please try again later.".

(** The rate-limit step: [None] rejects, [Some c] is the cache to go on
    with. *)
Definition rate_limit (key : string) (now : Z) (c : gmap string RateLimit)
  : option (gmap string RateLimit) :=
  match c !! key with
  | Some u =>
      if (now - timestamp u <? RATE_LIMIT_WINDOW)%Z then
        if (MAX_REQUESTS <=? count u)%Z then None
        else Some (<[key := mkRate (count u + 1) (timestamp u)]> c)
      else Some (<[key := mkRate 1 now]> c)
  | None => Some (<[key := mkRate 1 now]> c)
  end.

Definition POST (h : Host) (r : Req) (s : Server) : Response * Server :=
  let ip := or_else (ip r) "unknown" in
  match json r with
  | None =>
      (failure 500 "An error occurred while processing your request", s)
  | Some b =>
      let phone := or_else (phone b) "" in
      let countryCode := default "+91" (countryCode b) in
      if negb (digits 10 phone) then
        (failure 400 "Valid 10-digit phone number is required", s)
      else
        let rateLimitKey := ip ++ ":" ++ phone in
        match rate_limit rateLimitKey (now r) (rateLimitCache s) with
        | None => (failure 429 too_many_message, s)
        | Some cache =>
            let s1 := mkServer (otps s) (students s) (forms s) cache
                        (QUESTION_CACHE s) in
            let too_soon :=
              match otps s !! phone with
              | Some existingOtp => (now r - OTP.createdAt existingOtp <? 60000)%Z
              | None => false
              end in
            if too_soon then (failure 429 resend_message, s1)
            else
              let otp := pretty (100000 + random r mod 900000)%Z in
              let s2 := mkServer
                          (<[phone := OTP.mk countryCode otp (created r)]>
                             (otps s))
                          (students s) (forms s) cache (QUESTION_CACHE s) in
              let dev := if String.eqb (NODE_ENV h) "development"
                         then Some otp else None in
              (mkResponse 200 true
                 (if delivered r then "OTP sent successfully"
                  else "OTP generated successfully. If you don't receive it via WhatsApp, please check your phone number and try again.")
                 (BOtp dev) None, s2)
        end
  end.

End SendOtp.

(** ** POST /api/auth/verify-otp *)

Module VerifyOtp.

Record ReqBody := mkBody {
  phone : option string;
  otp : option string;
}.

Record Req := mkReq {
  json : option ReqBody;       (* [None]: the body does not parse *)
  now : Z;                     (* Date.now() of the expiry check *)
  sign_now : Z;                (* the clock at setIssuedAt() *)
}.

Definition invalid_message : string := "Invalid OTP".
Definition error_message : string := "An error occurred while verifying OTP".

(** What a module's scope binds the name [SignJWT] to: the signer of
    jose, or nothing. *)
Definition Binding := option (JsObject -> Z -> string -> Z -> Jwt).

Definition bound (signer : Binding) : bool :=
  match signer with Some _ => true | None => false end.

(** The handler under a binding of [SignJWT].  The deletion of a used
    code is started before the token is built and is not awaited; the
    store carries it out. *)
Definition POST_with (signer : Binding) (h : Host) (r : Req) (s : Server)
  : Response * Server :=
  match json r with
  | None => (failure 500 error_message, s)
  | Some b =>
      let phone := or_else (phone b) "" in
      let otp := or_else (otp b) "" in
      if (String.eqb phone "" || String.eqb otp "")%bool then
        (failure 400 "Phone number and OTP are required", s)
      else if negb (digits 10 phone) || negb (digits 6 otp) then
        (failure 400 "Invalid phone number or OTP format", s)
      else
        let otpRecord :=
          match otps s !! phone with
          | Some rec => if String.eqb (OTP.otp rec) otp then Some rec else None
          | None => None
          end in
        match otpRecord with
        | None => (failure 400 invalid_message, s)
        | Some rec =>
            let s1 := mkServer (delete phone (otps s)) (students s) (forms s)
                        (rateLimitCache s) (QUESTION_CACHE s) in
            if (5 * 60 * 1000 <? now r - OTP.createdAt rec)%Z then
              (failure 400 "OTP has expired", s1)
            else
              match signer with
              | None => (failure 500 error_message, s1)
              | Some sign =>
                  let token :=
                    sign [("phone", JStr phone); ("verified", JBool true)]
                      600%Z (JWT_SECRET h) (sign_now r) in
                  (mkResponse 200 true "Phone number verified successfully"
                     (BToken token) None, s1)
              end
        end
  end.

(** The route as the source has it: its import of [SignJWT] is commented
    out, so the name is unbound where the success path evaluates
    [new SignJWT(..)]; the ReferenceError lands in the handler's catch. *)
Definition POST : Host -> Req -> Server -> Response * Server :=
  POST_with None.

End VerifyOtp.

(** ** POST /api/auth/verify-roll *)

Module VerifyRoll.

Record ReqBody := mkBody {
  rollNumber : option string;
  token : option Jwt;
}.

Record Req := mkReq {
  json : option ReqBody;       (* [None]: the body does not parse *)
  userAgent : option string;   (* the user-agent header *)
  verify_now : Z;              (* the clock at jwtVerify *)
  check_now : Z;               (* new Date() of the expiry comparison *)
  expiry_now : Z;              (* new Date() the new expiry starts from *)
  start_now : Z;               (* new Date() stored as startTime *)
  session_now : Z;             (* new Date() of the sessionStart claim *)
  sign_now : Z;                (* the clock at setIssuedAt() *)
}.

Definition conflict_message (deviceInfo : string) : string :=
  "You already have an active session on " ++ deviceInfo
  ++ ". Only one device can be used at a time.".

(** [expiresAt.setHours(expiresAt.getHours() + 5)] *)
Definition five_hours_on (h : Host) (t : Z) : Z :=
  Date.setHours (LocalTZA h) t (Date.getHours (LocalTZA h) t + 5).

Definition claim (phone : option string) (start : Z) (device : string)
    (expires : Z) (st : Student) : Student :=
  mkStudent (student_id st) (Student_Name st) (Student_RollNo st)
    (Branch st) (College_Name st) (University_Name st) (Course_ID st)
    phone (marks st) (answers st) (attempted st)
    (mkSession true (Some start) (Some device) (Some expires)).

Definition POST (h : Host) (r : Req) (s : Server) : Response * Server :=
  match json r with
  | None => (failure 400 "Invalid request format", s)
  | Some b =>
      match or_else (rollNumber b) "", token b with
      | "", _ | _, None => (failure 400 "Roll number and token required", s)
      | rollNumber, Some token =>
          match jwtVerify token (JWT_SECRET h) (verify_now r) with
          | None =>
              (failure 401 "Verification token expired or invalid. Please verify your phone number again.", s)
          | Some payload =>
              let phone := get payload "phone" in
              if negb (truthy (get payload "verified")) then
                (failure 401 "Phone number not verified", s)
              else
                match findByRollNo (trim h rollNumber) (students s) with
                | None =>
                    (failure 404 "Student not found. Please check your roll number.", s)
                | Some student =>
                    if attempted student then
                      (failure 400 "You have already attempted this exam.", s)
                    else if isActive (sessionData student)
                            && (check_now r
                                <? default 0 (expiresAt (sessionData student)))%Z
                    then
                      (failure 409
                         (conflict_message
                            (or_else (deviceId (sessionData student))
                               "another device")), s)
                    else
                      let expiresAt := five_hours_on h (expiry_now r) in
                      let deviceId :=
                        substring 0 50 (or_else (userAgent r) "unknown") in
                      match castString phone with
                      | None =>
                          (failure 500 "An error occurred while verifying your roll number. Please try again.", s)
                      | Some phone' =>
                          let s1 :=
                            mkServer (otps s)
                              (updateOne (student_id student)
                                 (claim phone' (start_now r) deviceId expiresAt)
                                 (students s))
                              (forms s) (rateLimitCache s) (QUESTION_CACHE s) in
                          let sessionToken :=
                            SignJWT
                              [("studentId", JStr (student_id student));
                               ("rollNumber", of_string (Student_RollNo student));
                               ("phone", phone);
                               ("name", of_string (Student_Name student));
                               ("sessionStart",
                                JStr (toISOString h (session_now r)));
                               ("sessionExpires",
                                JStr (toISOString h expiresAt));
                               ("courseId", of_number (Course_ID student))]
                              (5 * 60 * 60) (JWT_SECRET h) (sign_now r) in
                          (mkResponse 200 true "Login successful"
                             (BLogin (Student_Name student)
                                (toISOString h expiresAt)
                                (json_object
                                   [("name", of_string (Student_Name student));
                                    ("rollNumber",
                                     of_string (Student_RollNo student));
                                    ("branch", of_string (Branch student));
                                    ("college",
                                     of_string (College_Name student));
                                    ("courseId",
                                     of_number (Course_ID student));
                                    ("university",
                                     of_string (University_Name student))]))
                             (Some (mkCookie sessionToken true
                                      (String.eqb (NODE_ENV h) "production")
                                      (5 * 60 * 60) "/")), s1)
                      end
                end
          end
      end
  end.

End VerifyRoll.

(** ** GET /api/exam/questions *)

Module Questions.

Definition CACHE_DURATION : Z := 60 * 60 * 1000.
Definition MAX_CACHE_ENTRIES : nat := 100.

Record Req := mkReq {
  cookie : option Jwt;         (* the session_token cookie *)
  formId : option string;      (* searchParams.get("formId") *)
  verify_now : Z;              (* the clock at jwtVerify *)
  check_now : Z;               (* Date.now() of the cache check *)
  store_now : Z;               (* Date.now() stored with the entry *)
  random : list nat;           (* the shuffle's draws, in loop order *)
}.

(** The object literal built for the client from a projected question. *)
Definition safeQuestion (q : Question) : JsObject :=
  [("id", JStr (questionId q));
   ("question", JStr (question q));
   ("options", JArr (JStr <$> options q))].

(** [[a[i], a[j]] = [a[j], a[i]]] *)
Definition swap {T} (a : list T) (i j : nat) : list T :=
  match a !! i, a !! j with
  | Some x, Some y => <[j := x]> (<[i := y]> a)
  | _, _ => a
  end.

(** The loop of [shuffleArray] from index [i] down to 1.  A draw stands
    for [Math.floor(Math.random() * (i + 1))] and is read modulo
    [i + 1]. *)
Fixpoint shuffle_from {T} (i : nat) (draws : list nat) (a : list T)
  : list T :=
  match i with
  | 0 => a
  | S i' =>
      shuffle_from i' (tail draws) (swap a i (hd 0 draws `mod` (i + 1)))
  end.

Definition shuffleArray {T} (draws : list nat) (array : list T) : list T :=
  shuffle_from (length array - 1) draws array.

(** [m.delete(m.keys().next().value)]: the entry inserted first. *)
Definition evict_oldest {V} (m : list (JsValue * V)) : list (JsValue * V) :=
  tail m.

(** [searchParams.get("formId") || payload.formId] *)
Definition requested_form (query : option string) (payload : JsObject)
  : JsValue :=
  match query with
  | Some q => if String.eqb q "" then get payload "formId" else JStr q
  | None => get payload "formId"
  end.

Definition GET (h : Host) (r : Req) (s : Server) : Response * Server :=
  match cookie r with
  | None => (failure 401 "Unauthorized access", s)
  | Some sessionToken =>
      match jwtVerify sessionToken (JWT_SECRET h) (verify_now r) with
      | None => (failure 401 "Invalid or expired session", s)
      | Some payload =>
          let formId := requested_form (formId r) payload in
          if negb (truthy formId) then
            (failure 400 "Form ID is required", s)
          else
            let hit :=
              match JsMap.get (QUESTION_CACHE s) formId with
              | Some e =>
                  if (check_now r - entry_timestamp e <? CACHE_DURATION)%Z
                  then Some e else None
              | None => None
              end in
            match hit with
            | Some cachedEntry =>
                (mkResponse 200 true ""
                   (BQuestions formId (entry_questions cachedEntry)
                      (length (entry_questions cachedEntry)) true) None, s)
            | None =>
                match castString formId with
                | None =>
                    (failure 500 "An error occurred while fetching questions", s)
                | Some key =>
                    match findForm key (forms s) with
                    | None => (failure 404 "Form not found", s)
                    | Some form =>
                        let safeQuestions := safeQuestion <$> questions form in
                        let shuffledQuestions :=
                          shuffleArray (random r) safeQuestions in
                        let cache :=
                          JsMap.set (QUESTION_CACHE s) formId
                            (mkEntry shuffledQuestions (store_now r)) in
                        let cache' :=
                          if Nat.ltb MAX_CACHE_ENTRIES (JsMap.size cache)
                          then evict_oldest cache else cache in
                        (mkResponse 200 true ""
                           (BQuestions formId shuffledQuestions
                              (length shuffledQuestions) false) None,
                         mkServer (otps s) (students s) (forms s)
                           (rateLimitCache s) cache')
                    end
                end
            end
      end
  end.

End Questions.

(** ** POST /api/exam/submit *)

Module Submit.

Record Req := mkReq {
  cookie : option Jwt;         (* the session_token cookie *)
  json : option JsValue;       (* the parsed body; [None]: it does not parse *)
  verify_now : Z;              (* the clock at jwtVerify *)
}.

Definition already_message : string := "Exam already attempted".
Definition already_code : string := "ALREADY_ATTEMPTED".
Definition error_message : string :=
  "An error occurred during exam submission".

(** [const { answers } = body]; [None] is the TypeError on [null]. *)
Definition answers_of (body : JsValue) : option JsValue :=
  match body with
  | JNull | JUndefined => None
  | JObj o => Some (get o "answers")
  | _ => Some JUndefined
  end.

(** [courseId?.toString()] *)
Definition courseId_string (courseId : JsValue) : option string :=
  match courseId with
  | JNull | JUndefined => None
  | _ => Some (toString courseId)
  end.

Definition record_result (marks : Z) (answers : JsValue) (st : Student)
  : Student :=
  mkStudent (student_id st) (Student_Name st) (Student_RollNo st)
    (Branch st) (College_Name st) (University_Name st) (Course_ID st)
    (Student_Phone st) (Some marks) answers true
    (mkSession false (startTime (sessionData st))
       (deviceId (sessionData st)) (expiresAt (sessionData st))).

Definition POST (h : Host) (r : Req) (s : Server) : Response * Server :=
  match cookie r with
  | None => (failure 401 "Unauthorized access", s)
  | Some sessionToken =>
      match jwtVerify sessionToken (JWT_SECRET h) (verify_now r) with
      | None => (failure 401 "Invalid or expired session", s)
      | Some payload =>
          match json r ≫= answers_of with
          | None => (failure 500 error_message, s)
          | Some answers =>
              if negb (truthy answers) then
                (failure 400 "Answers are required", s)
              else
                let studentId := get payload "studentId" in
                let courseId := get payload "courseId" in
                match findById studentId (students s) with
                | None => (failure 404 "Student not found", s)
                | Some student =>
                    if attempted student then
                      (mkResponse 400 false already_message
                         (BCode already_code) None, s)
                    else
                      match findForm (courseId_string courseId) (forms s) with
                      | None =>
                          (failure 404 "Form not found for this course", s)
                      | Some form =>
                          match calculateMarks (questions form) answers with
                          | None => (failure 500 error_message, s)
                          | Some marks =>
                              (mkResponse 200 true
                                 "Exam submitted successfully"
                                 (BSubmitted (length (questions form))) None,
                               mkServer (otps s)
                                 (updateOne (student_id student)
                                    (record_result marks answers)
                                    (students s))
                                 (forms s) (rateLimitCache s)
                                 (QUESTION_CACHE s))
                          end
                      end
                end
          end
      end
  end.

End Submit.

(** ** The server as a transition system *)

Inductive Request :=
| SendOtp (r : SendOtp.Req)
| VerifyOtp (r : VerifyOtp.Req)
| VerifyRoll (r : VerifyRoll.Req)
| GetQuestions (r : Questions.Req)
| SubmitExam (r : Submit.Req).

Definition handle (h : Host) (req : Request) (s : Server)
  : Response * Server :=
  match req with
  | SendOtp r => SendOtp.POST h r s
  | VerifyOtp r => VerifyOtp.POST h r s
  | VerifyRoll r => VerifyRoll.POST h r s
  | GetQuestions r => Questions.GET h r s
  | SubmitExam r => Submit.POST h r s
  end.

(** The state after serving a sequence of requests, one at a time. *)
Definition run (h : Host) (reqs : list Request) (s : Server) : Server :=
  foldl (fun st req => (handle h req st).2) s reqs.

(** A process starts with both in-memory caches empty. *)
Definition boot (o : gmap string OTP.t) (st : list Student) (f : list Form)
  : Server :=
  mkServer o st f ∅ [].

(** [attempted] of the student with a given id, if there is one. *)
Definition attempted_of (id : string) (s : Server) : option bool :=
  attempted <$> findById (JStr id) (students s).

Definition ex_q12 : list Question :=
  [mkQuestion "q1" "?" ["a"; "b"; "c"] [2%Z];
   mkQuestion "q2" "?" ["a"; "b"; "c"] [1%Z; 3%Z]].

(** ** The connection manager (lib/mongodb.ts) *)

Module Connection.

Definition MAX_RETRIES : nat := 3.

(** The process-wide [cached] object.  [conn] and [promise] record
    whether the field holds a value; a promise that is kept has
    resolved, since a rejected one is cleared in the [catch]. *)
Record Cached := mkCached {
  conn : bool;
  promise : bool;
  isConnecting : bool;
  retries : nat;
}.

Inductive Result :=
| Connected        (* the call returns the connection *)
| Thrown           (* the call throws the connection error *)
| Unanswered.      (* the driver has not answered yet *)

Record Run := mkRun {
  result : Result;
  cached : Cached;
  attempts : nat;    (* calls of mongoose.connect *)
  waited : Z;        (* milliseconds slept between attempts *)
}.

(** [dbConnect()]; [outcomes] are the results of the successive calls
    of [mongoose.connect], [true] for a connection.  A call that finds
    another one connecting returns that one's pending promise, whose
    fate is not this call's to decide. *)
Fixpoint dbConnect (outcomes : list bool) (c : Cached) : Run :=
  if conn c then mkRun Connected c 0 0
  else if promise c && isConnecting c then mkRun Unanswered c 0 0
  else
    let c1 := if Nat.leb MAX_RETRIES (retries c)
              then mkCached (conn c) false (isConnecting c) 0 else c in
    if promise c1 then mkRun Connected (mkCached true true false 0) 0 0
    else
      match outcomes with
      | [] => mkRun Unanswered (mkCached false true true (retries c1)) 0 0
      | true :: _ => mkRun Connected (mkCached true true false 0) 1 0
      | false :: rest =>
          let c2 := mkCached false false false (S (retries c1)) in
          if Nat.ltb (S (retries c1)) MAX_RETRIES then
            let r := dbConnect rest c2 in
            mkRun (result r) (cached r) (S (attempts r)) (2000 + waited r)
          else mkRun Thrown c2 1 0
      end.

(** The two listeners registered on the connection. *)
Definition on_error (c : Cached) : Cached :=
  mkCached false (promise c) (isConnecting c) (retries c).

Definition on_disconnected (c : Cached) : Cached :=
  mkCached false false (isConnecting c) (retries c).

(** The state of a fresh process. *)
Definition fresh : Cached := mkCached false false false 0.

(** The attempts a call may make from a state: the counter restarts
    once it has reached the maximum. *)
Definition budget (c : Cached) : nat :=
  if Nat.leb MAX_RETRIES (retries c) then MAX_RETRIES
  else MAX_RETRIES - retries c.

End Connection.

(** ** Requests with a timeout (login/_components) *)

Module Fetch.

(** How one [fetch] ends: a response with its status, the abort of the
    timeout, or another error. *)
Inductive Outcome :=
| Responded (status : Z)
| Aborted
| Failed.

Inductive Result :=
| Response (status : Z)
| ThrowAbort
| ThrowOther
| Unanswered.

(** [1000 * 2 ** (base - retries)]; [base] is 3 in PhoneVerification
    and 2 in RollNumber. *)
Definition backoffTime (base : Z) (retries : nat) : QArith_base.Q :=
  QArith_base.Qmult (QArith_base.inject_Z 1000)
    (QArith_base.Qpower (QArith_base.inject_Z 2) (base - Z.of_nat retries)).

Record Run := mkRun {
  result : Result;
  fetches : nat;
  waits : list QArith_base.Q;
}.

(** [fetchWithRetry(url, options, retries, timeout)] over the outcomes
    of its successive fetches. *)
Fixpoint fetchWithRetry (base : Z) (outcomes : list Outcome) (retries : nat)
  : Run :=
  match outcomes with
  | [] => mkRun Unanswered 0 []
  | Responded st :: _ => mkRun (Response st) 1 []
  | Failed :: _ => mkRun ThrowOther 1 []
  | Aborted :: rest =>
      match retries with
      | 0 => mkRun ThrowAbort 1 []
      | S retries' =>
          let r := fetchWithRetry base rest retries' in
          mkRun (result r) (S (fetches r))
            (backoffTime base retries :: waits r)
      end
  end.

Definition outcome_result (o : Outcome) : Result :=
  match o with
  | Responded st => Response st
  | Aborted => ThrowAbort
  | Failed => ThrowOther
  end.

End Fetch.

(** The sleeps before the first [k] retries of a call that starts with
    [retries] retries. *)
Definition backoff_schedule (base : Z) (retries k : nat)
  : list QArith_base.Q :=
  (fun j => Fetch.backoffTime base (retries - j)) <$> seq 0 k.

(** ** The exam page (app/exam/page.tsx) and its answers store *)

Module Exam.

(** The store's [answers] before anything is saved, and after
    [clearAnswers]: the keys 0 .. 49, each holding [null]. *)
Definition initialAnswers : JsObject :=
  (fun i => (pretty (Z.of_nat i), JNull)) <$> seq 0 50.

(** [{ ...o, [k]: v }].  The copy takes the properties of [o] in
    enumeration order and [k] then keeps its place or comes last.  An
    enumeration reads array-index keys in ascending order and the other
    keys in creation order, so the copy enumerates as [o] does and is
    written as an update of [o]. *)
Definition spread_with (o : JsObject) (k : Z) (v : JsValue) : JsObject :=
  Js.set o (pretty k) v.

(** The store's [setAnswer]. *)
Definition setAnswer (questionNumber answer : Z) (answers : JsObject)
  : JsObject :=
  spread_with answers questionNumber (JNum answer).

(** The part of [examState] the handlers work on. *)
Record State := mkState {
  questions : list JsObject;
  answers : JsObject;
  currentQuestion : Z;
  isSubmitting : bool;
}.

(** [examState] once [initializeExam] has taken the stored answers and
    [fetchQuestions] the served questions. *)
Definition initialized (storedAnswers : JsObject) (served : list JsObject)
  : State :=
  mkState served storedAnswers 0 false.

Definition last_index (s : State) : Z :=
  (Z.of_nat (length (questions s)) - 1)%Z.

Definition handleAnswerSelect (optionIndex : Z) (prev : State) : State :=
  mkState (questions prev)
    (spread_with (answers prev) (currentQuestion prev) (JNum optionIndex))
    (if (currentQuestion prev <? last_index prev)%Z
     then (currentQuestion prev + 1)%Z else currentQuestion prev)
    (isSubmitting prev).

Definition handlePrevQuestion (prev : State) : State :=
  mkState (questions prev) (answers prev)
    (Z.max 0 (currentQuestion prev - 1)) (isSubmitting prev).

Definition handleNextQuestion (prev : State) : State :=
  mkState (questions prev) (answers prev)
    (Z.min (last_index prev) (currentQuestion prev + 1)) (isSubmitting prev).

Definition handleQuestionNav (index : Z) (prev : State) : State :=
  mkState (questions prev) (answers prev) index (isSubmitting prev).

(** [Object.keys(examState.answers).length] *)
Definition answeredCount (s : State) : nat := length (answers s).

Definition remainingCount (s : State) : Z :=
  (Z.of_nat (length (questions s)) - Z.of_nat (answeredCount s))%Z.

(** Whether the palette shows a question as answered. *)
Definition getQuestionStatus (index : Z) (s : State) : bool :=
  truthy (get (answers s) (pretty index)).

(** What the student can do on the page: press the option button
    numbered [optionIndex] (the buttons count from 1), Previous, Next,
    or the palette button of a question. *)
Inductive Event :=
| Select (optionIndex : Z)
| Prev
| Next
| Nav (index : Z).

Definition step (s : State) (e : Event) : State :=
  match e with
  | Select optionIndex => handleAnswerSelect optionIndex s
  | Prev => handlePrevQuestion s
  | Next => handleNextQuestion s
  | Nav index => handleQuestionNav index s
  end.

Definition play (events : list Event) (s : State) : State :=
  foldl step s events.

(** The palette has one button for each question. *)
Definition on_palette (s : State) (e : Event) : Prop :=
  match e with
  | Nav index => (0 ≤ index < Z.of_nat (length (questions s)))%Z
  | _ => True
  end.

(** How one [fetch] of the submission ends: with the response, with an
    error before the request is served, or with an error after it was
    served; [now] is the server's clock when it serves the request. *)
Inductive Delivery :=
| Answered (now : Z)
| Undelivered
| Unheard (now : Z).

Definition maxRetries : nat := 3.

Record Submission := mkSubmission {
  completed : bool;          (* storage cleared, router.replace("/completed") *)
  toast : option string;     (* toast.error *)
  sent : nat;                (* calls of fetch *)
  waiting : bool;            (* a fetch has not settled *)
  server : Server;
}.

Definition submission (cookie : option Jwt) (answers : JsObject) (now : Z)
  : Submit.Req :=
  Submit.mkReq cookie (Some (JObj [("answers", JObj answers)])) now.

(** The retry loop of [handleSubmitExam], from [retries] on, against the
    server [s]; the browser sends [cookie] with every request. *)
Fixpoint submitLoop (h : Host) (cookie : option Jwt) (answers : JsObject)
    (net : list Delivery) (retries : nat) (s : Server) : Submission :=
  if Nat.ltb retries maxRetries then
    match net with
    | [] => mkSubmission false None 0 true s
    | d :: net' =>
        let again (msg : string) (s' : Server) :=
          let r := submitLoop h cookie answers net' (S retries) s' in
          mkSubmission (completed r)
            (if Nat.eqb retries (maxRetries - 1) then Some msg else toast r)
            (S (sent r)) (waiting r) (server r) in
        match d with
        | Answered now =>
            let result := Submit.POST h (submission cookie answers now) s in
            if success result.1 then mkSubmission true None 1 false result.2
            else again (message result.1) result.2
        | Undelivered => again "Network error. Please try again." s
        | Unheard now =>
            again "Network error. Please try again."
              (Submit.POST h (submission cookie answers now) s).2
        end
    end
  else mkSubmission false None 0 false s.

(** [handleSubmitExam] *)
Definition handleSubmitExam (h : Host) (cookie : option Jwt)
    (net : list Delivery) (st : State) (s : Server) : Submission :=
  if isSubmitting st then mkSubmission false None 0 false s
  else submitLoop h cookie (answers st) net 0 s.

End Exam.

(** ** A small deployment, for concrete runs *)

Definition ex_host : Host :=
  mkHost (fun _ _ => 19800000%Z) (fun x => x) (fun t => pretty t)
    "secret" "production".

Definition ex_student : Student :=
  mkStudent "s1" (Some "Asha") (Some "R001") (Some "CSE") None None
    (Some 101%Z) None None (JObj []) false (mkSession false None None None).

Definition ex_server : Server :=
  boot ∅ [ex_student] [mkForm "101" ex_q12].

(** The verification credential verify-otp is meant to issue. *)
Definition ex_verified : Jwt :=
  SignJWT [("phone", JStr "9876543210"); ("verified", JBool true)] 600
    "secret" 1000.

Definition ex_claim : VerifyRoll.Req :=
  VerifyRoll.mkReq (Some (VerifyRoll.mkBody (Some "R001") (Some ex_verified)))
    (Some "Mozilla/5.0") 2000 2000 2000 2000 2000 2000.

(** The session credential the claim above sets as a cookie, and the
    store it leaves. *)
Definition ex_session : Jwt :=
  SignJWT
    [("studentId", JStr "s1"); ("rollNumber", JStr "R001");
     ("phone", JStr "9876543210"); ("name", JStr "Asha");
     ("sessionStart", JStr "2000"); ("sessionExpires", JStr "18002000");
     ("courseId", JNum 101)] 18000 "secret" 2000.

Definition ex_claimed : Server :=
  (VerifyRoll.POST ex_host ex_claim ex_server).2.

Definition ex_submit (answers : JsObject) (now : Z) : Submit.Req :=
  Submit.mkReq (Some ex_session) (Some (JObj [("answers", JObj answers)])) now.

(** The same student with a session held by another device until
    [expires]. *)
Definition ex_holder (expires : Z) : Student :=
  mkStudent "s1" (Some "Asha") (Some "R001") (Some "CSE") None None
    (Some 101%Z) None None (JObj []) false
    (mkSession true (Some 0%Z) (Some "Old device") (Some expires)).

Definition ex_occupied (expires : Z) : Server :=
  boot ∅ [ex_holder expires] [mkForm "101" ex_q12].

(** A server on US Eastern time around the change of 10 March 2024:
    at 07:00 UTC the clocks go from 02:00 EST to 03:00 EDT.  A local
    time that the change skips is read with the offset before it. *)
Definition eastern_LocalTZA (t : Z) (isUTC : bool) : Z :=
  if isUTC then
    if (t <? 1710054000000)%Z then (-18000000)%Z else (-14400000)%Z
  else
    if (t <? 1710039600000)%Z then (-18000000)%Z else (-14400000)%Z.

Definition ex_eastern_host : Host :=
  mkHost eastern_LocalTZA (fun x => x) (fun t => pretty t)
    "secret" "production".

(** A claim on that server at [now], under a verification credential
    signed 100 seconds earlier. *)
Definition ex_eastern_claim (now : Z) : VerifyRoll.Req :=
  VerifyRoll.mkReq
    (Some (VerifyRoll.mkBody (Some "R001")
             (Some (SignJWT [("phone", JStr "9876543210");
                             ("verified", JBool true)] 600
                      "secret" (now - 100000)))))
    (Some "Mozilla/5.0") now now now now now now.

(** A request for a code from one client, at clock reading [now]. *)
Definition ex_send (now : Z) : SendOtp.Req :=
  SendOtp.mkReq (Some "10.0.0.7")
    (Some (SendOtp.mkBody (Some "9876543210") None)) now 23456 (now + 5) true.

Definition ex_verify (now : Z) : VerifyOtp.Req :=
  VerifyOtp.mkReq (Some (VerifyOtp.mkBody (Some "9876543210") (Some "123456")))
    now now.

(** The order [sort_by_index] establishes. *)
Definition index_le (a b : N * JsValue) : Prop := (a.1 ≤ b.1)%N.

(** A cache at capacity: a hundred entries under the keys "0" .. "99". *)
Definition ex_full_cache : list (JsValue * CacheEntry) :=
  (fun i => (JStr (pretty (Z.of_nat i)), mkEntry [] 0%Z)) <$> seq 0 100.

(** ** Updates of a student document *)

(** Every handler leaves the student collection alone or updates one
    document, keeping its id and never clearing [attempted]. *)
Definition latch_keeping (f : Student → Student) : Prop :=
  (∀ st, student_id (f st) = student_id st)
  ∧ (∀ st, attempted (f st) = attempted st ∨ attempted (f st) = true).

(** Two versions of a document that differ at most in the phone and the
    session. *)
Definition same_but_session (a b : Student) : Prop :=
  student_id b = student_id a ∧ Student_Name b = Student_Name a
  ∧ Student_RollNo b = Student_RollNo a ∧ Branch b = Branch a
  ∧ College_Name b = College_Name a ∧ University_Name b = University_Name a
  ∧ Course_ID b = Course_ID a ∧ marks b = marks a ∧ answers b = answers a
  ∧ attempted b = attempted a.

(** Two versions of a document that differ at most in the recorded
    result and in whether the session is active. *)
Definition same_but_result (a b : Student) : Prop :=
  student_id b = student_id a ∧ Student_Name b = Student_Name a
  ∧ Student_RollNo b = Student_RollNo a ∧ Branch b = Branch a
  ∧ College_Name b = College_Name a ∧ University_Name b = University_Name a
  ∧ Course_ID b = Course_ID a ∧ Student_Phone b = Student_Phone a
  ∧ startTime (sessionData b) = startTime (sessionData a)
  ∧ deviceId (sessionData b) = deviceId (sessionData a)
  ∧ expiresAt (sessionData b) = expiresAt (sessionData a).

(** A student collection with distinct ids in which no student who has
    attempted holds an active session. *)
Definition settled (l : list Student) : Prop :=
  NoDup (student_id <$> l)
  ∧ Forall (fun st => attempted st = true →
                      isActive (sessionData st) = false) l.

(** A rate-limit cache whose counters all lie between 1 and the
    maximum. *)
Definition counters_in_range (c : gmap string RateLimit) : Prop :=
  ∀ key u, c !! key = Some u →
           (1 ≤ count u ≤ SendOtp.MAX_REQUESTS)%Z.

(** ** What the question cache holds *)

Definition client_fields : list string := ["id"; "question"; "options"].

(** A question object with exactly the client's fields. *)
Definition sanitized (q : JsObject) : Prop := q.*1 = client_fields.

Definition cache_sanitized (c : list (JsValue * CacheEntry)) : Prop :=
  Forall (fun kv => Forall sanitized (entry_questions kv.2)) c.

Definition cache_bounded (c : list (JsValue * CacheEntry)) : Prop :=
  (JsMap.size c ≤ Questions.MAX_CACHE_ENTRIES)%nat.

Definition ex_fetch (now : Z) (draws : list nat) : Questions.Req :=
  Questions.mkReq (Some ex_session) (Some "101") now now now draws.

(** The store after one fetch of form "101" at clock reading 3000. *)
Definition ex_fetched : Server :=
  run ex_host [VerifyRoll ex_claim; GetQuestions (ex_fetch 3000 [0])]
    (boot ∅ [ex_student] [mkForm "101" ex_q12]).

(** ** The exam page: what its handlers keep *)

(** An answers object whose keys are 0 .. n-1, in any order. *)
Definition keyed (n : nat) (o : JsObject) : Prop :=
  o.*1 ≡ₚ (fun i => pretty (Z.of_nat i)) <$> seq 0 n.

(** The current question is one of the questions. *)
Definition in_range (s : Exam.State) : Prop :=
  (0 ≤ Exam.currentQuestion s < Z.of_nat (length (Exam.questions s)))%Z.

(** A server that turns down every submission of a browser and keeps
    its state. *)
Definition refusing (h : Host) (cookie : option Jwt) (answers : JsObject)
    (s : Server) : Prop :=
  ∀ now, (Submit.POST h (Exam.submission cookie answers now) s).2 = s
         ∧ success (Submit.POST h (Exam.submission cookie answers now) s).1
           = false.

(** The message of the toast after a last attempt that ended as [d]. *)
Definition shown (h : Host) (cookie : option Jwt) (answers : JsObject)
    (s : Server) (d : Exam.Delivery) : string :=
  match d with
  | Exam.Answered now =>
      message (Submit.POST h (Exam.submission cookie answers now) s).1
  | _ => "Network error. Please try again."
  end.

(** * Properties *)

(** ** Scoring *)

Lemma includes_spec (arr : list Z) (v : JsValue) :
  includes arr v = true ↔ ∃ n, v = JNum n ∧ n ∈ arr.
Proof.
  unfold includes. rewrite existsb_exists. split.
  - intros (x & Hin & Heq). destruct v; simpl in Heq; try discriminate.
    apply Z.eqb_eq in Heq. subst. exists n. split; [done|].
    by apply list_elem_of_In.
  - intros (n & -> & Hin). exists n. split; [by apply list_elem_of_In|].
    simpl. apply Z.eqb_refl.
Qed.

Lemma awardedb_spec (questions : list Question) (values : list JsValue)
    (i : nat) :
  awardedb questions values i = true ↔ awarded questions values i.
Proof.
  unfold awardedb, awarded. split.
  - destruct (questions !! i) as [q|] eqn:Hq; [|done].
    destruct (values !! i) as [[]|] eqn:Hv; try done.
    intros H. apply bool_decide_eq_true in H. by exists q, n.
  - intros (q & n & -> & -> & Hin). by apply bool_decide_eq_true.
Qed.

Lemma mark_step_awarded (questions : list Question) (values : list JsValue)
    (mark : Z) (i : nat) :
  mark_step questions values mark i =
  if awardedb questions values i then (mark + 1)%Z else mark.
Proof.
  unfold mark_step, awardedb, at_index.
  destruct (questions !! i) as [q|]; [|done].
  destruct (includes (correctAnswer q) (default JUndefined (values !! i)))
    eqn:Hinc.
  - apply includes_spec in Hinc as (n & Hv & Hin).
    destruct (values !! i) as [v|]; simpl in Hv; [|done]. subst v.
    by rewrite bool_decide_eq_true_2.
  - destruct (values !! i) as [[]|]; try done.
    rewrite bool_decide_eq_false_2; [done|]. intros Hin.
    assert (includes (correctAnswer q) (JNum n) = true) as E
      by (apply includes_spec; eauto).
    simpl in Hinc. congruence.
Qed.

Lemma marks_loop_count (questions : list Question) (values : list JsValue)
    (l : list nat) (mark : Z) :
  foldl (mark_step questions values) mark l =
  (mark + Z.of_nat (length (filter (awarded questions values) l)))%Z.
Proof.
  revert mark. induction l as [|i l IH]; intros mark; simpl.
  - lia.
  - rewrite IH, mark_step_awarded.
    destruct (awardedb questions values i) eqn:Hi.
    + rewrite filter_cons_True by (by apply awardedb_spec). simpl. lia.
    + rewrite filter_cons_False; [lia|].
      rewrite <- awardedb_spec. congruence.
Qed.

(** *** Array-index keys

    The decimal numeral of a number is read back as that index. *)

Lemma chars_pretty_go (x : N) (s : string) :
  list_ascii_of_string (pretty_N_go x s)
  = (list_ascii_of_string (pretty_N_go x "") ++ list_ascii_of_string s)%list.
Proof.
  revert s. induction (N.lt_wf_0 x) as [x _ IH]; intros s.
  destruct (decide (x = 0%N)) as [->|Hx]; [done|].
  rewrite !(pretty_N_go_step x) by lia.
  rewrite (IH (x `div` 10)%N) by (apply N.div_lt; lia).
  rewrite (IH (x `div` 10)%N ltac:(apply N.div_lt; lia) (String _ "")).
  simpl. by rewrite <- app_assoc.
Qed.

Lemma chars_pretty_go_snoc (x : N) :
  (0 < x)%N →
  list_ascii_of_string (pretty_N_go x "")
  = (list_ascii_of_string (pretty_N_go (x `div` 10) "")
     ++ [pretty_N_char (x `mod` 10)])%list.
Proof. intros Hx. by rewrite pretty_N_go_step, chars_pretty_go. Qed.

Lemma digit_of_pretty_char (d : N) :
  (d < 10)%N → digit_of (pretty_N_char d) = Some d.
Proof.
  intros Hd. destruct d as [|p]; [done|].
  do 4 (destruct p as [p|p|]; try done; try lia).
Qed.

Lemma digits_value_app (acc : N) (a b : list ascii) :
  digits_value acc (a ++ b) = digits_value acc a ≫= fun v => digits_value v b.
Proof.
  revert acc. induction a as [|c a IH]; intros acc; simpl; [done|].
  destruct (digit_of c); [apply IH|done].
Qed.

Lemma digits_value_pretty_go (x : N) :
  digits_value 0 (list_ascii_of_string (pretty_N_go x "")) = Some x.
Proof.
  induction (N.lt_wf_0 x) as [x _ IH].
  destruct (decide (x = 0%N)) as [->|Hx]; [done|].
  rewrite chars_pretty_go_snoc, digits_value_app by lia.
  rewrite IH by (apply N.div_lt; lia). simpl.
  rewrite digit_of_pretty_char by (apply N.mod_lt; lia).
  f_equal. pose proof (N.div_mod x 10). lia.
Qed.

Lemma pretty_go_head (x : N) :
  (0 < x)%N →
  ∃ c cs, list_ascii_of_string (pretty_N_go x "") = c :: cs
          ∧ Ascii.eqb c "0" = false.
Proof.
  induction (N.lt_wf_0 x) as [x _ IH]. intros Hx.
  rewrite chars_pretty_go_snoc by done.
  destruct (decide (x `div` 10 = 0)%N) as [E|E].
  - rewrite E, pretty_N_go_0. simpl. eexists _, _. split; [done|].
    assert (x `mod` 10 = x)%N as -> by (pose proof (N.div_mod x 10); lia).
    assert (x < 10)%N as Hlt.
    { apply N.div_small_iff in E; lia. }
    destruct x as [|p]; [lia|].
    do 4 (destruct p as [p|p|]; try done; try lia).
  - destruct (IH (x `div` 10)%N) as (c & cs & -> & Hc);
      [apply N.div_lt; lia|by apply N.neq_0_lt_0|].
    simpl. by eexists _, _.
Qed.

Lemma array_index_pretty (x : N) :
  (x < 4294967295)%N → array_index (pretty x) = Some x.
Proof.
  intros Hx. unfold pretty, pretty_N.
  destruct (decide (x = 0%N)) as [->|Hne]; [done|].
  unfold array_index.
  destruct (pretty_go_head x) as (c & cs & E & Hc); [lia|].
  pose proof (digits_value_pretty_go x) as Hv. rewrite E in *.
  rewrite Hc, Hv. simpl.
  by destruct (N.ltb_spec x 4294967295); [|lia].
Qed.

Lemma pretty_Z_of_nat (i : nat) : pretty (Z.of_nat i) = pretty (N.of_nat i).
Proof. by destruct i. Qed.

Lemma insert_by_index_perm (e : N * JsValue) (l : list (N * JsValue)) :
  insert_by_index e l ≡ₚ e :: l.
Proof.
  induction l as [|e' l IH]; simpl; [done|].
  destruct (e.1 <? e'.1)%N; [done|]. rewrite IH. apply Permutation_swap.
Qed.

Lemma sort_by_index_perm (l : list (N * JsValue)) : sort_by_index l ≡ₚ l.
Proof.
  induction l as [|e l IH]; simpl; [done|].
  by rewrite insert_by_index_perm, IH.
Qed.

Lemma insert_by_index_sorted (e : N * JsValue) (l : list (N * JsValue)) :
  Sorted index_le l → Sorted index_le (insert_by_index e l).
Proof.
  induction 1 as [|e' l Hl IH Hhd]; simpl.
  - by repeat constructor.
  - destruct (N.ltb_spec e.1 e'.1).
    + repeat constructor; [done..|]. unfold index_le. lia.
    + constructor; [done|].
      destruct l as [|e'' l]; simpl in *.
      * constructor. unfold index_le. lia.
      * destruct (N.ltb_spec e.1 e''.1); constructor; unfold index_le;
          [lia|]. by inversion Hhd.
Qed.

Lemma sort_by_index_sorted (l : list (N * JsValue)) :
  Sorted index_le (sort_by_index l).
Proof.
  induction l as [|e l IH]; simpl; [constructor|].
  by apply insert_by_index_sorted.
Qed.

Lemma sorted_keys (l : list (N * JsValue)) :
  Sorted index_le l → Sorted N.le l.*1.
Proof.
  induction 1 as [|e l Hl IH Hhd]; simpl; constructor; [done|].
  destruct Hhd; simpl; by constructor.
Qed.

Lemma seq_sorted (j n : nat) : Sorted N.le (N.of_nat <$> seq j n).
Proof.
  revert j. induction n as [|n IH]; intros j; simpl; constructor; [done|].
  destruct n; simpl; constructor. lia.
Qed.

Lemma get_NoDup (o : JsObject) (k : string) (v : JsValue) :
  NoDup o.*1 → (k, v) ∈ o → get o k = v.
Proof.
  induction o as [|[k' v'] o IH]; simpl; intros Hnd Hin.
  - by apply elem_of_nil in Hin.
  - apply NoDup_cons in Hnd as [Hk' Hnd].
    apply elem_of_cons in Hin as [[= <- <-]|Hin].
    + by rewrite String.eqb_refl.
    + destruct (String.eqb_spec k' k) as [->|]; [|by apply IH].
      destruct Hk'. apply list_elem_of_fmap. by exists (k, v).
Qed.

(** *** Enumeration order

    The values of an object whose keys are the numerals of 0 .. n-1, in
    whatever order they were created, are its properties read by key. *)
Lemma ownValues_by_key (o : JsObject) (n : nat) :
  o.*1 ≡ₚ (fun i => pretty (Z.of_nat i)) <$> seq 0 n →
  (N.of_nat n < 4294967295)%N →
  ownValues o = (fun i => get o (pretty (Z.of_nat i))) <$> seq 0 n.
Proof.
  intros Hkeys Hn.
  assert (∀ k, k ∈ o.*1 → ∃ i, (i < n)%nat ∧ k = pretty (Z.of_nat i)
                             ∧ array_index k = Some (N.of_nat i)) as Hk.
  { intros k Hin. rewrite Hkeys in Hin.
    apply list_elem_of_fmap in Hin as (i & -> & Hi).
    apply elem_of_seq in Hi. exists i. split; [lia|]. split; [done|].
    rewrite pretty_Z_of_nat. apply array_index_pretty. lia. }
  assert (NoDup o.*1) as Hnd.
  { rewrite Hkeys. apply NoDup_fmap_2; [|apply NoDup_seq].
    intros i j E. by apply (inj pretty), (inj Z.of_nat) in E. }
  assert (string_props o = []) as Hs.
  { clear Hkeys Hnd. unfold string_props.
    induction o as [|[k v] o IH]; simpl; [done|].
    destruct (Hk k) as (i & _ & _ & ->); [left|]. simpl. apply IH.
    intros k' Hin. apply Hk. by right. }
  assert ((index_props o).*1 = default 0%N ∘ array_index <$> o.*1
          ∧ ∀ x v, (x, v) ∈ index_props o →
                   ∃ k, (k, v) ∈ o ∧ array_index k = Some x) as [Hi1 Hi2].
  { clear Hkeys Hnd Hs. unfold index_props.
    induction o as [|[k v] o IH]; simpl.
    - split; [done|]. intros x v Hin. by apply elem_of_nil in Hin.
    - destruct (Hk k) as (i & _ & _ & E); [left|]. rewrite E. simpl.
      destruct IH as [IH1 IH2]; [intros k' Hin; apply Hk; by right|].
      split; [f_equal; exact IH1|].
      intros x v' Hin. apply elem_of_cons in Hin as [[= -> ->]|Hin].
      + exists k. split; [left|done].
      + destruct (IH2 x v' Hin) as (k' & Hin' & E').
        exists k'. split; [by right|done]. }
  assert ((sort_by_index (index_props o)).*1 = N.of_nat <$> seq 0 n) as Hsorted.
  { apply (Sorted_unique N.le).
    - apply sorted_keys, sort_by_index_sorted.
    - apply seq_sorted.
    - rewrite sort_by_index_perm, Hi1, Hkeys, <- list_fmap_compose.
      assert (∀ l, Forall (fun i => i < n)%nat l →
                   (default 0%N ∘ array_index
                    ∘ (fun i => pretty (Z.of_nat i))) <$> l
                   = N.of_nat <$> l) as ->; [|done|].
      { induction 1 as [|i l Hi _ IH]; simpl; [done|]. f_equal; [|done].
        rewrite pretty_Z_of_nat, array_index_pretty by lia. done. }
      apply Forall_forall. intros i Hi. apply elem_of_seq in Hi. lia. }
  unfold ownValues. rewrite Hs, app_nil_r.
  apply list_eq. intros i. rewrite !list_lookup_fmap.
  pose proof (f_equal (fun l => l !! i) Hsorted) as Hi.
  simpl in Hi. rewrite !list_lookup_fmap in Hi.
  destruct (sort_by_index (index_props o) !! i) as [[x v]|] eqn:Hlook;
    destruct (seq 0 n !! i) as [j|] eqn:Hseq; simpl in *; try done.
  injection Hi as ->. f_equal. symmetry. apply get_NoDup; [done|].
  apply list_elem_of_lookup_2 in Hlook. rewrite sort_by_index_perm in Hlook.
  destruct (Hi2 _ _ Hlook) as (k & Hin & E).
  destruct (Hk k) as (j' & _ & -> & E'); [apply list_elem_of_fmap; by exists (k, v)|].
  rewrite E' in E. injection E as E. apply (inj N.of_nat) in E. by subst.
Qed.

(** C1: the score of a submitted answers map is the number of positions
    whose question's correct-answer set contains the value submitted at
    that position, the values being taken in the order the map
    enumerates them (for a map keyed 0 .. n-1 that is the value under
    key i, whatever the order of the keys in the request); the two
    scoring examples give 2 and 0. *)
Theorem calculateMarks_counts_positions :
  (∀ (questions : list Question) (userAnswers : JsObject),
     calculateMarks questions (JObj userAnswers)
     = Some (score_spec questions (ownValues userAnswers)))
  ∧ (∀ (questions : list Question) (userAnswers : JsObject) (n : nat),
       userAnswers.*1 ≡ₚ (fun i => pretty (Z.of_nat i)) <$> seq 0 n →
       (N.of_nat n < 4294967295)%N →
       calculateMarks questions (JObj userAnswers)
       = Some (score_spec questions
                 ((fun i => get userAnswers (pretty (Z.of_nat i)))
                  <$> seq 0 n)))
  ∧ calculateMarks ex_q12 (JObj [("0", JNum 2); ("1", JNum 3)]) = Some 2%Z
  ∧ calculateMarks ex_q12 (JObj [("0", JNum 1); ("1", JNum 2)]) = Some 0%Z.
Proof.
  assert (∀ (questions : list Question) (userAnswers : JsObject),
            calculateMarks questions (JObj userAnswers)
            = Some (score_spec questions (ownValues userAnswers))) as H.
  { intros questions userAnswers. unfold calculateMarks, score_spec. simpl.
    rewrite marks_loop_count. f_equal. }
  split; [done|]. split; [|done].
  intros questions userAnswers n Hkeys Hn.
  by rewrite H, (ownValues_by_key userAnswers n).
Qed.

Lemma calculateMarks_counts_positions_witness :
  let userAnswers := [("1", JNum 3); ("0", JNum 2)] in
  userAnswers.*1 ≡ₚ (fun i => pretty (Z.of_nat i)) <$> seq 0 2
  ∧ calculateMarks ex_q12 (JObj userAnswers)
    = Some (score_spec ex_q12 [JNum 2; JNum 3])
  ∧ score_spec ex_q12 [JNum 2; JNum 3] = 2%Z.
Proof.
  assert ([("1", JNum 3); ("0", JNum 2)].*1
          ≡ₚ (fun i => pretty (Z.of_nat i)) <$> seq 0 2) as Hkeys
    by apply Permutation_swap.
  split; [exact Hkeys|]. split; [|reflexivity].
  destruct calculateMarks_counts_positions as (_ & H & _).
  exact (H ex_q12 _ 2%nat Hkeys ltac:(simpl; lia)).
Defined.

Lemma calculateMarks_range (questions : list Question)
    (userAnswers : JsValue) (values : list JsValue) :
  objectValues userAnswers = Some values →
  ∃ mark, calculateMarks questions userAnswers = Some mark
          ∧ (0 ≤ mark ≤ Z.of_nat (length questions))%Z.
Proof.
  intros Hv. unfold calculateMarks. rewrite Hv.
  eexists. split; [done|]. rewrite marks_loop_count.
  pose proof (length_filter (awarded questions values)
                (seq 0 (length questions))) as Hle.
  rewrite length_seq in Hle. lia.
Qed.

(** C10: on every answers value on which [Object.values] is defined, so
    on every object whatever its entries, the score is an integer
    between 0 and the number of questions. *)
Theorem calculateMarks_bounded (questions : list Question)
    (userAnswers : JsValue) :
  userAnswers ≠ JUndefined →
  userAnswers ≠ JNull →
  ∃ mark, calculateMarks questions userAnswers = Some mark
          ∧ (0 ≤ mark ≤ Z.of_nat (length questions))%Z.
Proof.
  intros Hu Hn.
  destruct (objectValues userAnswers) as [values|] eqn:Hv.
  - by apply (calculateMarks_range questions userAnswers values).
  - destruct userAnswers; simpl in Hv; congruence.
Qed.

Lemma calculateMarks_bounded_witness :
  let userAnswers := JObj [("0", JNull); ("7", JStr "x"); ("k", JNum 1)] in
  userAnswers ≠ JUndefined ∧ userAnswers ≠ JNull
  ∧ ∃ mark, calculateMarks ex_q12 userAnswers = Some mark
            ∧ (0 ≤ mark ≤ Z.of_nat (length ex_q12))%Z.
Proof.
  split; [discriminate|]. split; [discriminate|].
  apply calculateMarks_bounded; discriminate.
Defined.

(** ** The store's student collection *)

Lemma find_student_id (i : string) (l : list Student) (st : Student) :
  findById (JStr i) l = Some st → student_id st = i.
Proof.
  simpl. intros H. apply List.find_some in H as [_ H].
  by apply String.eqb_eq in H.
Qed.

(** Reading a student back after an update that keeps ids. *)
Lemma findById_updateOne (i j : string) (f : Student → Student)
    (l : list Student) :
  (∀ st, student_id (f st) = student_id st) →
  findById (JStr i) (updateOne j f l)
  = (if String.eqb j i then f else id) <$> findById (JStr i) l.
Proof.
  intros Hid. simpl. induction l as [|st l IH]; simpl.
  - by destruct (String.eqb j i).
  - destruct (String.eqb (student_id st) j) eqn:Hj; simpl.
    + rewrite Hid. apply String.eqb_eq in Hj. rewrite Hj.
      destruct (String.eqb j i); simpl; [done|].
      by destruct (List.find _ l).
    + destruct (String.eqb (student_id st) i) eqn:Hi; simpl; [|done].
      apply String.eqb_eq in Hi. subst i. by rewrite String.eqb_sym, Hj.
Qed.

Lemma claim_latch_keeping phone start device expires :
  latch_keeping (VerifyRoll.claim phone start device expires).
Proof. split; intros st; simpl; auto. Qed.

Lemma record_result_latch_keeping marks answers :
  latch_keeping (Submit.record_result marks answers).
Proof. split; intros st; simpl; auto. Qed.

Lemma handle_students (h : Host) (req : Request) (s : Server) :
  students (handle h req s).2 = students s
  ∨ ∃ j f, latch_keeping f
           ∧ students (handle h req s).2 = updateOne j f (students s).
Proof.
  destruct req as [r|r|r|r|r]; simpl.
  - unfold SendOtp.POST. repeat case_match; simpl; auto.
  - unfold VerifyOtp.POST, VerifyOtp.POST_with.
    repeat case_match; simpl; auto.
  - unfold VerifyRoll.POST. repeat case_match; simpl; auto.
    right. eexists _, _. split; [apply claim_latch_keeping|done].
  - unfold Questions.GET. repeat case_match; simpl; auto.
  - unfold Submit.POST. repeat case_match; simpl; auto.
    right. eexists _, _. split; [apply record_result_latch_keeping|done].
Qed.

Lemma handle_attempted (h : Host) (req : Request) (s : Server) (i : string) :
  attempted_of i (handle h req s).2 = attempted_of i s
  ∨ attempted_of i (handle h req s).2 = Some true.
Proof.
  unfold attempted_of.
  destruct (handle_students h req s) as [->|(j & f & [Hid Hatt] & ->)];
    [by left|].
  rewrite findById_updateOne by done.
  destruct (findById (JStr i) (students s)) as [st|]; [|by left].
  destruct (String.eqb j i); [|by left]. simpl.
  destruct (Hatt st) as [->| ->]; auto.
Qed.

(** C3: [attempted] is a one-way latch.  A request of any kind leaves a
    student's [attempted] as it was or sets it to true, so once true it
    stays true through every sequence of requests. *)
Theorem attempted_is_a_latch (h : Host) (i : string) :
  (∀ req s, attempted_of i (handle h req s).2 = attempted_of i s
            ∨ attempted_of i (handle h req s).2 = Some true)
  ∧ (∀ reqs s, attempted_of i s = Some true →
               attempted_of i (run h reqs s) = Some true).
Proof.
  split; [intros; apply handle_attempted|].
  intros reqs. unfold run.
  induction reqs as [|req reqs IH]; intros s Hs; simpl; [done|].
  apply IH. destruct (handle_attempted h req s i) as [E|E]; congruence.
Qed.

Lemma attempted_is_a_latch_witness :
  let s := run ex_host
             [SubmitExam (ex_submit [("0", JNum 2); ("1", JNum 3)] 3000)]
             ex_claimed in
  attempted_of "s1" s = Some true
  ∧ attempted_of "s1"
      (run ex_host
         [VerifyRoll ex_claim; SubmitExam (ex_submit [] 4000);
          GetQuestions
            (Questions.mkReq (Some ex_session) (Some "101") 5000 5000 5000 [])]
         s) = Some true.
Proof.
  split; [reflexivity|].
  apply (attempted_is_a_latch ex_host "s1"). reflexivity.
Defined.

(** ** Submission *)

(** C2: a student who has not attempted submits twice under a session
    credential that verifies both times.  The first call succeeds and
    records the score with [attempted] true and the session closed; the
    second is refused with 400 and code ALREADY_ATTEMPTED and changes
    nothing, so the stored marks stay those of the first call. *)
Theorem submit_twice (h : Host) (s : Server) (token : Jwt)
    (payload body1 body2 answers1 answers2 : JsObject)
    (now1 now2 : Z) (student : Student) (form : Form) :
  jwtVerify token (JWT_SECRET h) now1 = Some payload →
  jwtVerify token (JWT_SECRET h) now2 = Some payload →
  findById (get payload "studentId") (students s) = Some student →
  attempted student = false →
  findForm (Submit.courseId_string (get payload "courseId")) (forms s)
  = Some form →
  get body1 "answers" = JObj answers1 →
  get body2 "answers" = JObj answers2 →
  let first :=
    Submit.POST h (Submit.mkReq (Some token) (Some (JObj body1)) now1) s in
  let second :=
    Submit.POST h (Submit.mkReq (Some token) (Some (JObj body2)) now2)
      first.2 in
  (status first.1 = 200%Z ∧ success first.1 = true
   ∧ ∃ student' mark,
       findById (get payload "studentId") (students first.2) = Some student'
       ∧ attempted student' = true
       ∧ isActive (sessionData student') = false
       ∧ calculateMarks (questions form) (JObj answers1) = Some mark
       ∧ marks student' = Some mark)
  ∧ status second.1 = 400%Z
  ∧ success second.1 = false
  ∧ body second.1 = BCode "ALREADY_ATTEMPTED"
  ∧ second.2 = first.2.
Proof.
  intros Hv1 Hv2 Hst Hatt Hform Ha1 Ha2.
  destruct (get payload "studentId") as [| | | |i| |] eqn:Hid;
    try discriminate.
  pose proof (find_student_id _ _ _ Hst) as Hi.
  destruct (calculateMarks_range (questions form) (JObj answers1) _ eq_refl)
    as (mark & Hmark & _).
  assert (Submit.POST h (Submit.mkReq (Some token) (Some (JObj body1)) now1) s
          = (mkResponse 200 true "Exam submitted successfully"
               (BSubmitted (length (questions form))) None,
             mkServer (otps s)
               (updateOne i (Submit.record_result mark (JObj answers1))
                  (students s))
               (forms s) (rateLimitCache s) (QUESTION_CACHE s))) as E1.
  { unfold Submit.POST.
    cbn [Submit.cookie Submit.json Submit.verify_now].
    rewrite Hv1. cbn [mbind option_bind Submit.answers_of].
    rewrite Ha1. cbn [truthy negb].
    rewrite Hid, Hst, Hatt, Hform, Hmark, Hi. done. }
  cbv zeta. rewrite E1. cbn [fst snd].
  assert (findById (JStr i)
            (updateOne i (Submit.record_result mark (JObj answers1))
               (students s))
          = Some (Submit.record_result mark (JObj answers1) student)) as E2.
  { rewrite findById_updateOne by apply record_result_latch_keeping.
    rewrite String.eqb_refl, Hst. done. }
  split.
  - split; [done|]. split; [done|].
    exists (Submit.record_result mark (JObj answers1) student), mark.
    cbn [students]. done.
  - unfold Submit.POST. cbn [Submit.cookie Submit.json Submit.verify_now].
    rewrite Hv2. cbn [mbind option_bind Submit.answers_of].
    rewrite Ha2. cbn [truthy negb]. rewrite Hid. cbn [students].
    rewrite E2. done.
Qed.

Lemma submit_twice_witness :
  let first :=
    Submit.POST ex_host (ex_submit [("0", JNum 2); ("1", JNum 3)] 3000)
      ex_claimed in
  let second := Submit.POST ex_host (ex_submit [("0", JNum 1)] 4000) first.2 in
  (marks <$> findById (JStr "s1") (students ex_claimed)) = Some None
  ∧ status first.1 = 200%Z
  ∧ (marks <$> findById (JStr "s1") (students first.2)) = Some (Some 2%Z)
  ∧ status second.1 = 400%Z
  ∧ body second.1 = BCode "ALREADY_ATTEMPTED"
  ∧ second.2 = first.2.
Proof.
  pose proof (submit_twice ex_host ex_claimed ex_session
                (jwt_payload ex_session)
                [("answers", JObj [("0", JNum 2); ("1", JNum 3)])]
                [("answers", JObj [("0", JNum 1)])]
                [("0", JNum 2); ("1", JNum 3)] [("0", JNum 1)]
                3000 4000
                (VerifyRoll.claim (Some "9876543210") 2000 "Mozilla/5.0"
                   18002000 ex_student)
                (mkForm "101" ex_q12)
                eq_refl eq_refl eq_refl eq_refl eq_refl eq_refl eq_refl) as H.
  cbv zeta in H. destruct H as ((H1 & _ & _) & H2 & _ & H3 & H4).
  cbv zeta. unfold ex_submit.
  split; [reflexivity|]. split; [exact H1|]. split; [reflexivity|].
  split; [exact H2|]. split; [exact H3|exact H4].
Defined.

(** ** Session claim *)

(** The time fields recompose the time value they were taken from. *)
Lemma time_fields (t : Z) :
  Date.MakeDate (Date.Day t)
    (Date.MakeTime (Date.HourFromTime t) (Date.MinFromTime t)
       (Date.SecFromTime t) (Date.msFromTime t)) = t.
Proof.
  unfold Date.MakeDate, Date.MakeTime, Date.Day, Date.HourFromTime,
    Date.MinFromTime, Date.SecFromTime, Date.msFromTime, Date.msPerDay,
    Date.msPerHour, Date.msPerMinute, Date.msPerSecond.
  Z.div_mod_to_equations. lia.
Qed.

(** Setting the hour five past the current one moves the local time
    forward by five hours. *)
Lemma setHours_plus_5 (tza : Z → bool → Z) (t : Z) :
  Date.setHours tza t (Date.getHours tza t + 5)
  = Date.UTC tza (Date.LocalTime tza t + 5 * Date.msPerHour)%Z.
Proof.
  unfold Date.setHours, Date.getHours. cbv zeta. f_equal.
  pose proof (time_fields (Date.LocalTime tza t)) as H.
  unfold Date.MakeDate, Date.MakeTime in *. lia.
Qed.

(** In a zone whose offset does not change, that is five hours later. *)
Lemma five_hours_on_fixed_zone (h : Host) (offset t : Z) :
  (∀ u isUTC, LocalTZA h u isUTC = offset) →
  VerifyRoll.five_hours_on h t = (t + 5 * 60 * 60 * 1000)%Z.
Proof.
  intros Hz. unfold VerifyRoll.five_hours_on. rewrite setHours_plus_5.
  unfold Date.UTC, Date.LocalTime, Date.msPerHour. rewrite !Hz. lia.
Qed.

Lemma findByRollNo_has_id (roll : string) (l : list Student)
    (student : Student) :
  findByRollNo roll l = Some student →
  ∃ st, findById (JStr (student_id student)) l = Some st.
Proof.
  intros H. apply List.find_some in H as [Hin _]. simpl.
  destruct (List.find _ l) as [st|] eqn:Hf; [by exists st|].
  pose proof (List.find_none _ _ Hf _ Hin) as Hn. simpl in Hn.
  by rewrite String.eqb_refl in Hn.
Qed.

(** C4: for a student who has not attempted, presenting a valid
    verification credential, the claim is refused with 409 exactly when
    the stored session is active and its expiry lies after the clock
    reading of the check (the message names the occupying device).  In
    every other case, an active but expired session included, the claim
    succeeds and one update stores the session as active, started at
    the clock reading of the update, on the device derived from the
    user-agent header.  The expiry it stores is not always five hours
    later: [setHours(getHours() + 5)] moves the wall clock of the
    server's zone five hours on, which is five hours of time only where
    the zone's offset does not change in between.  On a server on US
    Eastern time a claim at 04:30 UTC on 10 March 2024, over a session
    that expired an hour before, stores an expiry four hours later,
    while the cookie set by the same response lasts five. *)
Theorem claimSession_expiry_follows_the_wall_clock (h : Host)
    (r : VerifyRoll.Req) (s : Server) (roll phone : string) (token : Jwt)
    (payload : JsObject) (student : Student) :
  VerifyRoll.json r = Some (VerifyRoll.mkBody (Some roll) (Some token)) →
  roll ≠ "" →
  jwtVerify token (JWT_SECRET h) (VerifyRoll.verify_now r) = Some payload →
  get payload "verified" = JBool true →
  get payload "phone" = JStr phone →
  findByRollNo (trim h roll) (students s) = Some student →
  attempted student = false →
  (0 ≤ VerifyRoll.check_now r)%Z →
  let out := VerifyRoll.POST h r s in
  let occupied :=
    isActive (sessionData student) = true
    ∧ ∃ e, expiresAt (sessionData student) = Some e
           ∧ (VerifyRoll.check_now r < e)%Z in
  (status out.1 = 409%Z ↔ occupied)
  ∧ (occupied →
     message out.1
     = VerifyRoll.conflict_message
         (or_else (deviceId (sessionData student)) "another device")
     ∧ out.2 = s)
  ∧ (¬ occupied →
     status out.1 = 200%Z ∧ success out.1 = true
     ∧ ∃ student',
         findById (JStr (student_id student)) (students out.2)
         = Some student'
         ∧ sessionData student'
           = mkSession true (Some (VerifyRoll.start_now r))
               (Some (substring 0 50
                        (or_else (VerifyRoll.userAgent r) "unknown")))
               (Some (Date.UTC (LocalTZA h)
                        (Date.LocalTime (LocalTZA h) (VerifyRoll.expiry_now r)
                         + 5 * 60 * 60 * 1000)%Z)))
  ∧ (∀ offset, (∀ u isUTC, LocalTZA h u isUTC = offset) →
       Date.UTC (LocalTZA h)
         (Date.LocalTime (LocalTZA h) (VerifyRoll.expiry_now r)
          + 5 * 60 * 60 * 1000)%Z
       = (VerifyRoll.expiry_now r + 5 * 60 * 60 * 1000)%Z)
  ∧ (let now := 1710045000000%Z in
     let hour := 3600000%Z in
     let served :=
       VerifyRoll.POST ex_eastern_host (ex_eastern_claim now)
         (ex_occupied (now - hour)) in
     status served.1 = 200%Z
     ∧ (sessionData <$> findById (JStr "s1") (students served.2))
       = Some (mkSession true (Some now) (Some "Mozilla/5.0")
                 (Some (now + 4 * hour)%Z))
     ∧ (maxAge <$> set_cookie served.1) = Some (5 * 60 * 60)%Z).
Proof.
  intros Hjson Hroll Hv Hver Hphone Hfind Hatt Hnow out occupied.
  assert ((isActive (sessionData student)
           && (VerifyRoll.check_now r
               <? default 0 (expiresAt (sessionData student)))%Z) = true
          ↔ occupied) as Hocc.
  { unfold occupied. rewrite andb_true_iff, Z.ltb_lt.
    destruct (expiresAt (sessionData student)) as [e|]; simpl.
    - split; [intros []; eauto|]. by intros [? (? & [= <-] & ?)].
    - split; [lia|]. by intros [? (? & ? & ?)]. }
  destruct (findByRollNo_has_id _ _ _ Hfind) as [st0 Hst0].
  assert (∀ offset, (∀ u isUTC, LocalTZA h u isUTC = offset) →
            Date.UTC (LocalTZA h)
              (Date.LocalTime (LocalTZA h) (VerifyRoll.expiry_now r)
               + 5 * 60 * 60 * 1000)%Z
            = (VerifyRoll.expiry_now r + 5 * 60 * 60 * 1000)%Z) as Hfixed.
  { intros offset Hz. unfold Date.UTC, Date.LocalTime. rewrite !Hz. lia. }
  assert (∀ A B C : Prop, A → B → C → A ∧ B ∧ C) as pack by tauto.
  cut ((status out.1 = 409%Z ↔ occupied)
       ∧ (occupied →
          message out.1
          = VerifyRoll.conflict_message
              (or_else (deviceId (sessionData student)) "another device")
          ∧ out.2 = s)
       ∧ (¬ occupied →
          status out.1 = 200%Z ∧ success out.1 = true
          ∧ ∃ student',
              findById (JStr (student_id student)) (students out.2)
              = Some student'
              ∧ sessionData student'
                = mkSession true (Some (VerifyRoll.start_now r))
                    (Some (substring 0 50
                             (or_else (VerifyRoll.userAgent r) "unknown")))
                    (Some (Date.UTC (LocalTZA h)
                             (Date.LocalTime (LocalTZA h)
                                (VerifyRoll.expiry_now r)
                              + 5 * 60 * 60 * 1000)%Z)))).
  { intros (H1 & H2 & H3). split; [exact H1|]. split; [exact H2|].
    split; [exact H3|]. split; [exact Hfixed|].
    cbv zeta. apply pack; reflexivity. }
  subst out. unfold VerifyRoll.POST. rewrite Hjson.
  cbn [VerifyRoll.rollNumber VerifyRoll.token or_else].
  destruct roll as [|c roll']; [done|]. cbn [String.eqb].
  rewrite Hv, Hver, Hphone. cbn [truthy negb castString].
  rewrite Hfind, Hatt.
  destruct (isActive (sessionData student)
            && (VerifyRoll.check_now r
                <? default 0 (expiresAt (sessionData student)))%Z) eqn:Hc.
  - assert occupied as Ho by (by apply Hocc).
    cbn [fst snd status message failure]. split; [done|].
    split; [done|]. done.
  - assert (¬ occupied) as Hno by (intros Ho; by apply Hocc in Ho).
    cbn [fst snd status success students]. split; [split; [done|tauto]|].
    split; [tauto|]. intros _. split; [done|]. split; [done|].
    rewrite findById_updateOne by apply claim_latch_keeping.
    rewrite String.eqb_refl, Hst0.
    eexists. split; [done|]. cbn [VerifyRoll.claim sessionData].
    unfold VerifyRoll.five_hours_on. by rewrite setHours_plus_5.
Qed.

Lemma claimSession_expiry_follows_the_wall_clock_witness :
  let now := 1710045000000%Z in
  let hour := 3600000%Z in
  status (VerifyRoll.POST ex_eastern_host (ex_eastern_claim now)
            (ex_occupied (now + hour))).1 = 409%Z
  ∧ status (VerifyRoll.POST ex_eastern_host (ex_eastern_claim now)
              (ex_occupied (now - hour))).1 = 200%Z
  ∧ ∃ student',
      findById (JStr "s1")
        (students (VerifyRoll.POST ex_eastern_host (ex_eastern_claim now)
                     (ex_occupied (now - hour))).2) = Some student'
      ∧ sessionData student'
        = mkSession true (Some now) (Some "Mozilla/5.0")
            (Some (now + 4 * hour)%Z).
Proof.
  intros now hour.
  pose proof (fun e =>
    claimSession_expiry_follows_the_wall_clock ex_eastern_host
      (ex_eastern_claim now) (ex_occupied e) "R001" "9876543210" _ _
      (ex_holder e)
      eq_refl ltac:(discriminate) eq_refl eq_refl eq_refl eq_refl eq_refl
      ltac:(simpl; lia)) as H.
  cbv zeta in H.
  destruct (H (now + hour)%Z) as (Hiff & _).
  destruct (H (now - hour)%Z) as (_ & _ & Hfree & _).
  destruct Hfree as (Hst & _ & student' & Hf & Hs).
  { intros [_ (e & [= <-] & He)].
    unfold now, hour in He. simpl in He. lia. }
  split; [|split].
  - apply Hiff. split; [done|]. eexists. split; [done|].
    unfold now, hour. simpl. lia.
  - exact Hst.
  - exists student'. split; [exact Hf|]. rewrite Hs. reflexivity.
Defined.

(** ** One-time passcodes *)

Lemma or_else_empty (x : string) : or_else (Some x) "" = x.
Proof. simpl. destruct (String.eqb_spec x ""); congruence. Qed.

Lemma digits_nonempty (n : nat) (x : string) :
  digits (S n) x = true → String.eqb x "" = false.
Proof. by destruct x. Qed.

(** C8: a code verifies at most once.  Two calls with the same
    well-formed phone and code, the second served right after the first:
    whatever the first call answered, the second is refused with 400
    "Invalid OTP" and changes nothing; a first call that succeeded left
    no record for the phone.  A first call that finds a live matching
    record deletes it, and answers with the credential where the name
    [SignJWT] is bound and with 500 where it is not, as in the route. *)
Theorem verifyCode_single_use (signer : VerifyOtp.Binding) (h : Host)
    (r1 r2 : VerifyOtp.Req) (s : Server) (phone code : string) :
  VerifyOtp.json r1 = Some (VerifyOtp.mkBody (Some phone) (Some code)) →
  VerifyOtp.json r2 = Some (VerifyOtp.mkBody (Some phone) (Some code)) →
  digits 10 phone = true →
  digits 6 code = true →
  let first := VerifyOtp.POST_with signer h r1 s in
  let second := VerifyOtp.POST_with signer h r2 first.2 in
  (success first.1 = true → otps first.2 !! phone = None)
  ∧ second.1 = failure 400 VerifyOtp.invalid_message
  ∧ second.2 = first.2
  ∧ (∀ rec, otps s !! phone = Some rec → OTP.otp rec = code →
            (VerifyOtp.now r1 - OTP.createdAt rec ≤ 5 * 60 * 1000)%Z →
            otps first.2 !! phone = None
            ∧ status first.1 = (if VerifyOtp.bound signer then 200 else 500)%Z
            ∧ success first.1 = VerifyOtp.bound signer).
Proof.
  intros Hj1 Hj2 Hp Hc.
  pose proof (digits_nonempty _ _ Hp) as Hp0.
  pose proof (digits_nonempty _ _ Hc) as Hc0.
  assert (∀ r s', VerifyOtp.json r
                  = Some (VerifyOtp.mkBody (Some phone) (Some code)) →
                  otps s' !! phone = None →
                  VerifyOtp.POST_with signer h r s'
                  = (failure 400 VerifyOtp.invalid_message, s')) as Hmiss.
  { intros r s' Hj Hnone. unfold VerifyOtp.POST_with. rewrite Hj.
    cbn [VerifyOtp.phone VerifyOtp.otp]. rewrite !or_else_empty.
    rewrite Hp0, Hc0, Hp, Hc, Hnone. done. }
  assert (∀ r s' rec, VerifyOtp.json r
                  = Some (VerifyOtp.mkBody (Some phone) (Some code)) →
                  otps s' !! phone = Some rec → OTP.otp rec ≠ code →
                  VerifyOtp.POST_with signer h r s'
                  = (failure 400 VerifyOtp.invalid_message, s')) as Hother.
  { intros r s' rec Hj Hsome Hne. unfold VerifyOtp.POST_with. rewrite Hj.
    cbn [VerifyOtp.phone VerifyOtp.otp]. rewrite !or_else_empty.
    rewrite Hp0, Hc0, Hp, Hc, Hsome.
    destruct (String.eqb_spec (OTP.otp rec) code); done. }
  cbv zeta.
  destruct (otps s !! phone) as [rec|] eqn:Hrec.
  - destruct (String.eqb_spec (OTP.otp rec) code) as [Heq|Hne].
    + assert (otps (VerifyOtp.POST_with signer h r1 s).2 !! phone = None
              ∧ status (VerifyOtp.POST_with signer h r1 s).1
                = (if (5 * 60 * 1000 <? VerifyOtp.now r1 - OTP.createdAt rec)%Z
                   then 400 else if VerifyOtp.bound signer then 200 else 500)%Z
              ∧ success (VerifyOtp.POST_with signer h r1 s).1
                = (if (5 * 60 * 1000 <? VerifyOtp.now r1 - OTP.createdAt rec)%Z
                   then false else VerifyOtp.bound signer))
        as (Hgone & Hstat & Hsucc).
      { unfold VerifyOtp.POST_with. rewrite Hj1.
        cbn [VerifyOtp.phone VerifyOtp.otp]. rewrite !or_else_empty.
        rewrite Hp0, Hc0, Hp, Hc, Hrec. cbn [orb negb].
        rewrite (proj2 (String.eqb_eq _ _) Heq).
        destruct (5 * 60 * 1000 <? VerifyOtp.now r1 - OTP.createdAt rec)%Z;
          [|destruct signer]; cbn [fst snd otps status success failure];
          by rewrite lookup_delete_eq. }
      split; [done|]. rewrite (Hmiss r2 _ Hj2 Hgone).
      split; [done|]. split; [done|].
      intros rec' [= <-] _ Hage. split; [done|].
      rewrite Hstat, Hsucc.
      destruct (Z.ltb_spec (5 * 60 * 1000)
                  (VerifyOtp.now r1 - OTP.createdAt rec)); [lia|done].
    + rewrite (Hother r1 s rec Hj1 Hrec Hne). cbn [fst snd success failure].
      split; [done|]. rewrite (Hother r2 s rec Hj2 Hrec Hne).
      split; [done|]. split; [done|]. intros rec' [= <-] Hcode. done.
  - rewrite (Hmiss r1 s Hj1 Hrec). cbn [fst snd success failure].
    split; [done|]. rewrite (Hmiss r2 s Hj2 Hrec). done.
Qed.

Lemma verifyCode_single_use_witness :
  let s := (SendOtp.POST ex_host (ex_send 0) (boot ∅ [] [])).2 in
  let first := VerifyOtp.POST ex_host (ex_verify 30000) s in
  let second := VerifyOtp.POST ex_host (ex_verify 31000) first.2 in
  (OTP.otp <$> otps s !! "9876543210") = Some "123456"
  ∧ otps first.2 !! "9876543210" = None
  ∧ status first.1 = 500%Z
  ∧ second.1 = failure 400 "Invalid OTP"
  ∧ status (VerifyOtp.POST_with (Some SignJWT) ex_host (ex_verify 30000) s).1
    = 200%Z.
Proof.
  intros s first second.
  pose proof (fun signer =>
    verifyCode_single_use signer ex_host (ex_verify 30000) (ex_verify 31000)
      s "9876543210" "123456" eq_refl eq_refl eq_refl eq_refl) as H.
  cbv zeta in H. split; [reflexivity|].
  destruct (H None) as (_ & H2 & _ & H4).
  destruct (H4 (OTP.mk "+91" "123456" 5) eq_refl eq_refl ltac:(simpl; lia))
    as (H5 & H6 & _).
  split; [exact H5|]. split; [exact H6|]. split; [exact H2|].
  destruct (H (Some SignJWT)) as (_ & _ & _ & H7).
  by destruct (H7 (OTP.mk "+91" "123456" 5) eq_refl eq_refl
                 ltac:(simpl; lia)) as (_ & H8 & _).
Defined.

(** The rate limit lets a request through unless its key has reached
    the maximum inside the window. *)
Lemma rate_limit_passes (key : string) (now : Z) (c : gmap string RateLimit) :
  (∀ u, c !! key = Some u →
        (now - timestamp u < SendOtp.RATE_LIMIT_WINDOW)%Z →
        (count u < SendOtp.MAX_REQUESTS)%Z) →
  is_Some (SendOtp.rate_limit key now c).
Proof.
  intros H. unfold SendOtp.rate_limit.
  destruct (c !! key) as [u|]; [|done].
  destruct (Z.ltb_spec (now - timestamp u) SendOtp.RATE_LIMIT_WINDOW);
    [|done].
  specialize (H u eq_refl ltac:(done)).
  destruct (Z.leb_spec SendOtp.MAX_REQUESTS (count u)); [lia|done].
Qed.

(** What a request with a well-formed phone does, by the three checks
    it goes through. *)
Lemma send_otp_cases (h : Host) (r : SendOtp.Req) (s : Server)
    (b : SendOtp.ReqBody) (phone : string) :
  SendOtp.json r = Some b →
  SendOtp.phone b = Some phone →
  digits 10 phone = true →
  let key := or_else (SendOtp.ip r) "unknown" ++ ":" ++ phone in
  match SendOtp.rate_limit key (SendOtp.now r) (rateLimitCache s) with
  | None =>
      SendOtp.POST h r s = (failure 429 SendOtp.too_many_message, s)
  | Some cache =>
      match otps s !! phone with
      | Some existing =>
          if (SendOtp.now r - OTP.createdAt existing <? 60000)%Z then
            (SendOtp.POST h r s).1 = failure 429 SendOtp.resend_message
            ∧ otps (SendOtp.POST h r s).2 = otps s
          else
            status (SendOtp.POST h r s).1 = 200%Z
            ∧ (OTP.createdAt <$> otps (SendOtp.POST h r s).2 !! phone)
              = Some (SendOtp.created r)
      | None =>
          status (SendOtp.POST h r s).1 = 200%Z
          ∧ (OTP.createdAt <$> otps (SendOtp.POST h r s).2 !! phone)
            = Some (SendOtp.created r)
      end
  end.
Proof.
  intros Hj Hb Hp key. unfold SendOtp.POST. rewrite Hj, Hb.
  rewrite or_else_empty, Hp. cbn [negb]. fold key.
  destruct (SendOtp.rate_limit key (SendOtp.now r) (rateLimitCache s));
    [|done].
  destruct (otps s !! phone) as [existing|].
  - destruct (SendOtp.now r - OTP.createdAt existing <? 60000)%Z;
      cbn [fst snd otps status]; [done|].
    by rewrite lookup_insert_eq.
  - cbn [fst snd otps status]. by rewrite lookup_insert_eq.
Qed.

Lemma send_otp_ok_valid (h : Host) (r : SendOtp.Req) (s : Server)
    (b : SendOtp.ReqBody) (phone : string) :
  SendOtp.json r = Some b →
  SendOtp.phone b = Some phone →
  status (SendOtp.POST h r s).1 = 200%Z →
  digits 10 phone = true.
Proof.
  intros Hj Hb. unfold SendOtp.POST. rewrite Hj, Hb, or_else_empty.
  by destruct (digits 10 phone).
Qed.

(** C9 as the code has it: after a request for a phone succeeded, a
    second request for the same phone made while the stored code is
    younger than 60 seconds is refused with 429, as a resend too soon
    when the rate limit of its (address, phone) pair lets it through
    and as too many requests when that limit is reached; once 60
    seconds have passed, a request the rate limit lets through is
    served. *)
Theorem resend_refused_for_a_minute (h : Host) (r1 r2 : SendOtp.Req)
    (s : Server) (b1 b2 : SendOtp.ReqBody) (phone : string) :
  SendOtp.json r1 = Some b1 → SendOtp.phone b1 = Some phone →
  SendOtp.json r2 = Some b2 → SendOtp.phone b2 = Some phone →
  let first := SendOtp.POST h r1 s in
  let second := SendOtp.POST h r2 first.2 in
  let limit :=
    SendOtp.rate_limit (or_else (SendOtp.ip r2) "unknown" ++ ":" ++ phone)
      (SendOtp.now r2) (rateLimitCache first.2) in
  status first.1 = 200%Z →
  ((SendOtp.now r2 - SendOtp.created r1 < 60000)%Z →
   status second.1 = 429%Z
   ∧ otps second.2 = otps first.2
   ∧ (is_Some limit → message second.1 = SendOtp.resend_message)
   ∧ (limit = None → message second.1 = SendOtp.too_many_message))
  ∧ ((60000 ≤ SendOtp.now r2 - SendOtp.created r1)%Z →
     is_Some limit → status second.1 = 200%Z).
Proof.
  intros Hj1 Hb1 Hj2 Hb2 first second limit Hok.
  pose proof (send_otp_ok_valid h r1 s b1 phone Hj1 Hb1 Hok) as Hp.
  assert ((OTP.createdAt <$> otps first.2 !! phone)
          = Some (SendOtp.created r1)) as Hrec.
  { pose proof (send_otp_cases h r1 s b1 phone Hj1 Hb1 Hp) as H.
    cbv zeta in H. subst first.
    destruct (SendOtp.rate_limit _ _ (rateLimitCache s)).
    - destruct (otps s !! phone) as [existing|]; [|by destruct H].
      destruct (SendOtp.now r1 - OTP.createdAt existing <? 60000)%Z;
        destruct H as [H1 H2]; [|done].
      rewrite H1 in Hok. done.
    - rewrite H in Hok. done. }
  pose proof (send_otp_cases h r2 first.2 b2 phone Hj2 Hb2 Hp) as H.
  cbv zeta in H. subst second limit.
  destruct (otps first.2 !! phone) as [existing|]; [|done].
  injection Hrec as Hrec. rewrite Hrec in H.
  destruct (SendOtp.rate_limit _ _ (rateLimitCache first.2)) as [cache|].
  - destruct (Z.ltb_spec (SendOtp.now r2 - SendOtp.created r1) 60000);
      destruct H as [H1 H2].
    + split; [|lia]. intros _. rewrite H1.
      split; [done|]. split; [done|]. split; [done|]. done.
    + split; [lia|]. done.
  - split.
    + intros _. rewrite H. cbn [fst snd].
      split; [done|]. split; [done|]. split; [by intros [? ?]|done].
    + by intros _ [? ?].
Qed.

Lemma resend_refused_for_a_minute_witness :
  let first := SendOtp.POST ex_host (ex_send 0) (boot ∅ [] []) in
  status first.1 = 200%Z
  ∧ (SendOtp.POST ex_host (ex_send 59000) first.2).1
    = failure 429 "Please wait before requesting another OTP"
  ∧ status (SendOtp.POST ex_host (ex_send 60005) first.2).1 = 200%Z.
Proof.
  intros first.
  pose proof (fun now =>
    resend_refused_for_a_minute ex_host (ex_send 0) (ex_send now)
      (boot ∅ [] []) _ _ "9876543210" eq_refl eq_refl eq_refl eq_refl
      eq_refl) as H.
  cbv zeta in H. split; [reflexivity|]. split; [reflexivity|].
  apply (H 60005%Z); [simpl; lia|]. apply rate_limit_passes.
  intros u Hu _. vm_compute in Hu. injection Hu as <-. simpl.
  unfold SendOtp.MAX_REQUESTS. lia.
Defined.

(** C9 as worded fails: a second request inside the minute can be
    refused as too many requests instead of as a resend too soon.  The
    store is the one five requests leave, the fifth being the
    successful first call of the pair. *)
Lemma resend_too_soon_counterexample :
  ¬ (∀ (h : Host) (r1 r2 : SendOtp.Req) (s : Server)
       (b1 b2 : SendOtp.ReqBody) (phone : string),
       SendOtp.json r1 = Some b1 → SendOtp.phone b1 = Some phone →
       SendOtp.json r2 = Some b2 → SendOtp.phone b2 = Some phone →
       digits 10 phone = true →
       status (SendOtp.POST h r1 s).1 = 200%Z →
       (SendOtp.now r2 - SendOtp.created r1 < 60000)%Z →
       message (SendOtp.POST h r2 (SendOtp.POST h r1 s).2).1
       = SendOtp.resend_message).
Proof.
  intros H.
  specialize (H ex_host (ex_send 61000) (ex_send 62000)
                (run ex_host
                   [SendOtp (ex_send 0); SendOtp (ex_send 1000);
                    SendOtp (ex_send 2000); SendOtp (ex_send 3000)]
                   (boot ∅ [] []))
                _ _ "9876543210" eq_refl eq_refl eq_refl eq_refl eq_refl
                eq_refl ltac:(simpl; lia)).
  vm_compute in H. discriminate H.
Qed.

(** ** Question delivery *)

(** No claim of a session credential is named [formId]: the claim with
    the course is [courseId]. *)
Lemma session_token_claims (h : Host) (r : VerifyRoll.Req) (s : Server)
    (c : Cookie) :
  set_cookie (VerifyRoll.POST h r s).1 = Some c →
  get (jwt_payload (cookie_value c)) "formId" = JUndefined
  ∧ ∃ student, get (jwt_payload (cookie_value c)) "courseId"
               = of_number (Course_ID student)
               ∧ findByRollNo
                   (trim h (or_else (VerifyRoll.json r ≫= VerifyRoll.rollNumber) ""))
                   (students s) = Some student.
Proof.
  unfold VerifyRoll.POST.
  destruct (VerifyRoll.json r) as [b|]; [|done]. simpl mbind.
  cbn [option_bind].
  destruct (or_else (VerifyRoll.rollNumber b) "") as [|a roll]; [done|].
  destruct (VerifyRoll.token b) as [token|]; [|done].
  destruct (jwtVerify token (JWT_SECRET h) (VerifyRoll.verify_now r))
    as [payload|]; [|done].
  destruct (truthy (get payload "verified")); [|done]. cbn [negb].
  destruct (findByRollNo _ (students s)) as [student|] eqn:Hfind; [|done].
  destruct (attempted student); [done|].
  destruct (isActive (sessionData student) && _); [done|].
  destruct (castString (get payload "phone")) as [phone'|]; [|done].
  cbn [fst set_cookie]. intros [= <-]. cbn [cookie_value].
  split.
  - destruct (get payload "phone"), (Student_RollNo student),
      (Student_Name student), (Course_ID student); reflexivity.
  - exists student. split; [|done].
    destruct (get payload "phone"), (Student_RollNo student),
      (Student_Name student), (Course_ID student); reflexivity.
Qed.

(** A question request without a [formId] parameter under a credential
    issued by the session claim is refused with 400, whatever course the
    credential carries. *)
Lemma questions_need_the_parameter (h : Host) (claim : VerifyRoll.Req)
    (s0 s : Server) (c : Cookie) (q : Questions.Req) :
  set_cookie (VerifyRoll.POST h claim s0).1 = Some c →
  Questions.cookie q = Some (cookie_value c) →
  Questions.formId q = None →
  Questions.GET h q s = (failure 401 "Invalid or expired session", s)
  ∨ Questions.GET h q s = (failure 400 "Form ID is required", s).
Proof.
  intros Hc Hq Hf. apply session_token_claims in Hc as [Hno _].
  unfold Questions.GET. rewrite Hq, Hf.
  destruct (jwtVerify (cookie_value c) (JWT_SECRET h) (Questions.verify_now q))
    as [payload|] eqn:Hv; [right|by left].
  assert (payload = jwt_payload (cookie_value c)) as ->.
  { unfold jwtVerify in Hv. repeat case_match; congruence. }
  unfold Questions.requested_form. by rewrite Hno.
Qed.

(** C7, at a concrete request: the credential of a student of course 101
    carries [courseId] 101, form "101" exists and the submit route finds
    it through the credential, yet a question request without the
    [formId] parameter is answered 400 "Form ID is required". *)
Theorem getQuestions_without_formId :
  (cookie_value <$> set_cookie (VerifyRoll.POST ex_host ex_claim ex_server).1)
  = Some ex_session
  ∧ get (jwt_payload ex_session) "courseId" = JNum 101
  ∧ (formId <$>
       findForm (Submit.courseId_string (get (jwt_payload ex_session) "courseId"))
         (forms ex_claimed)) = Some "101"
  ∧ Questions.GET ex_host
      (Questions.mkReq (Some ex_session) None 3000 3000 3000 []) ex_claimed
    = (failure 400 "Form ID is required", ex_claimed)
  ∧ status (Questions.GET ex_host
              (Questions.mkReq (Some ex_session) (Some "101") 3000 3000 3000 [])
              ex_claimed).1 = 200%Z.
Proof. repeat split; reflexivity. Qed.

(** *** The shuffle rearranges what it is given *)

Section Shuffle.
Context {T : Type}.

Lemma swap_Permutation (a : list T) (i j : nat) :
  Questions.swap a i j ≡ₚ a.
Proof.
  unfold Questions.swap.
  destruct (a !! i) as [x|] eqn:Hi; [|done].
  destruct (a !! j) as [y|] eqn:Hj; [|done].
  by apply Permutation_insert_swap.
Qed.

Lemma shuffle_from_Permutation (i : nat) (draws : list nat) (a : list T) :
  Questions.shuffle_from i draws a ≡ₚ a.
Proof.
  revert draws a. induction i as [|i IH]; intros draws a; simpl; [done|].
  by rewrite IH, swap_Permutation.
Qed.

(** Whatever the draws, the shuffle returns a rearrangement of its
    argument. *)
Lemma shuffleArray_Permutation (draws : list nat) (a : list T) :
  Questions.shuffleArray draws a ≡ₚ a.
Proof. apply shuffle_from_Permutation. Qed.

Lemma shuffleArray_Forall (P : T → Prop) (draws : list nat) (a : list T) :
  Forall P a → Forall P (Questions.shuffleArray draws a).
Proof. by rewrite shuffleArray_Permutation. Qed.
End Shuffle.

(** *** The cache as a map *)

Section CacheMap.
Context {V : Type}.
Implicit Types (m : list (JsValue * V)) (k : JsValue) (v : V).

Lemma get_Forall (P : V → Prop) m k v :
  Forall (fun kv => P kv.2) m → JsMap.get m k = Some v → P v.
Proof.
  induction 1 as [|[k' v'] m Hv _ IH]; simpl; [done|].
  destruct (sameValueZero k' k); [by intros [= <-]|done].
Qed.

Lemma set_Forall (P : V → Prop) m k v :
  Forall (fun kv => P kv.2) m → P v →
  Forall (fun kv => P kv.2) (JsMap.set m k v).
Proof.
  intros Hm Hv. induction Hm as [|[k' v'] m Hv' Hm IH]; simpl.
  - by constructor.
  - destruct (sameValueZero k' k); by constructor.
Qed.

Lemma get_set_same m k v :
  sameValueZero k k = true → JsMap.get (JsMap.set m k v) k = Some v.
Proof.
  intros Hk. induction m as [|[k' v'] m IH]; simpl.
  - by rewrite Hk.
  - destruct (sameValueZero k' k) eqn:E; simpl; by rewrite E.
Qed.

Lemma set_present m k v v0 :
  JsMap.get m k = Some v0 →
  JsMap.size (JsMap.set m k v) = JsMap.size m.
Proof.
  unfold JsMap.size. induction m as [|[k' v'] m IH]; simpl; [done|].
  destruct (sameValueZero k' k); simpl; [done|]. intros H. by rewrite IH.
Qed.

Lemma set_absent m k v :
  JsMap.get m k = None → JsMap.set m k v = (m ++ [(k, v)])%list.
Proof.
  induction m as [|[k' v'] m IH]; simpl; [done|].
  destruct (sameValueZero k' k); [done|]. intros H. by rewrite IH.
Qed.

Lemma get_app_absent m m' k :
  JsMap.get m k = None → JsMap.get (m ++ m')%list k = JsMap.get m' k.
Proof.
  induction m as [|[k' v'] m IH]; simpl; [done|].
  destruct (sameValueZero k' k); [done|]. apply IH.
Qed.

Lemma get_tail_absent m k :
  JsMap.get m k = None → JsMap.get (tail m) k = None.
Proof.
  destruct m as [|[k' v'] m]; simpl; [done|].
  by destruct (sameValueZero k' k).
Qed.

(** The entry just stored survives the eviction that follows it,
    provided the map was within its capacity before. *)
Lemma stored_entry_survives m k v (cap : nat) :
  sameValueZero k k = true →
  (JsMap.size m ≤ cap)%nat → (0 < cap)%nat →
  let m1 := JsMap.set m k v in
  let m2 := if Nat.ltb cap (JsMap.size m1)
            then Questions.evict_oldest m1 else m1 in
  JsMap.get m2 k = Some v ∧ (JsMap.size m2 ≤ cap)%nat.
Proof.
  intros Hk Hsize Hcap. cbv zeta.
  destruct (JsMap.get m k) as [v0|] eqn:Hget.
  - rewrite (set_present _ _ _ _ Hget).
    destruct (Nat.ltb_spec cap (JsMap.size m)); [lia|].
    by rewrite get_set_same, (set_present _ _ _ _ Hget).
  - rewrite (set_absent _ _ _ Hget). unfold JsMap.size in *.
    rewrite length_app. simpl.
    destruct (Nat.ltb_spec cap (length m + 1)).
    + unfold Questions.evict_oldest. destruct m as [|kv m]; simpl in *;
        [lia|].
      split; [|rewrite length_app; simpl; lia].
      rewrite get_app_absent; [simpl; by rewrite Hk|].
      apply (get_tail_absent (kv :: m) k Hget).
    + split; [|rewrite length_app; simpl; lia].
      rewrite get_app_absent by done. simpl. by rewrite Hk.
Qed.
End CacheMap.

Lemma size_set_le {V} (m : list (JsValue * V)) (k : JsValue) (v : V) :
  (JsMap.size (JsMap.set m k v) ≤ S (JsMap.size m))%nat.
Proof.
  unfold JsMap.size. induction m as [|[k' v'] m IH]; simpl; [lia|].
  destruct (sameValueZero k' k); simpl; lia.
Qed.

Lemma safeQuestion_sanitized (q : Question) :
  sanitized (Questions.safeQuestion q).
Proof. reflexivity. Qed.

Lemma sanitized_no_answer_key (q : JsObject) :
  sanitized q → q.*1 = ["id"; "question"; "options"] ∧ "correctAnswer" ∉ q.*1.
Proof.
  unfold sanitized, client_fields. intros ->. split; [done|].
  rewrite !elem_of_cons, elem_of_nil. intros [|[|[|[]]]]; discriminate.
Qed.

(** *** What a question request does *)

(** A cache hit: the stored entry is returned and nothing changes. *)
Lemma GET_hit (h : Host) (r : Questions.Req) (s : Server) (token : Jwt)
    (payload : JsObject) (id : string) (e : CacheEntry) :
  Questions.cookie r = Some token →
  jwtVerify token (JWT_SECRET h) (Questions.verify_now r) = Some payload →
  Questions.formId r = Some id → id ≠ "" →
  JsMap.get (QUESTION_CACHE s) (JStr id) = Some e →
  (Questions.check_now r - entry_timestamp e < Questions.CACHE_DURATION)%Z →
  Questions.GET h r s
  = (mkResponse 200 true ""
       (BQuestions (JStr id) (entry_questions e)
          (length (entry_questions e)) true) None, s).
Proof.
  intros Hc Hv Hf Hne Hget Hfresh. unfold Questions.GET.
  rewrite Hc, Hv, Hf. unfold Questions.requested_form.
  destruct (String.eqb_spec id ""); [done|].
  cbn [truthy]. destruct (String.eqb_spec id ""); [done|]. cbn [negb].
  rewrite Hget.
  by destruct (Z.ltb_spec (Questions.check_now r - entry_timestamp e)
                 Questions.CACHE_DURATION); [|lia].
Qed.

(** Every successful answer is a hit on a stored entry or a miss that
    stores what it answers. *)
Lemma GET_ok (h : Host) (r : Questions.Req) (s : Server) :
  status (Questions.GET h r s).1 = 200%Z →
  ∃ token payload id qs,
    Questions.cookie r = Some token ∧
    jwtVerify token (JWT_SECRET h) (Questions.verify_now r) = Some payload ∧
    id = Questions.requested_form (Questions.formId r) payload ∧
    truthy id = true ∧
    ((∃ e, JsMap.get (QUESTION_CACHE s) id = Some e
           ∧ entry_questions e = qs
           ∧ Questions.GET h r s
             = (mkResponse 200 true "" (BQuestions id qs (length qs) true)
                  None, s))
     ∨ (∃ key form,
          castString id = Some key
          ∧ findForm key (forms s) = Some form
          ∧ qs = Questions.shuffleArray (Questions.random r)
                   (Questions.safeQuestion <$> questions form)
          ∧ (Questions.GET h r s).1
            = mkResponse 200 true "" (BQuestions id qs (length qs) false) None
          ∧ otps (Questions.GET h r s).2 = otps s
          ∧ students (Questions.GET h r s).2 = students s
          ∧ forms (Questions.GET h r s).2 = forms s
          ∧ rateLimitCache (Questions.GET h r s).2 = rateLimitCache s
          ∧ QUESTION_CACHE (Questions.GET h r s).2
            = let cache := JsMap.set (QUESTION_CACHE s) id
                             (mkEntry qs (Questions.store_now r)) in
              if Nat.ltb Questions.MAX_CACHE_ENTRIES (JsMap.size cache)
              then Questions.evict_oldest cache else cache)).
Proof.
  unfold Questions.GET.
  destruct (Questions.cookie r) as [token|]; [|done].
  destruct (jwtVerify token _ _) as [payload|] eqn:Hv; [|done].
  set (id := Questions.requested_form (Questions.formId r) payload).
  destruct (truthy id) eqn:Hid; [|done]. cbn [negb].
  destruct (JsMap.get (QUESTION_CACHE s) id) as [e|] eqn:Hget.
  - destruct (Questions.check_now r - entry_timestamp e
              <? Questions.CACHE_DURATION)%Z.
    + intros _. exists token, payload, id, (entry_questions e).
      do 4 (split; [done|]). left. by exists e.
    + destruct (castString id) as [key|] eqn:Hkey; [|done].
      destruct (findForm key (forms s)) as [form|] eqn:Hform; [|done].
      intros _. eexists token, payload, id, _.
      do 4 (split; [done|]). right. by exists key, form.
  - destruct (castString id) as [key|] eqn:Hkey; [|done].
    destruct (findForm key (forms s)) as [form|] eqn:Hform; [|done].
    intros _. eexists token, payload, id, _.
    do 4 (split; [done|]). right. by exists key, form.
Qed.

Lemma GET_body (h : Host) (r : Questions.Req) (s : Server) id qs n hit :
  body (Questions.GET h r s).1 = BQuestions id qs n hit →
  status (Questions.GET h r s).1 = 200%Z.
Proof. unfold Questions.GET. repeat case_match; simpl; done. Qed.

(** *** Invariants of the cache *)

Lemma handle_cache (h : Host) (req : Request) (s : Server) :
  QUESTION_CACHE (handle h req s).2 = QUESTION_CACHE s
  ∨ ∃ r, req = GetQuestions r ∧ status (Questions.GET h r s).1 = 200%Z.
Proof.
  destruct req as [r|r|r|r|r]; simpl.
  - left. unfold SendOtp.POST. repeat case_match; done.
  - left. unfold VerifyOtp.POST, VerifyOtp.POST_with.
    repeat case_match; done.
  - left. unfold VerifyRoll.POST. repeat case_match; done.
  - destruct (decide (status (Questions.GET h r s).1 = 200%Z)) as [E|E];
      [right; by exists r|left].
    revert E. unfold Questions.GET. repeat case_match; simpl; done.
  - left. unfold Submit.POST. repeat case_match; done.
Qed.

Lemma handle_cache_invariant (h : Host) (req : Request) (s : Server) :
  cache_sanitized (QUESTION_CACHE s) ∧ cache_bounded (QUESTION_CACHE s) →
  cache_sanitized (QUESTION_CACHE (handle h req s).2)
  ∧ cache_bounded (QUESTION_CACHE (handle h req s).2).
Proof.
  intros [Hs Hb].
  destruct (handle_cache h req s) as [->|(r & -> & Hok)]; [done|]. simpl.
  destruct (GET_ok h r s Hok)
    as (_ & _ & id & qs & _ & _ & _ & _ & [(e & _ & _ & ->)|H]); [done|].
  destruct H as (key & form & _ & _ & Hqs & _ & _ & _ & _ & _ & ->).
  cbv zeta.
  assert (Forall sanitized qs) as Hsafe.
  { subst qs. apply shuffleArray_Forall, Forall_fmap, Forall_true.
    intros q. apply safeQuestion_sanitized. }
  pose proof (set_Forall (fun e => Forall sanitized (entry_questions e))
                (QUESTION_CACHE s) id
                (mkEntry qs (Questions.store_now r)) Hs Hsafe) as Hset.
  pose proof (size_set_le (QUESTION_CACHE s) id
                (mkEntry qs (Questions.store_now r))) as Hsize.
  unfold cache_sanitized, cache_bounded in *.
  destruct (Nat.ltb_spec Questions.MAX_CACHE_ENTRIES
              (JsMap.size (JsMap.set (QUESTION_CACHE s) id
                             (mkEntry qs (Questions.store_now r))))).
  - unfold Questions.evict_oldest, JsMap.size in *.
    destruct (JsMap.set _ _ _) as [|kv m]; simpl in *; [lia|].
    split; [by inversion Hset|lia].
  - done.
Qed.

Lemma run_cache_invariant (h : Host) (reqs : list Request) (s : Server) :
  cache_sanitized (QUESTION_CACHE s) ∧ cache_bounded (QUESTION_CACHE s) →
  cache_sanitized (QUESTION_CACHE (run h reqs s))
  ∧ cache_bounded (QUESTION_CACHE (run h reqs s)).
Proof.
  unfold run. revert s. induction reqs as [|req reqs IH]; intros s Hs;
    simpl; [done|].
  by apply IH, handle_cache_invariant.
Qed.

Lemma boot_cache_invariant o st f :
  cache_sanitized (QUESTION_CACHE (boot o st f))
  ∧ cache_bounded (QUESTION_CACHE (boot o st f)).
Proof.
  split; [constructor|]. unfold cache_bounded, Questions.MAX_CACHE_ENTRIES.
  simpl. lia.
Qed.

(** C5: every question payload the server sends, on a cache miss and on
    a cache hit alike, consists of objects with exactly the fields id,
    question and options; no object has a correctAnswer field.  The
    server is any state reached from a fresh process. *)
Theorem questions_payload_is_sanitized (h : Host) (o : gmap string OTP.t)
    (st : list Student) (f : list Form) (reqs : list Request)
    (req : Request) (id : JsValue) (qs : list JsObject) (n : nat)
    (hit : bool) :
  body (handle h req (run h reqs (boot o st f))).1 = BQuestions id qs n hit →
  Forall (fun q => q.*1 = ["id"; "question"; "options"]
                   ∧ "correctAnswer" ∉ q.*1) qs.
Proof.
  destruct (run_cache_invariant h reqs (boot o st f)
              (boot_cache_invariant o st f)) as [Hs _].
  set (s := run h reqs (boot o st f)) in *. clearbody s.
  intros Hbody. eapply Forall_impl; [|apply sanitized_no_answer_key].
  destruct req as [r|r|r|r|r]; simpl in Hbody.
  - revert Hbody. unfold SendOtp.POST. repeat case_match; done.
  - revert Hbody. unfold VerifyOtp.POST, VerifyOtp.POST_with.
    repeat case_match; done.
  - revert Hbody. unfold VerifyRoll.POST. repeat case_match; done.
  - pose proof (GET_body _ _ _ _ _ _ _ Hbody) as Hok.
    destruct (GET_ok h r s Hok) as (_ & _ & id' & qs' & _ & _ & _ & _ & [H|H]).
    + destruct H as (e & Hget & <- & E). rewrite E in Hbody.
      injection Hbody as _ <- _ _.
      apply (get_Forall (fun e => Forall sanitized (entry_questions e))
               _ _ _ Hs Hget).
    + destruct H as (key & form & _ & _ & Hqs & E & _). rewrite E in Hbody.
      injection Hbody as _ <- _ _. subst qs'.
      apply shuffleArray_Forall, Forall_fmap, Forall_true.
      intros q. apply safeQuestion_sanitized.
  - revert Hbody. unfold Submit.POST. repeat case_match; done.
Qed.

Lemma questions_payload_is_sanitized_witness :
  let s := run ex_host [VerifyRoll ex_claim; GetQuestions (ex_fetch 3000 [1])]
             ex_server in
  ∃ qs, body (handle ex_host (GetQuestions (ex_fetch 4000 [])) s).1
        = BQuestions (JStr "101") qs 2 true
        ∧ Forall (fun q => q.*1 = ["id"; "question"; "options"]
                           ∧ "correctAnswer" ∉ q.*1) qs.
Proof.
  eexists. split; [reflexivity|].
  eapply (questions_payload_is_sanitized ex_host ∅ [ex_student]
            [mkForm "101" ex_q12]
            [VerifyRoll ex_claim; GetQuestions (ex_fetch 3000 [1])]
            (GetQuestions (ex_fetch 4000 []))).
  reflexivity.
Defined.

(** C6: after a successful question request for a form id, the cache
    holds the questions that request returned, and every later request
    for the same id whose cache check falls within an hour of the
    entry's timestamp returns that same list in the same order, flagged
    as a cache hit, whatever its own shuffle draws; the server is left
    as it was.  The server is any state reached from a fresh process. *)
Theorem cached_questions_served_verbatim (h : Host) (o : gmap string OTP.t)
    (st : list Student) (f : list Form) (reqs : list Request)
    (r1 : Questions.Req) (id : string) :
  let s := run h reqs (boot o st f) in
  let first := Questions.GET h r1 s in
  Questions.formId r1 = Some id → id ≠ "" →
  status first.1 = 200%Z →
  ∃ e hit,
    JsMap.get (QUESTION_CACHE first.2) (JStr id) = Some e
    ∧ body first.1
      = BQuestions (JStr id) (entry_questions e)
          (length (entry_questions e)) hit
    ∧ (hit = false →
       entry_timestamp e = Questions.store_now r1
       ∧ ∃ form, findForm (Some id) (forms s) = Some form
                 ∧ entry_questions e
                   = Questions.shuffleArray (Questions.random r1)
                       (Questions.safeQuestion <$> questions form)
                 ∧ entry_questions e
                   ≡ₚ Questions.safeQuestion <$> questions form)
    ∧ ∀ (r2 : Questions.Req) token payload,
        Questions.cookie r2 = Some token →
        jwtVerify token (JWT_SECRET h) (Questions.verify_now r2)
        = Some payload →
        Questions.formId r2 = Some id →
        (Questions.check_now r2 - entry_timestamp e
         < Questions.CACHE_DURATION)%Z →
        Questions.GET h r2 first.2
        = (mkResponse 200 true ""
             (BQuestions (JStr id) (entry_questions e)
                (length (entry_questions e)) true) None, first.2).
Proof.
  intros s first Hf Hne Hok.
  destruct (run_cache_invariant h reqs (boot o st f)
              (boot_cache_invariant o st f)) as [_ Hb].
  fold s in Hb. clearbody s.
  assert (∃ e hit,
            JsMap.get (QUESTION_CACHE first.2) (JStr id) = Some e
            ∧ body first.1
              = BQuestions (JStr id) (entry_questions e)
                  (length (entry_questions e)) hit
            ∧ (hit = false →
               entry_timestamp e = Questions.store_now r1
               ∧ ∃ form, findForm (Some id) (forms s) = Some form
                         ∧ entry_questions e
                           = Questions.shuffleArray (Questions.random r1)
                               (Questions.safeQuestion <$> questions form)
                         ∧ entry_questions e
                           ≡ₚ Questions.safeQuestion <$> questions form))
    as (e & hit & Hget & Hbody & Hmiss).
  { subst first.
    destruct (GET_ok h r1 s Hok) as (_ & payload & id' & qs & _ & _ & -> & _ & H).
    rewrite Hf in H. unfold Questions.requested_form in H.
    destruct (String.eqb_spec id ""); [done|].
    destruct H as [(e & Hget & <- & ->)|H].
    - exists e, true. cbn [fst snd body]. done.
    - destruct H as (key & form & Hkey & Hform & Hqs & E & _ & _ & _ & _ & Hc).
      injection Hkey as <-.
      exists (mkEntry qs (Questions.store_now r1)), false.
      rewrite E, Hc. cbn [body entry_questions entry_timestamp].
      split; [|split; [done|]].
      + apply (stored_entry_survives (QUESTION_CACHE s) (JStr id)
                 (mkEntry qs (Questions.store_now r1))
                 Questions.MAX_CACHE_ENTRIES).
        * simpl. apply String.eqb_refl.
        * apply Hb.
        * unfold Questions.MAX_CACHE_ENTRIES. lia.
      + intros _. split; [done|]. exists form. split; [done|].
        split; [done|]. subst qs. apply shuffleArray_Permutation. }
  exists e, hit. split; [done|]. split; [done|]. split; [done|].
  intros r2 token payload Hc Hv Hf2 Hfresh.
  by apply (GET_hit h r2 first.2 token payload id e).
Qed.

Lemma cached_questions_served_verbatim_witness :
  let s := run ex_host [VerifyRoll ex_claim] ex_server in
  let first := Questions.GET ex_host (ex_fetch 3000 [0]) s in
  let second := Questions.GET ex_host (ex_fetch 3602999 [1]) first.2 in
  let late := Questions.GET ex_host (ex_fetch 3603000 [1]) first.2 in
  status first.1 = 200%Z
  ∧ (∃ qs, body first.1 = BQuestions (JStr "101") qs 2 false
           ∧ body second.1 = BQuestions (JStr "101") qs 2 true)
  ∧ (∃ qs, body late.1 = BQuestions (JStr "101") qs 2 false).
Proof.
  intros s first second late.
  destruct (cached_questions_served_verbatim ex_host ∅ [ex_student]
              [mkForm "101" ex_q12] [VerifyRoll ex_claim] (ex_fetch 3000 [0])
              "101" eq_refl ltac:(discriminate) eq_refl)
    as (e & hit & Hget & _ & _ & Hnext).
  vm_compute in Hget. injection Hget as <-.
  specialize (Hnext (ex_fetch 3602999 [1]) ex_session (jwt_payload ex_session)
                eq_refl eq_refl eq_refl
                ltac:(simpl; unfold Questions.CACHE_DURATION; lia)).
  split; [reflexivity|]. split; [|eexists; reflexivity].
  eexists. split; [reflexivity|].
  exact (f_equal (fun out => body out.1) Hnext).
Defined.

(** * Further properties of the handlers *)

(** ** Question delivery: shuffle, miss path and eviction *)

Lemma shuffleArray_length (T : Type) (draws : list nat) (array : list T) :
  length (Questions.shuffleArray draws array) = length array.
Proof. by rewrite shuffleArray_Permutation. Qed.

(** X1: whatever the random draws, [shuffleArray] returns a
    rearrangement of its argument: the same elements with the same
    multiplicities, hence as many. *)
Theorem shuffleArray_rearranges (T : Type) (draws : list nat)
    (array : list T) :
  Questions.shuffleArray draws array ≡ₚ array
  ∧ length (Questions.shuffleArray draws array) = length array.
Proof.
  pose proof (shuffleArray_Permutation draws array) as H.
  split; [done|]. by rewrite H.
Qed.

(** What a request computes when the cache has no fresh entry for the
    requested id. *)
Lemma GET_miss (h : Host) (r : Questions.Req) (s : Server) (token : Jwt)
    (payload : JsObject) (id : string) :
  Questions.cookie r = Some token →
  jwtVerify token (JWT_SECRET h) (Questions.verify_now r) = Some payload →
  Questions.formId r = Some id → id ≠ "" →
  (∀ e, JsMap.get (QUESTION_CACHE s) (JStr id) = Some e →
        (Questions.CACHE_DURATION
         ≤ Questions.check_now r - entry_timestamp e)%Z) →
  Questions.GET h r s
  = match findForm (Some id) (forms s) with
    | None => (failure 404 "Form not found", s)
    | Some form =>
        let qs := Questions.shuffleArray (Questions.random r)
                    (Questions.safeQuestion <$> questions form) in
        let cache := JsMap.set (QUESTION_CACHE s) (JStr id)
                       (mkEntry qs (Questions.store_now r)) in
        (mkResponse 200 true "" (BQuestions (JStr id) qs (length qs) false)
           None,
         mkServer (otps s) (students s) (forms s) (rateLimitCache s)
           (if Nat.ltb Questions.MAX_CACHE_ENTRIES (JsMap.size cache)
            then Questions.evict_oldest cache else cache))
    end.
Proof.
  intros Hc Hv Hf Hne Hstale. unfold Questions.GET.
  rewrite Hc, Hv, Hf. unfold Questions.requested_form.
  destruct (String.eqb_spec id ""); [done|].
  cbn [truthy]. destruct (String.eqb_spec id ""); [done|]. cbn [negb].
  destruct (JsMap.get (QUESTION_CACHE s) (JStr id)) as [e|] eqn:Hget.
  - specialize (Hstale e eq_refl).
    destruct (Z.ltb_spec (Questions.check_now r - entry_timestamp e)
                Questions.CACHE_DURATION); [lia|].
    cbn [castString]. by destruct (findForm (Some id) (forms s)).
  - cbn [castString]. by destruct (findForm (Some id) (forms s)).
Qed.

(** X2: a request for a form id that has no fresh cache entry answers
    from the store.  If the form exists the answer is 200 with the
    form's questions, each reduced to id, question and options, in some
    order, [totalQuestions] being the form's number of questions and
    [cacheHit] false, and only the cache changes; if no form has that
    id the answer is 404 and nothing changes. *)
Theorem questions_miss_answers_from_store (h : Host) (r : Questions.Req)
    (s : Server) (token : Jwt) (payload : JsObject) (id : string) :
  Questions.cookie r = Some token →
  jwtVerify token (JWT_SECRET h) (Questions.verify_now r) = Some payload →
  Questions.formId r = Some id → id ≠ "" →
  (∀ e, JsMap.get (QUESTION_CACHE s) (JStr id) = Some e →
        (Questions.CACHE_DURATION
         ≤ Questions.check_now r - entry_timestamp e)%Z) →
  let out := Questions.GET h r s in
  (findForm (Some id) (forms s) = None →
   out = (failure 404 "Form not found", s))
  ∧ (∀ form, findForm (Some id) (forms s) = Some form →
       ∃ qs, out.1 = mkResponse 200 true ""
                       (BQuestions (JStr id) qs (length (questions form))
                          false) None
             ∧ qs ≡ₚ Questions.safeQuestion <$> questions form
             ∧ otps out.2 = otps s ∧ students out.2 = students s
             ∧ forms out.2 = forms s
             ∧ rateLimitCache out.2 = rateLimitCache s).
Proof.
  intros Hc Hv Hf Hne Hstale out. subst out.
  rewrite (GET_miss h r s token payload id Hc Hv Hf Hne Hstale).
  split; [by intros ->|]. intros form ->. cbv zeta.
  eexists. cbn [fst snd otps students forms rateLimitCache].
  split; [|split; [apply shuffleArray_Permutation|done]].
  by rewrite shuffleArray_length, length_fmap.
Qed.

Lemma questions_miss_answers_from_store_witness :
  let r := ex_fetch 3000 [1] in
  let out := Questions.GET ex_host r ex_claimed in
  (∀ e, JsMap.get (QUESTION_CACHE ex_claimed) (JStr "101") = Some e →
        (Questions.CACHE_DURATION
         ≤ Questions.check_now r - entry_timestamp e)%Z)
  ∧ ∃ qs, out.1 = mkResponse 200 true ""
                    (BQuestions (JStr "101") qs 2 false) None
          ∧ qs ≡ₚ Questions.safeQuestion <$> ex_q12.
Proof.
  intros r out.
  assert (∀ e, JsMap.get (QUESTION_CACHE ex_claimed) (JStr "101") = Some e →
               (Questions.CACHE_DURATION
                ≤ Questions.check_now r - entry_timestamp e)%Z) as Hstale
    by (intros e He; discriminate He).
  split; [exact Hstale|].
  destruct (questions_miss_answers_from_store ex_host r ex_claimed ex_session
              (jwt_payload ex_session) "101" eq_refl eq_refl eq_refl
              ltac:(discriminate) Hstale) as [_ H].
  destruct (H (mkForm "101" ex_q12) eq_refl) as (qs & H1 & H2 & _).
  by exists qs.
Defined.

Lemma question_cache_bound_helper (h : Host) (o : gmap string OTP.t)
    (st : list Student) (f : list Form) (reqs : list Request) :
  (JsMap.size (QUESTION_CACHE (run h reqs (boot o st f)))
   ≤ Questions.MAX_CACHE_ENTRIES)%nat.
Proof.
  apply (run_cache_invariant h reqs (boot o st f)
           (boot_cache_invariant o st f)).
Qed.

(** X3: the question cache of a process never holds more than
    [MAX_CACHE_ENTRIES] entries, whatever requests it has served. *)
Theorem question_cache_stays_bounded (h : Host) (o : gmap string OTP.t)
    (st : list Student) (f : list Form) (reqs : list Request) :
  (JsMap.size (QUESTION_CACHE (run h reqs (boot o st f))) ≤ 100)%nat.
Proof.
  apply (run_cache_invariant h reqs (boot o st f)
           (boot_cache_invariant o st f)).
Qed.

(** X4: eviction is first-in, first-out.  When the cache is full and a
    form id it does not hold is fetched, the entry inserted first is
    dropped, the other entries keep their order and the new entry comes
    last. *)
Theorem full_cache_evicts_the_oldest (h : Host) (r : Questions.Req)
    (s : Server) (token : Jwt) (payload : JsObject) (id : string)
    (form : Form) :
  Questions.cookie r = Some token →
  jwtVerify token (JWT_SECRET h) (Questions.verify_now r) = Some payload →
  Questions.formId r = Some id → id ≠ "" →
  JsMap.get (QUESTION_CACHE s) (JStr id) = None →
  JsMap.size (QUESTION_CACHE s) = Questions.MAX_CACHE_ENTRIES →
  findForm (Some id) (forms s) = Some form →
  QUESTION_CACHE (Questions.GET h r s).2
  = (tail (QUESTION_CACHE s)
     ++ [(JStr id,
          mkEntry (Questions.shuffleArray (Questions.random r)
                     (Questions.safeQuestion <$> questions form))
            (Questions.store_now r))])%list.
Proof.
  intros Hc Hv Hf Hne Hget Hsize Hform.
  rewrite (GET_miss h r s token payload id Hc Hv Hf Hne)
    by (intros e He; congruence).
  rewrite Hform. cbv zeta. cbn [snd QUESTION_CACHE].
  rewrite (set_absent _ _ _ Hget). unfold JsMap.size in *.
  rewrite length_app, Hsize. simpl.
  destruct (QUESTION_CACHE s) as [|kv m]; [discriminate Hsize|]. done.
Qed.

Lemma full_cache_evicts_the_oldest_witness :
  let s := mkServer ∅ [ex_student] [mkForm "101" ex_q12] ∅ ex_full_cache in
  JsMap.get (QUESTION_CACHE s) (JStr "101") = None
  ∧ JsMap.size (QUESTION_CACHE s) = 100%nat
  ∧ (QUESTION_CACHE (Questions.GET ex_host (ex_fetch 3000 []) s).2).*1
    = (((fun i => JStr (pretty (Z.of_nat i))) <$> seq 1 99)
       ++ [JStr "101"])%list.
Proof.
  intros s. split; [reflexivity|]. split; [reflexivity|].
  rewrite (full_cache_evicts_the_oldest ex_host (ex_fetch 3000 []) s
             ex_session (jwt_payload ex_session) "101"
             (mkForm "101" ex_q12) eq_refl eq_refl eq_refl
             ltac:(discriminate) eq_refl eq_refl eq_refl).
  reflexivity.
Defined.

Lemma set_keeps_keys {V} (m : list (JsValue * V)) (k : JsValue) (v v0 : V) :
  JsMap.get m k = Some v0 → (JsMap.set m k v).*1 = m.*1.
Proof.
  induction m as [|[k' v'] m IH]; simpl; [done|].
  destruct (sameValueZero k' k); simpl; [done|].
  intros H. f_equal. by apply IH.
Qed.

(** X5: refreshing a stale entry does not move it.  When the requested
    id has an entry older than [CACHE_DURATION], the request stores the
    new shuffle and timestamp under the same key at the same place: the
    order of the keys, which is the eviction order, is unchanged and no
    entry is evicted. *)
Theorem stale_entry_is_refreshed_in_place (h : Host)
    (o : gmap string OTP.t) (st : list Student) (f : list Form)
    (reqs : list Request) (r : Questions.Req) (token : Jwt)
    (payload : JsObject) (id : string) (e : CacheEntry) (form : Form) :
  let s := run h reqs (boot o st f) in
  Questions.cookie r = Some token →
  jwtVerify token (JWT_SECRET h) (Questions.verify_now r) = Some payload →
  Questions.formId r = Some id → id ≠ "" →
  JsMap.get (QUESTION_CACHE s) (JStr id) = Some e →
  (Questions.CACHE_DURATION ≤ Questions.check_now r - entry_timestamp e)%Z →
  findForm (Some id) (forms s) = Some form →
  (QUESTION_CACHE (Questions.GET h r s).2).*1 = (QUESTION_CACHE s).*1
  ∧ JsMap.get (QUESTION_CACHE (Questions.GET h r s).2) (JStr id)
    = Some (mkEntry (Questions.shuffleArray (Questions.random r)
                       (Questions.safeQuestion <$> questions form))
              (Questions.store_now r)).
Proof.
  intros s Hc Hv Hf Hne Hget Hstale Hform.
  pose proof (question_cache_bound_helper h o st f reqs) as Hb. fold s in Hb.
  clearbody s.
  rewrite (GET_miss h r s token payload id Hc Hv Hf Hne)
    by (intros e' He'; congruence).
  rewrite Hform. cbv zeta. cbn [snd QUESTION_CACHE].
  rewrite (set_present _ _ _ _ Hget).
  destruct (Nat.ltb_spec Questions.MAX_CACHE_ENTRIES
              (JsMap.size (QUESTION_CACHE s))); [lia|].
  split; [|apply get_set_same; simpl; apply String.eqb_refl].
  by apply (set_keeps_keys _ _ _ e).
Qed.

Lemma stale_entry_is_refreshed_in_place_witness :
  let r := ex_fetch 3603000 [1] in
  (JsMap.get (QUESTION_CACHE ex_fetched) (JStr "101")
   = Some (mkEntry (Questions.shuffleArray [0]
                      (Questions.safeQuestion <$> ex_q12)) 3000))
  ∧ (QUESTION_CACHE (Questions.GET ex_host r ex_fetched).2).*1 = [JStr "101"]
  ∧ (entry_timestamp <$>
       JsMap.get (QUESTION_CACHE (Questions.GET ex_host r ex_fetched).2)
         (JStr "101")) = Some 3603000%Z.
Proof.
  intros r.
  destruct (stale_entry_is_refreshed_in_place ex_host ∅ [ex_student]
              [mkForm "101" ex_q12]
              [VerifyRoll ex_claim; GetQuestions (ex_fetch 3000 [0])] r
              ex_session (jwt_payload ex_session) "101"
              (mkEntry (Questions.shuffleArray [0]
                          (Questions.safeQuestion <$> ex_q12)) 3000)
              (mkForm "101" ex_q12) eq_refl eq_refl eq_refl
              ltac:(discriminate) eq_refl
              ltac:(simpl; unfold Questions.CACHE_DURATION; lia) eq_refl)
    as [H1 H2].
  split; [reflexivity|]. split; [exact H1|].
  unfold ex_fetched. by rewrite H2.
Defined.

(** ** Credentials *)

Lemma get_set_eq (o : JsObject) (k : string) (v : JsValue) :
  get (set o k v) k = v.
Proof.
  induction o as [|[k' v'] o IH]; simpl.
  - by rewrite String.eqb_refl.
  - destruct (String.eqb k' k) eqn:E; simpl; by rewrite E.
Qed.

(** A token verifies under its key until its [exp]. *)
Lemma jwtVerify_SignJWT (claims : JsObject) (span : Z) (key : string)
    (now t : Z) :
  jwtVerify (SignJWT claims span key now) key t
  = if (epoch_seconds now + span <=? epoch_seconds t)%Z then None
    else Some (jwt_payload (SignJWT claims span key now)).
Proof.
  unfold jwtVerify, SignJWT. cbn [jwt_key jwt_payload].
  by rewrite String.eqb_refl, get_set_eq.
Qed.

(** The cookie of a successful session claim. *)
Lemma session_cookie_shape (h : Host) (r : VerifyRoll.Req) (s : Server)
    (c : Cookie) :
  set_cookie (VerifyRoll.POST h r s).1 = Some c →
  ∃ claims,
    cookie_value c
    = SignJWT claims (5 * 60 * 60) (JWT_SECRET h) (VerifyRoll.sign_now r)
    ∧ get (json_object claims) "verified" = JUndefined.
Proof.
  unfold VerifyRoll.POST. intros H.
  repeat case_match; try discriminate H.
  cbn [fst set_cookie] in H. injection H as <-. cbn [cookie_value].
  eexists. split; [done|].
  destruct (get _ "phone"), (Student_RollNo _), (Student_Name _),
    (Course_ID _); reflexivity.
Qed.

(** X6: the session credential set by a successful claim verifies at a
    clock reading [t] exactly while [t], in whole seconds, is less than
    five hours past the second it was signed in.  From then on the
    submit and question routes answer 401 and change nothing. *)
Theorem session_credential_lasts_five_hours (h : Host)
    (r : VerifyRoll.Req) (s : Server) (c : Cookie) (t : Z) :
  set_cookie (VerifyRoll.POST h r s).1 = Some c →
  let expiry := (epoch_seconds (VerifyRoll.sign_now r) + 5 * 60 * 60)%Z in
  ((epoch_seconds t < expiry)%Z →
   jwtVerify (cookie_value c) (JWT_SECRET h) t
   = Some (jwt_payload (cookie_value c)))
  ∧ ((expiry ≤ epoch_seconds t)%Z →
     (∀ s' body,
        Submit.POST h (Submit.mkReq (Some (cookie_value c)) body t) s'
        = (failure 401 "Invalid or expired session", s'))
     ∧ (∀ s' id t1 t2 draws,
          Questions.GET h
            (Questions.mkReq (Some (cookie_value c)) id t t1 t2 draws) s'
          = (failure 401 "Invalid or expired session", s'))).
Proof.
  intros Hc expiry.
  destruct (session_cookie_shape h r s c Hc) as (claims & -> & _).
  pose proof (jwtVerify_SignJWT claims (5 * 60 * 60) (JWT_SECRET h)
                (VerifyRoll.sign_now r) t) as Hv.
  fold expiry in Hv.
  destruct (Z.leb_spec expiry (epoch_seconds t)).
  - split; [lia|]. intros _. split.
    + intros s' body. unfold Submit.POST. cbn [Submit.cookie Submit.verify_now].
      by rewrite Hv.
    + intros s' id t1 t2 draws. unfold Questions.GET.
      cbn [Questions.cookie Questions.verify_now]. by rewrite Hv.
  - split; [done|lia].
Qed.

Lemma session_credential_lasts_five_hours_witness :
  let out := VerifyRoll.POST ex_host ex_claim ex_server in
  (cookie_value <$> set_cookie out.1) = Some ex_session
  ∧ status (Submit.POST ex_host (ex_submit [("0", JNum 2)] 18001999)
              out.2).1 = 200%Z
  ∧ status (Submit.POST ex_host (ex_submit [("0", JNum 2)] 18002000)
              out.2).1 = 401%Z.
Proof.
  intros out. split; [reflexivity|]. split; [reflexivity|].
  destruct (session_credential_lasts_five_hours ex_host ex_claim ex_server
              (mkCookie ex_session true true (5 * 60 * 60) "/") 18002000
              eq_refl) as [_ H].
  destruct (H ltac:(vm_compute; discriminate)) as [H1 _].
  unfold ex_submit. by rewrite H1.
Defined.

(** X7: a session credential is not accepted in place of a verification
    credential.  Presented as the token of a session claim it is
    answered 401, and nothing changes: it carries no [verified] claim. *)
Theorem session_credential_cannot_claim (h : Host) (r0 r : VerifyRoll.Req)
    (s0 s : Server) (c : Cookie) (roll : string) :
  set_cookie (VerifyRoll.POST h r0 s0).1 = Some c →
  VerifyRoll.json r
  = Some (VerifyRoll.mkBody (Some roll) (Some (cookie_value c))) →
  roll ≠ "" →
  status (VerifyRoll.POST h r s).1 = 401%Z ∧ (VerifyRoll.POST h r s).2 = s.
Proof.
  intros Hc Hj Hroll.
  destruct (session_cookie_shape h r0 s0 c Hc) as (claims & E & Hno).
  unfold VerifyRoll.POST. rewrite Hj.
  cbn [VerifyRoll.rollNumber VerifyRoll.token or_else].
  destruct roll as [|a roll]; [done|]. cbn [String.eqb].
  rewrite E, jwtVerify_SignJWT.
  destruct (_ <=? _)%Z; [done|].
  assert (get (jwt_payload
                 (SignJWT claims (5 * 60 * 60) (JWT_SECRET h)
                    (VerifyRoll.sign_now r0))) "verified" = JUndefined) as ->.
  { unfold SignJWT. cbn [jwt_payload].
    assert (∀ o k v, k ≠ "verified" →
                     get (set o k v) "verified" = get o "verified") as Hset.
    { intros o k v Hk. induction o as [|[k' v'] o IH]; simpl.
      - by destruct (String.eqb_spec k "verified").
      - destruct (String.eqb_spec k' k) as [->|]; simpl; [|by rewrite IH].
        by destruct (String.eqb_spec k "verified"). }
    by rewrite !Hset. }
  done.
Qed.

Lemma session_credential_cannot_claim_witness :
  let r := VerifyRoll.mkReq
             (Some (VerifyRoll.mkBody (Some "R001") (Some ex_session)))
             None 3000 3000 3000 3000 3000 3000 in
  (cookie_value <$> set_cookie (VerifyRoll.POST ex_host ex_claim ex_server).1)
  = Some ex_session
  ∧ (VerifyRoll.POST ex_host r ex_server).1
    = failure 401 "Phone number not verified".
Proof.
  intros r. split; [reflexivity|].
  pose proof (session_credential_cannot_claim ex_host ex_claim r ex_server
                ex_server (mkCookie ex_session true true (5 * 60 * 60) "/")
                "R001" eq_refl eq_refl ltac:(discriminate)) as [H _].
  reflexivity.
Defined.

(** X8: with a [formId] parameter the question route never looks into
    the credential: two requests that differ only in which verifying
    token they present are answered alike.  So a token whose course is
    another one, or a verification credential that names no student,
    fetches the form as well. *)
Theorem questions_ignore_the_credential (h : Host) (s : Server)
    (token1 token2 : Jwt) (payload1 payload2 : JsObject) (id : string)
    (t1 t2 check store : Z) (draws : list nat) :
  id ≠ "" →
  jwtVerify token1 (JWT_SECRET h) t1 = Some payload1 →
  jwtVerify token2 (JWT_SECRET h) t2 = Some payload2 →
  Questions.GET h
    (Questions.mkReq (Some token1) (Some id) t1 check store draws) s
  = Questions.GET h
      (Questions.mkReq (Some token2) (Some id) t2 check store draws) s.
Proof.
  intros Hne H1 H2. unfold Questions.GET.
  cbn [Questions.cookie Questions.verify_now Questions.formId].
  rewrite H1, H2. unfold Questions.requested_form.
  by destruct (String.eqb_spec id "").
Qed.

Lemma questions_ignore_the_credential_witness :
  status (Questions.GET ex_host
            (Questions.mkReq (Some ex_verified) (Some "101") 3000 3000 3000 [])
            ex_server).1 = 200%Z
  ∧ Questions.GET ex_host
      (Questions.mkReq (Some ex_verified) (Some "101") 3000 3000 3000 [])
      ex_server
    = Questions.GET ex_host (ex_fetch 3000 []) ex_server.
Proof.
  split; [reflexivity|].
  apply (questions_ignore_the_credential ex_host ex_server ex_verified
           ex_session (jwt_payload ex_verified) (jwt_payload ex_session)
           "101"); [discriminate|reflexivity..].
Defined.

(** ** What a claim and a submission change *)

Lemma updateOne_one_position (i : string) (f : Student → Student)
    (l : list Student) :
  ∃ n, ∀ m, m ≠ n → updateOne i f l !! m = l !! m.
Proof.
  induction l as [|st l [n IH]]; simpl.
  - by exists 0%nat.
  - destruct (String.eqb (student_id st) i).
    + exists 0%nat. by intros [|m] Hm.
    + exists (S n). intros [|m] Hm; [done|]. simpl. apply IH. lia.
Qed.

Lemma updateOne_Forall2 (R : Student → Student → Prop) (i : string)
    (f : Student → Student) (l : list Student) :
  (∀ a, R a a) → (∀ a, R a (f a)) → Forall2 R l (updateOne i f l).
Proof.
  intros Hrefl Hf. induction l as [|st l IH]; simpl; [constructor|].
  destruct (String.eqb (student_id st) i); constructor; try done.
  by apply Forall2_same_length_lookup_2; [|intros ? ? ? ? ?; simplify_eq].
Qed.

(** The two ways a handler touches the student collection. *)
Lemma VerifyRoll_students (h : Host) (r : VerifyRoll.Req) (s : Server) :
  (status (VerifyRoll.POST h r s).1 ≠ 200%Z ∧ (VerifyRoll.POST h r s).2 = s)
  ∨ (status (VerifyRoll.POST h r s).1 = 200%Z
     ∧ ∃ student phone start device expires,
         student ∈ students s ∧ attempted student = false
         ∧ (VerifyRoll.POST h r s).2
           = mkServer (otps s)
               (updateOne (student_id student)
                  (VerifyRoll.claim phone start device expires) (students s))
               (forms s) (rateLimitCache s) (QUESTION_CACHE s)).
Proof.
  unfold VerifyRoll.POST.
  repeat case_match; try (left; by split); right; (split; [done|]).
  eexists _, _, _, _, _. split; [|split; [|done]]; [|done].
  apply list_elem_of_In. eapply List.find_some. eassumption.
Qed.

Lemma Submit_students (h : Host) (r : Submit.Req) (s : Server) :
  (status (Submit.POST h r s).1 ≠ 200%Z ∧ (Submit.POST h r s).2 = s)
  ∨ (status (Submit.POST h r s).1 = 200%Z
     ∧ ∃ student mark answers,
         (Submit.POST h r s).2
         = mkServer (otps s)
             (updateOne (student_id student)
                (Submit.record_result mark answers) (students s))
             (forms s) (rateLimitCache s) (QUESTION_CACHE s)).
Proof.
  unfold Submit.POST.
  repeat case_match; try (left; by split); right; (split; [done|]).
  by eexists _, _, _.
Qed.

(** X9: a session claim that is refused, for whatever reason, leaves
    the server as it was.  A claim that succeeds changes one student
    document at most, and in it only the phone and the session data:
    identity, course, marks, answers and [attempted] stay; passcodes,
    forms and both caches are untouched. *)
Theorem claim_changes_one_session (h : Host) (r : VerifyRoll.Req)
    (s : Server) :
  let out := VerifyRoll.POST h r s in
  (status out.1 ≠ 200%Z → out.2 = s)
  ∧ otps out.2 = otps s ∧ forms out.2 = forms s
  ∧ rateLimitCache out.2 = rateLimitCache s
  ∧ QUESTION_CACHE out.2 = QUESTION_CACHE s
  ∧ Forall2 same_but_session (students s) (students out.2)
  ∧ ∃ n, ∀ m, m ≠ n → students out.2 !! m = students s !! m.
Proof.
  cbv zeta.
  destruct (VerifyRoll_students h r s)
    as [[Hno ->]|(Hok & st & p & t & d & e & _ & _ & ->)].
  - split; [done|]. do 4 (split; [done|]).
    split; [|by exists 0%nat].
    apply Forall2_same_length_lookup_2; [done|].
    intros i a b ? ?. simplify_eq. by repeat split.
  - split; [done|]. cbn [otps forms rateLimitCache QUESTION_CACHE students].
    do 4 (split; [done|]).
    split; [|apply updateOne_one_position].
    apply updateOne_Forall2; intros a; by repeat split.
Qed.

(** X10: a submission that is refused leaves the server as it was.  One
    that succeeds changes one student document at most, and in it only
    marks, answers, [attempted] and the session's [isActive]; whatever
    the outcome, passcodes, forms and both caches are untouched. *)
Theorem submission_changes_one_result (h : Host) (r : Submit.Req)
    (s : Server) :
  let out := Submit.POST h r s in
  (status out.1 ≠ 200%Z → out.2 = s)
  ∧ otps out.2 = otps s ∧ forms out.2 = forms s
  ∧ rateLimitCache out.2 = rateLimitCache s
  ∧ QUESTION_CACHE out.2 = QUESTION_CACHE s
  ∧ Forall2 same_but_result (students s) (students out.2)
  ∧ ∃ n, ∀ m, m ≠ n → students out.2 !! m = students s !! m.
Proof.
  cbv zeta.
  destruct (Submit_students h r s) as [[Hno ->]|(Hok & st & m & a & ->)].
  - split; [done|]. do 4 (split; [done|]).
    split; [|by exists 0%nat].
    apply Forall2_same_length_lookup_2; [done|].
    intros i x y ? ?. simplify_eq. by repeat split.
  - split; [done|]. cbn [otps forms rateLimitCache QUESTION_CACHE students].
    do 4 (split; [done|]).
    split; [|apply updateOne_one_position].
    apply updateOne_Forall2; intros x; by repeat split.
Qed.

Lemma claim_changes_one_session_witness :
  let refused := VerifyRoll.POST ex_host ex_claim (ex_occupied 5000) in
  let granted := VerifyRoll.POST ex_host ex_claim ex_server in
  status refused.1 = 409%Z ∧ refused.2 = ex_occupied 5000
  ∧ status granted.1 = 200%Z
  ∧ Forall2 same_but_session (students ex_server) (students granted.2).
Proof.
  intros refused granted.
  destruct (claim_changes_one_session ex_host ex_claim (ex_occupied 5000))
    as (H1 & _).
  destruct (claim_changes_one_session ex_host ex_claim ex_server)
    as (_ & _ & _ & _ & _ & H2 & _).
  split; [reflexivity|]. split; [apply H1; discriminate|].
  split; [reflexivity|exact H2].
Defined.

Lemma submission_changes_one_result_witness :
  let accepted := Submit.POST ex_host (ex_submit [] 3000) ex_claimed in
  let refused := Submit.POST ex_host (ex_submit [] 4000) accepted.2 in
  status accepted.1 = 200%Z
  ∧ Forall2 same_but_result (students ex_claimed) (students accepted.2)
  ∧ status refused.1 = 400%Z ∧ refused.2 = accepted.2.
Proof.
  intros accepted refused.
  destruct (submission_changes_one_result ex_host (ex_submit [] 3000)
              ex_claimed) as (_ & _ & _ & _ & _ & H2 & _).
  destruct (submission_changes_one_result ex_host (ex_submit [] 4000)
              accepted.2) as (H1 & _).
  split; [reflexivity|]. split; [exact H2|].
  split; [reflexivity|apply H1; discriminate].
Defined.

(** ** Attempted students and sessions *)

Lemma updateOne_ids (i : string) (f : Student → Student) (l : list Student) :
  (∀ st, student_id (f st) = student_id st) →
  student_id <$> updateOne i f l = student_id <$> l.
Proof.
  intros Hid. induction l as [|st l IH]; cbn [updateOne]; [done|].
  destruct (String.eqb (student_id st) i); rewrite !fmap_cons;
    by rewrite ?Hid, ?IH.
Qed.

Lemma updateOne_Forall (P : Student → Prop) (i : string)
    (f : Student → Student) (l : list Student) :
  Forall P l →
  (∀ st, st ∈ l → student_id st = i → P (f st)) →
  Forall P (updateOne i f l).
Proof.
  induction 1 as [|st l Hst Hl IH]; intros Hf; simpl; [constructor|].
  destruct (String.eqb_spec (student_id st) i).
  - constructor; [|done]. apply Hf; [left|done].
  - constructor; [done|]. apply IH. intros st' Hin. apply Hf. by right.
Qed.

Lemma handle_settled (h : Host) (req : Request) (s : Server) :
  settled (students s) → settled (students (handle h req s).2).
Proof.
  intros [Hnd Hall].
  assert (∀ st st', st ∈ students s → st' ∈ students s →
                    student_id st = student_id st' → st = st') as Huniq.
  { intros st st' Hin Hin' E.
    apply list_elem_of_lookup in Hin as [n Hn].
    apply list_elem_of_lookup in Hin' as [n' Hn'].
    assert (n = n') as ->; [|congruence].
    eapply (NoDup_lookup _ _ _ _ Hnd); rewrite list_lookup_fmap.
    - by rewrite Hn.
    - by rewrite Hn', E. }
  destruct req as [r|r|r|r|r]; simpl.
  - assert (students (SendOtp.POST h r s).2 = students s) as ->; [|done].
    unfold SendOtp.POST. repeat case_match; done.
  - assert (students (VerifyOtp.POST h r s).2 = students s) as ->; [|done].
    unfold VerifyOtp.POST, VerifyOtp.POST_with. repeat case_match; done.
  - destruct (VerifyRoll_students h r s)
      as [[_ ->]|(_ & st & p & t & d & e & Hin & Hatt & ->)]; [done|].
    cbn [students]. split.
    + by rewrite updateOne_ids.
    + apply updateOne_Forall; [done|]. intros st' Hin' E.
      rewrite (Huniq st' st Hin' Hin E). simpl. congruence.
  - assert (students (Questions.GET h r s).2 = students s) as ->; [|done].
    unfold Questions.GET. repeat case_match; done.
  - destruct (Submit_students h r s) as [[_ ->]|(_ & st & m & a & ->)];
      [done|].
    cbn [students]. split.
    + by rewrite updateOne_ids.
    + apply updateOne_Forall; [done|]. by intros st' _ _ _.
Qed.

(** X11: in a store whose students have distinct ids, a student who has
    attempted never holds an active session: if that is so at the start
    it is so after any sequence of requests.  A claim activates a
    session only for a student who has not attempted, and the update
    that sets [attempted] closes the session with it. *)
Theorem attempted_students_hold_no_session (h : Host)
    (reqs : list Request) (s : Server) :
  settled (students s) → settled (students (run h reqs s)).
Proof.
  unfold run. revert s. induction reqs as [|req reqs IH]; intros s Hs;
    simpl; [done|].
  by apply IH, handle_settled.
Qed.

Lemma attempted_students_hold_no_session_witness :
  let s := run ex_host
             [VerifyRoll ex_claim; SubmitExam (ex_submit [] 3000);
              VerifyRoll ex_claim]
             ex_server in
  settled (students ex_server)
  ∧ settled (students s)
  ∧ ((fun st => (attempted st, isActive (sessionData st))) <$> students s)
    = [(true, false)].
Proof.
  intros s.
  assert (settled (students ex_server)) as H0.
  { split; [apply NoDup_singleton|]. by repeat constructor. }
  split; [exact H0|]. split; [|reflexivity].
  by apply attempted_students_hold_no_session.
Defined.

(** X12: the attempted check comes before the session check.  A student
    who has attempted is refused with 400 on any claim made with a
    valid verification credential, whether or not a session is still
    recorded as active for them, and nothing changes. *)
Theorem attempted_student_cannot_claim (h : Host) (r : VerifyRoll.Req)
    (s : Server) (roll : string) (token : Jwt) (payload : JsObject)
    (student : Student) :
  VerifyRoll.json r = Some (VerifyRoll.mkBody (Some roll) (Some token)) →
  roll ≠ "" →
  jwtVerify token (JWT_SECRET h) (VerifyRoll.verify_now r) = Some payload →
  truthy (get payload "verified") = true →
  findByRollNo (trim h roll) (students s) = Some student →
  attempted student = true →
  VerifyRoll.POST h r s
  = (failure 400 "You have already attempted this exam.", s).
Proof.
  intros Hj Hroll Hv Hver Hfind Hatt. unfold VerifyRoll.POST. rewrite Hj.
  cbn [VerifyRoll.rollNumber VerifyRoll.token or_else].
  destruct roll as [|a roll]; [done|]. cbn [String.eqb].
  by rewrite Hv, Hver, Hfind, Hatt.
Qed.

Lemma attempted_student_cannot_claim_witness :
  let s := (Submit.POST ex_host (ex_submit [] 3000) ex_claimed).2 in
  (attempted <$> findByRollNo "R001" (students s)) = Some true
  ∧ VerifyRoll.POST ex_host ex_claim s
    = (failure 400 "You have already attempted this exam.", s).
Proof.
  intros s. split; [reflexivity|].
  eapply (attempted_student_cannot_claim ex_host ex_claim s "R001"
            ex_verified (jwt_payload ex_verified));
    first [reflexivity|discriminate].
Defined.

(** ** One-time passcodes: issue, use and refusal *)

Lemma string_length_chars (x : string) :
  String.length x = length (list_ascii_of_string x).
Proof. induction x as [|c x IH]; simpl; by rewrite ?IH. Qed.

Lemma is_digit_pretty_char (d : N) : is_digit (pretty_N_char d) = true.
Proof.
  destruct d as [|p]; [done|].
  do 4 (try destruct p as [p|p|]; try reflexivity).
Qed.

Lemma pretty_go_digits (x : N) :
  forallb is_digit (list_ascii_of_string (pretty_N_go x "")) = true.
Proof.
  induction (N.lt_wf_0 x) as [x _ IH].
  destruct (decide (x = 0%N)) as [->|Hx]; [done|].
  rewrite chars_pretty_go_snoc by lia.
  rewrite forallb_app, IH by (apply N.div_lt; lia).
  simpl. by rewrite is_digit_pretty_char.
Qed.

Lemma pretty_go_length (n : nat) (x : N) :
  (10 ^ N.of_nat n ≤ x < 10 ^ N.of_nat (S n))%N →
  length (list_ascii_of_string (pretty_N_go x "")) = S n.
Proof.
  revert x. induction n as [|n IH]; intros x Hx.
  - simpl in Hx. rewrite chars_pretty_go_snoc by lia.
    assert (x `div` 10 = 0)%N as -> by (apply N.div_small; lia). done.
  - rewrite !Nat2N.inj_succ, !N.pow_succ_r' in Hx.
    rewrite !Nat2N.inj_succ, !N.pow_succ_r' in IH.
    assert (0 < 10 ^ N.of_nat n)%N
      by (apply N.neq_0_lt_0, N.pow_nonzero; lia).
    rewrite chars_pretty_go_snoc by lia.
    rewrite length_app, (IH (x `div` 10)%N); [simpl; lia|].
    split.
    + apply N.div_le_lower_bound; lia.
    + apply N.Div0.div_lt_upper_bound; lia.
Qed.

Lemma six_digit_code (r : Z) :
  digits 6 (pretty (100000 + r mod 900000)%Z) = true.
Proof.
  pose proof (Z.mod_pos_bound r 900000 ltac:(lia)) as Hr.
  destruct (100000 + r mod 900000)%Z as [|p|p] eqn:E; try lia.
  unfold digits, pretty, pretty_Z, pretty, pretty_positive, pretty, pretty_N.
  destruct (decide (N.pos p = 0%N)); [done|].
  rewrite string_length_chars, (pretty_go_length 5), pretty_go_digits; [done|].
  simpl. lia.
Qed.

(** A request that is served stores the code it drew. *)
Lemma send_otp_stores (h : Host) (r : SendOtp.Req) (s : Server)
    (b : SendOtp.ReqBody) (phone : string) :
  SendOtp.json r = Some b → SendOtp.phone b = Some phone →
  status (SendOtp.POST h r s).1 = 200%Z →
  digits 10 phone = true
  ∧ otps (SendOtp.POST h r s).2 !! phone
    = Some (OTP.mk (default "+91" (SendOtp.countryCode b))
              (pretty (100000 + SendOtp.random r mod 900000)%Z)
              (SendOtp.created r)).
Proof.
  intros Hj Hb. unfold SendOtp.POST. rewrite Hj, Hb, or_else_empty.
  destruct (digits 10 phone); [|done]. cbn [negb].
  repeat case_match; try done;
    intros _; cbn [snd otps]; by rewrite lookup_insert_eq.
Qed.



(** X14: the verify-otp route as it stands never answers with success:
    every response has [success] false and status 400 or 500.  A live
    matching code is used up all the same: for a well-formed phone and
    code that match a stored record at most five minutes old, the
    record is deleted, nothing else changes, and the answer is 500. *)
Theorem verify_otp_never_succeeds (h : Host) (r : VerifyOtp.Req)
    (s : Server) :
  success (VerifyOtp.POST h r s).1 = false
  ∧ (status (VerifyOtp.POST h r s).1 = 400%Z
     ∨ status (VerifyOtp.POST h r s).1 = 500%Z)
  ∧ body (VerifyOtp.POST h r s).1 = BNone
  ∧ (∀ (phone code : string) (rec : OTP.t),
       VerifyOtp.json r
       = Some (VerifyOtp.mkBody (Some phone) (Some code)) →
       digits 10 phone = true → digits 6 code = true →
       otps s !! phone = Some rec → OTP.otp rec = code →
       (VerifyOtp.now r - OTP.createdAt rec ≤ 5 * 60 * 1000)%Z →
       VerifyOtp.POST h r s
       = (failure 500 VerifyOtp.error_message,
          mkServer (delete phone (otps s)) (students s) (forms s)
            (rateLimitCache s) (QUESTION_CACHE s))).
Proof.
  split; [|split; [|split]].
  1-3: unfold VerifyOtp.POST, VerifyOtp.POST_with;
       repeat case_match; simpl; auto.
  intros phone code rec Hj Hp Hc Hrec Hcode Hage.
  unfold VerifyOtp.POST, VerifyOtp.POST_with. rewrite Hj.
  cbn [VerifyOtp.phone VerifyOtp.otp]. rewrite !or_else_empty.
  rewrite (digits_nonempty _ _ Hp), (digits_nonempty _ _ Hc), Hp, Hc, Hrec.
  cbn [orb negb]. rewrite Hcode, String.eqb_refl.
  destruct (Z.ltb_spec (5 * 60 * 1000) (VerifyOtp.now r - OTP.createdAt rec));
    [lia|done].
Qed.

Lemma verify_otp_never_succeeds_witness :
  let s := (SendOtp.POST ex_host (ex_send 0) (boot ∅ [] [])).2 in
  is_Some (otps s !! "9876543210")
  ∧ status (VerifyOtp.POST ex_host (ex_verify 1000) s).1 = 500%Z
  ∧ otps (VerifyOtp.POST ex_host (ex_verify 1000) s).2 !! "9876543210" = None.
Proof.
  intros s.
  destruct (otps s !! "9876543210") as [rec|] eqn:Hrec; [|discriminate].
  assert (OTP.otp rec = "123456" ∧ OTP.createdAt rec = 5%Z) as [Hc Ht].
  { revert Hrec. unfold s. vm_compute. by intros [= <-]. }
  destruct (verify_otp_never_succeeds ex_host (ex_verify 1000) s)
    as (_ & _ & _ & H).
  rewrite (H "9876543210" "123456" rec eq_refl eq_refl eq_refl Hrec Hc
             ltac:(rewrite Ht; simpl; lia)).
  split; [by eexists|]. split; [reflexivity|].
  cbn [snd otps]. apply lookup_delete_eq.
Defined.

(** X15: a new code replaces the old one.  After two served requests
    for the same phone that drew different codes, a verification with
    the first code is refused with 400 "Invalid OTP" and changes
    nothing. *)
Theorem new_code_invalidates_the_old (signer : VerifyOtp.Binding)
    (h : Host) (r1 r2 : SendOtp.Req) (s : Server)
    (b1 b2 : SendOtp.ReqBody) (phone : string) (rv : VerifyOtp.Req) :
  SendOtp.json r1 = Some b1 → SendOtp.phone b1 = Some phone →
  SendOtp.json r2 = Some b2 → SendOtp.phone b2 = Some phone →
  let s1 := (SendOtp.POST h r1 s).2 in
  let s2 := (SendOtp.POST h r2 s1).2 in
  status (SendOtp.POST h r1 s).1 = 200%Z →
  status (SendOtp.POST h r2 s1).1 = 200%Z →
  (SendOtp.random r1 mod 900000 ≠ SendOtp.random r2 mod 900000)%Z →
  VerifyOtp.json rv
  = Some (VerifyOtp.mkBody (Some phone)
            (Some (pretty (100000 + SendOtp.random r1 mod 900000)%Z))) →
  VerifyOtp.POST_with signer h rv s2
  = (failure 400 VerifyOtp.invalid_message, s2).
Proof.
  intros Hj1 Hb1 Hj2 Hb2 s1 s2 Hok1 Hok2 Hne Hjv.
  destruct (send_otp_stores h r2 s1 b2 phone Hj2 Hb2 Hok2) as [Hp Hrec].
  fold s2 in Hrec.
  pose proof (six_digit_code (SendOtp.random r1)) as Hc.
  unfold VerifyOtp.POST_with. rewrite Hjv.
  cbn [VerifyOtp.phone VerifyOtp.otp]. rewrite !or_else_empty.
  rewrite (digits_nonempty _ _ Hp), (digits_nonempty _ _ Hc), Hp, Hc, Hrec.
  cbn [orb negb]. cbv [OTP.otp].
  destruct (String.eqb_spec
              (pretty (100000 + SendOtp.random r2 mod 900000)%Z)
              (pretty (100000 + SendOtp.random r1 mod 900000)%Z)) as [E|];
    [|done].
  apply (inj pretty) in E. lia.
Qed.

Lemma new_code_invalidates_the_old_witness :
  let r2 := SendOtp.mkReq (Some "10.0.0.7")
              (Some (SendOtp.mkBody (Some "9876543210") None))
              70000 555555 70005 true in
  let s1 := (SendOtp.POST ex_host (ex_send 0) (boot ∅ [] [])).2 in
  let s2 := (SendOtp.POST ex_host r2 s1).2 in
  (OTP.otp <$> otps s1 !! "9876543210") = Some "123456"
  ∧ (OTP.otp <$> otps s2 !! "9876543210") = Some "655555"
  ∧ VerifyOtp.POST_with (Some SignJWT) ex_host (ex_verify 80000) s2
    = (failure 400 "Invalid OTP", s2).
Proof.
  intros r2 s1 s2. split; [reflexivity|]. split; [reflexivity|].
  apply (new_code_invalidates_the_old (Some SignJWT) ex_host (ex_send 0) r2
           (boot ∅ [] []) (SendOtp.mkBody (Some "9876543210") None)
           (SendOtp.mkBody (Some "9876543210") None) "9876543210"
           (ex_verify 80000));
    first [reflexivity|discriminate].
Defined.

Lemma rate_limit_in_range (key : string) (now : Z)
    (c c' : gmap string RateLimit) :
  counters_in_range c → SendOtp.rate_limit key now c = Some c' →
  counters_in_range c'.
Proof.
  unfold SendOtp.rate_limit, counters_in_range, SendOtp.MAX_REQUESTS.
  intros Hc H k u Hk.
  destruct (c !! key) as [u0|] eqn:E.
  - pose proof (Hc key u0 E) as H0.
    destruct (_ <? _)%Z.
    + destruct (Z.leb_spec 5 (count u0)); [done|]. injection H as <-.
      apply lookup_insert_Some in Hk as [[_ <-]|[_ Hk]]; simpl; [lia|eauto].
    + injection H as <-.
      apply lookup_insert_Some in Hk as [[_ <-]|[_ Hk]]; simpl; [lia|eauto].
  - injection H as <-.
    apply lookup_insert_Some in Hk as [[_ <-]|[_ Hk]]; simpl; [lia|eauto].
Qed.

Lemma handle_rate_cache (h : Host) (req : Request) (s : Server) :
  rateLimitCache (handle h req s).2 = rateLimitCache s
  ∨ ∃ key now, SendOtp.rate_limit key now (rateLimitCache s)
               = Some (rateLimitCache (handle h req s).2).
Proof.
  destruct req as [r|r|r|r|r]; simpl.
  - unfold SendOtp.POST.
    destruct (SendOtp.json r) as [b|]; [|by left].
    destruct (negb _); [by left|].
    destruct (SendOtp.rate_limit _ _ _) as [c|] eqn:E; [|by left].
    right. eexists _, _. rewrite E. by destruct (if otps s !! _ is Some _ then _ else _).
  - left. unfold VerifyOtp.POST, VerifyOtp.POST_with. repeat case_match; done.
  - left. unfold VerifyRoll.POST. repeat case_match; done.
  - left. unfold Questions.GET. repeat case_match; done.
  - left. unfold Submit.POST. repeat case_match; done.
Qed.

(** X16: the request counters of the send-otp rate limiter stay between
    1 and 5 in a process, whatever requests it has served. *)
Theorem rate_counters_stay_in_range (h : Host) (o : gmap string OTP.t)
    (st : list Student) (f : list Form) (reqs : list Request)
    (key : string) (u : RateLimit) :
  rateLimitCache (run h reqs (boot o st f)) !! key = Some u →
  (1 ≤ count u ≤ 5)%Z.
Proof.
  assert (counters_in_range (rateLimitCache (run h reqs (boot o st f))))
    as H; [|apply H].
  assert (counters_in_range (rateLimitCache (boot o st f))) as H0
    by (intros k u0 Hk; simpl in Hk; by rewrite lookup_empty in Hk).
  revert H0. generalize (boot o st f). unfold run.
  induction reqs as [|req reqs IH]; intros s Hs; simpl; [done|].
  apply IH.
  destruct (handle_rate_cache h req s) as [->|(k & now & E)]; [done|].
  by apply (rate_limit_in_range k now (rateLimitCache s)).
Qed.

Lemma rate_counters_stay_in_range_witness :
  let s := run ex_host
             (SendOtp <$> (ex_send <$> [0; 1000; 2000; 3000; 61000; 62000;
                                        63000])%Z)
             (boot ∅ [] []) in
  rateLimitCache s !! "10.0.0.7:9876543210" = Some (mkRate 5 0)
  ∧ (1 ≤ count (mkRate 5 0) ≤ 5)%Z.
Proof.
  intros s.
  assert (rateLimitCache s !! "10.0.0.7:9876543210" = Some (mkRate 5 0))
    as H by reflexivity.
  split; [exact H|].
  exact (rate_counters_stay_in_range ex_host ∅ [] [] _ _ _ H).
Defined.

(** X17: what a refused request for a code costs.  A malformed phone
    (400) and the rate limit (429, too many requests) leave the server
    as it was.  A resend inside the minute (429, please wait) leaves the
    stored code alone but has passed the rate limiter and is counted by
    it: the counter of its (address, phone) key is one more than it was
    inside the window, or starts again at 1. *)
Theorem refused_code_requests (h : Host) (r : SendOtp.Req) (s : Server) :
  let out := SendOtp.POST h r s in
  (status out.1 = 400%Z → out.2 = s)
  ∧ (message out.1 = SendOtp.too_many_message → out.2 = s)
  ∧ (message out.1 = SendOtp.resend_message →
     otps out.2 = otps s
     ∧ ∃ phone key u,
         SendOtp.json r ≫= SendOtp.phone = Some phone
         ∧ key = or_else (SendOtp.ip r) "unknown" ++ ":" ++ phone
         ∧ rateLimitCache out.2 = <[key := u]> (rateLimitCache s)
         ∧ match rateLimitCache s !! key with
           | Some u0 =>
               if (SendOtp.now r - timestamp u0
                   <? SendOtp.RATE_LIMIT_WINDOW)%Z
               then u = mkRate (count u0 + 1) (timestamp u0)
               else u = mkRate 1 (SendOtp.now r)
           | None => u = mkRate 1 (SendOtp.now r)
           end).
Proof.
  cbv zeta. unfold SendOtp.POST.
  destruct (SendOtp.json r) as [b|]; [|done]. cbn [mbind option_bind].
  destruct (SendOtp.phone b) as [phone|] eqn:Hb.
  2:{ simpl. done. }
  rewrite or_else_empty.
  destruct (digits 10 phone); [|done]. cbn [negb].
  set (key := or_else (SendOtp.ip r) "unknown" ++ ":" ++ phone).
  destruct (SendOtp.rate_limit key (SendOtp.now r) (rateLimitCache s))
    as [c|] eqn:E; [|done].
  destruct (if otps s !! phone is Some _ then _ else _).
  - cbn [fst snd status message failure otps rateLimitCache].
    split; [done|]. split; [done|]. intros _. split; [done|].
    unfold SendOtp.rate_limit in E.
    destruct (rateLimitCache s !! key) as [u0|] eqn:Hu.
    + destruct (_ <? _)%Z eqn:Hw.
      * destruct (_ <=? _)%Z; [done|]. injection E as <-.
        eexists phone, key, _. rewrite Hu, Hw. done.
      * injection E as <-. eexists phone, key, _. rewrite Hu, Hw. done.
    + injection E as <-. eexists phone, key, _. rewrite Hu. done.
  - cbn [fst snd status message]. split; [done|].
    split; [by destruct (SendOtp.delivered r)|].
    by destruct (SendOtp.delivered r).
Qed.

Lemma refused_code_requests_witness :
  let s := (SendOtp.POST ex_host (ex_send 0) (boot ∅ [] [])).2 in
  let out := SendOtp.POST ex_host (ex_send 1000) s in
  message out.1 = SendOtp.resend_message
  ∧ otps out.2 = otps s
  ∧ rateLimitCache s !! "10.0.0.7:9876543210" = Some (mkRate 1 0)
  ∧ rateLimitCache out.2 !! "10.0.0.7:9876543210" = Some (mkRate 2 0).
Proof.
  intros s out.
  destruct (refused_code_requests ex_host (ex_send 1000) s)
    as (_ & _ & H).
  destruct (H eq_refl) as [H1 _].
  split; [reflexivity|]. split; [exact H1|]. split; reflexivity.
Defined.

(** ** Scoring: edges *)

Lemma filter_length_ext {A} (P1 P2 : A → Prop) `{!∀ x, Decision (P1 x)}
    `{!∀ x, Decision (P2 x)} (l : list A) :
  (∀ x, x ∈ l → P1 x ↔ P2 x) →
  length (filter P1 l) = length (filter P2 l).
Proof.
  induction l as [|x l IH]; intros Hext; [done|].
  rewrite !filter_cons.
  specialize (IH (fun y Hy => Hext y (list_elem_of_further _ _ _ Hy))).
  pose proof (Hext x (list_elem_of_here _ _)) as Hx.
  destruct (decide (P1 x)), (decide (P2 x)); simpl; try tauto; by rewrite IH.
Qed.

Lemma calculateMarks_values (questions : list Question) (a : JsValue)
    (values : list JsValue) :
  objectValues a = Some values →
  calculateMarks questions a = Some (score_spec questions values).
Proof.
  intros H. unfold calculateMarks, score_spec. rewrite H.
  by rewrite marks_loop_count.
Qed.

(** X18: answers beyond the number of questions are not looked at: two
    answer values whose first [questions.length] values agree get the
    same score. *)
Theorem extra_answers_are_ignored (questions : list Question)
    (a1 a2 : JsValue) (values1 values2 : list JsValue) :
  objectValues a1 = Some values1 →
  objectValues a2 = Some values2 →
  take (length questions) values1 = take (length questions) values2 →
  calculateMarks questions a1 = calculateMarks questions a2.
Proof.
  intros H1 H2 Htake.
  rewrite (calculateMarks_values _ _ _ H1), (calculateMarks_values _ _ _ H2).
  unfold score_spec. do 2 f_equal. apply filter_length_ext.
  intros i Hi. apply elem_of_seq in Hi.
  assert (values1 !! i = values2 !! i) as E.
  { rewrite <- (lookup_take_lt values1 (length questions)) by lia.
    rewrite <- (lookup_take_lt values2 (length questions)) by lia.
    by rewrite Htake. }
  unfold awarded. by rewrite E.
Qed.

Lemma extra_answers_are_ignored_witness :
  calculateMarks ex_q12 (JArr [JNum 2; JNum 3; JNum 1; JNum 1])
  = calculateMarks ex_q12 (JObj [("0", JNum 2); ("1", JNum 3)])
  ∧ calculateMarks ex_q12 (JObj [("0", JNum 2); ("1", JNum 3)]) = Some 2%Z.
Proof.
  split; [|reflexivity].
  by apply (extra_answers_are_ignored ex_q12 _ _
              [JNum 2; JNum 3; JNum 1; JNum 1] [JNum 2; JNum 3]).
Defined.

Lemma awarded_shift (questions1 questions2 : list Question)
    (values1 values2 : list JsValue) :
  length values1 = length questions1 →
  ∀ k n,
    length (filter (awarded (questions1 ++ questions2) (values1 ++ values2))
              (seq (length questions1 + k) n))
    = length (filter (awarded questions2 values2) (seq k n)).
Proof.
  intros Hlen k n. revert k. induction n as [|n IH]; intros k; [done|].
  cbn [seq]. rewrite !filter_cons.
  replace (S (length questions1 + k)) with (length questions1 + S k)%nat
    by lia.
  assert (awarded (questions1 ++ questions2) (values1 ++ values2)
            (length questions1 + k)
          ↔ awarded questions2 values2 k) as Hk.
  { unfold awarded.
    rewrite lookup_app_r, (lookup_app_r values1) by lia.
    replace (length questions1 + k - length questions1)%nat with k by lia.
    by replace (length questions1 + k - length values1)%nat with k by lia. }
  destruct (decide (awarded _ _ (length questions1 + k))),
    (decide (awarded questions2 values2 k)); simpl; rewrite ?IH;
    tauto || done.
Qed.

(** X19: the score is additive.  For an answer list cut where a first
    group of questions ends, the score of both groups together is the
    sum of the scores of each group on its own part of the answers. *)
Theorem calculateMarks_is_additive (questions1 questions2 : list Question)
    (values1 values2 : list JsValue) :
  length values1 = length questions1 →
  ∃ m1 m2,
    calculateMarks questions1 (JArr values1) = Some m1
    ∧ calculateMarks questions2 (JArr values2) = Some m2
    ∧ calculateMarks (questions1 ++ questions2) (JArr (values1 ++ values2))
      = Some (m1 + m2)%Z.
Proof.
  intros Hlen.
  rewrite !(calculateMarks_values _ (JArr _) _ eq_refl).
  eexists _, _. split; [done|]. split; [done|]. f_equal.
  unfold score_spec. rewrite length_app, seq_app, filter_app, length_app.
  rewrite Nat2Z.inj_add. f_equal; f_equal.
  - apply filter_length_ext. intros i Hi. apply elem_of_seq in Hi.
    unfold awarded.
    by rewrite !lookup_app_l by lia.
  - rewrite <- (awarded_shift questions1 questions2 values1 values2 Hlen 0).
    by rewrite Nat.add_0_l, Nat.add_0_r.
Qed.

Lemma calculateMarks_is_additive_witness :
  calculateMarks (ex_q12 ++ ex_q12)
    (JArr ([JNum 2; JNum 2] ++ [JNum 2; JNum 3])) = Some (1 + 2)%Z.
Proof.
  destruct (calculateMarks_is_additive ex_q12 ex_q12 [JNum 2; JNum 2]
              [JNum 2; JNum 3] eq_refl) as (m1 & m2 & H1 & H2 & ->).
  injection H1 as <-. injection H2 as <-. reflexivity.
Defined.

(** X20: only numbers score.  If none of the submitted values is a
    number (strings such as "2", null, booleans, nested values), the
    score is 0 whatever the answer key says. *)
Theorem only_numbers_score (questions : list Question) (a : JsValue)
    (values : list JsValue) :
  objectValues a = Some values →
  Forall (fun v => ∀ n, v ≠ JNum n) values →
  calculateMarks questions a = Some 0%Z.
Proof.
  intros H Hall. rewrite (calculateMarks_values _ _ _ H).
  unfold score_spec. do 2 f_equal.
  induction (seq 0 (length questions)) as [|i l IH]; [done|].
  rewrite filter_cons_False; [done|].
  intros (q & n & _ & Hv & _).
  by apply (Forall_lookup_1 _ _ _ _ Hall Hv n).
Qed.

Lemma only_numbers_score_witness :
  calculateMarks ex_q12 (JObj [("0", JStr "2"); ("1", JNull)]) = Some 0%Z
  ∧ calculateMarks ex_q12 (JObj [("0", JNum 2); ("1", JNull)]) = Some 1%Z.
Proof.
  split; [|reflexivity].
  apply (only_numbers_score ex_q12 _ [JStr "2"; JNull]); [reflexivity|].
  repeat constructor; discriminate.
Defined.

(** * The connection manager *)

Lemma budget_positive (c : Connection.Cached) :
  (1 ≤ Connection.budget c ≤ Connection.MAX_RETRIES)%nat.
Proof.
  unfold Connection.budget, Connection.MAX_RETRIES.
  destruct (Nat.leb_spec 3 (Connection.retries c)); lia.
Qed.

Lemma budget_after_failure (c : Connection.Cached) :
  (1 < Connection.budget c)%nat →
  Connection.budget
    (Connection.mkCached false false false
       (S (Connection.MAX_RETRIES - Connection.budget c)))
  = (Connection.budget c - 1)%nat.
Proof.
  pose proof (budget_positive c) as Hb. revert Hb.
  generalize (Connection.budget c). intros b Hb H1.
  unfold Connection.budget, Connection.MAX_RETRIES in *.
  cbn [Connection.retries].
  destruct (Nat.leb_spec 3 (S (3 - b))); lia.
Qed.

(** One failed attempt from an idle state. *)
Lemma dbConnect_failed_attempt (rest : list bool) (c : Connection.Cached) :
  Connection.conn c = false → Connection.promise c = false →
  let c2 := Connection.mkCached false false false
              (S (Connection.MAX_RETRIES - Connection.budget c)) in
  Connection.dbConnect (false :: rest) c
  = if Nat.ltb 1 (Connection.budget c) then
      let r := Connection.dbConnect rest c2 in
      Connection.mkRun (Connection.result r) (Connection.cached r)
        (S (Connection.attempts r)) (2000 + Connection.waited r)
    else Connection.mkRun Connection.Thrown c2 1 0.
Proof.
  intros Hc Hp. cbn [Connection.dbConnect]. rewrite Hc, Hp. cbn [andb].
  unfold Connection.budget, Connection.MAX_RETRIES.
  destruct (Nat.leb_spec 3 (Connection.retries c));
    cbn [Connection.promise Connection.retries]; rewrite ?Hp.
  - done.
  - replace (S (3 - (3 - Connection.retries c)))
      with (S (Connection.retries c)) by lia.
    destruct (Nat.ltb_spec (S (Connection.retries c)) 3),
      (Nat.ltb_spec 1 (3 - Connection.retries c)); try lia; done.
Qed.

Lemma dbConnect_first_success (i : nat) (rest : list bool)
    (c : Connection.Cached) :
  Connection.conn c = false → Connection.promise c = false →
  (i < Connection.budget c)%nat →
  Connection.dbConnect (replicate i false ++ true :: rest) c
  = Connection.mkRun Connection.Connected
      (Connection.mkCached true true false 0) (S i) (2000 * Z.of_nat i).
Proof.
  revert c. induction i as [|i IH]; intros c Hc Hp Hi.
  - cbn [replicate app Connection.dbConnect]. rewrite Hc, Hp. cbn [andb].
    destruct (Nat.leb _ _); cbn [Connection.promise]; by rewrite ?Hp.
  - cbn [replicate app]. rewrite dbConnect_failed_attempt by done.
    destruct (Nat.ltb_spec 1 (Connection.budget c)); [|lia]. cbv zeta.
    rewrite IH; [cbn; f_equal; lia|done|done|].
    rewrite budget_after_failure by done. lia.
Qed.

Lemma dbConnect_exhausted (rest : list bool) (c : Connection.Cached) :
  Connection.conn c = false → Connection.promise c = false →
  Connection.dbConnect (replicate (Connection.budget c) false ++ rest) c
  = Connection.mkRun Connection.Thrown
      (Connection.mkCached false false false Connection.MAX_RETRIES)
      (Connection.budget c) (2000 * (Z.of_nat (Connection.budget c) - 1)).
Proof.
  remember (Connection.budget c) as n eqn:Hn.
  revert c Hn. induction n as [|n IH]; intros c Hn Hc Hp.
  - pose proof (budget_positive c). lia.
  - cbn [replicate app]. rewrite dbConnect_failed_attempt by done.
    rewrite <- Hn. destruct n as [|n].
    + cbn. unfold Connection.MAX_RETRIES. done.
    + cbn [Nat.ltb Nat.leb]. cbv zeta.
      rewrite IH; [cbn [Connection.result Connection.cached
                          Connection.attempts Connection.waited];
                   f_equal; lia| |done|done].
      rewrite Hn, budget_after_failure by lia. lia.
Qed.

(** X21: from a state without connection or pending promise, a call
    connects at the first attempt that succeeds, having slept two
    seconds before each retry, provided that attempt is among the
    three a call may make (fewer when the counter stands above zero);
    when those all fail the call throws after exactly that many
    attempts, with the counter at 3.  A counter that has reached 3 is
    reset on entry, so the call after a throw has three attempts
    again. *)
Theorem dbConnect_tries_up_to_budget (rest : list bool)
    (c : Connection.Cached) :
  Connection.conn c = false → Connection.promise c = false →
  (∀ i, (i < Connection.budget c)%nat →
        Connection.dbConnect (replicate i false ++ true :: rest) c
        = Connection.mkRun Connection.Connected
            (Connection.mkCached true true false 0) (S i)
            (2000 * Z.of_nat i))
  ∧ Connection.dbConnect (replicate (Connection.budget c) false ++ rest) c
    = Connection.mkRun Connection.Thrown
        (Connection.mkCached false false false 3)
        (Connection.budget c) (2000 * (Z.of_nat (Connection.budget c) - 1))
  ∧ (Connection.retries c = 0%nat ∨ (3 ≤ Connection.retries c)%nat →
     Connection.budget c = 3%nat).
Proof.
  intros Hc Hp. split; [|split].
  - intros i Hi. by apply dbConnect_first_success.
  - by apply dbConnect_exhausted.
  - unfold Connection.budget, Connection.MAX_RETRIES.
    destruct (Nat.leb_spec 3 (Connection.retries c)); lia.
Qed.

Lemma dbConnect_tries_up_to_budget_witness :
  let thrown := Connection.dbConnect [false; false; false; true]
                  Connection.fresh in
  Connection.result thrown = Connection.Thrown
  ∧ Connection.attempts thrown = 3%nat
  ∧ Connection.waited thrown = 4000%Z
  ∧ Connection.dbConnect [false; true] (Connection.cached thrown)
    = Connection.mkRun Connection.Connected
        (Connection.mkCached true true false 0) 2 2000.
Proof.
  intros thrown.
  destruct (dbConnect_tries_up_to_budget [true] Connection.fresh
              eq_refl eq_refl) as (_ & H2 & _).
  destruct (dbConnect_tries_up_to_budget [] (Connection.cached thrown)
              eq_refl eq_refl) as (H1 & _).
  split; [reflexivity|]. split; [reflexivity|]. split; [reflexivity|].
  apply (H1 1%nat). vm_compute. lia.
Defined.

(** X22: what the connection events undo.  With a connection in the
    cache a call returns it without any attempt.  After an [error]
    event the connection is cleared but the settled promise is kept,
    so the next call restores the connection from it, again without
    any attempt; only after a [disconnected] event does the next call
    connect anew, and a failure then counts against the retries: one
    failed attempt raises the counter by one, the call connects at the
    first attempt that succeeds among the [3 - retries] it may make,
    and throws with the counter at 3 when they all fail. *)
Theorem connection_events (outcomes : list bool) (c : Connection.Cached) :
  Connection.conn c = true → Connection.promise c = true →
  Connection.isConnecting c = false →
  (Connection.retries c < Connection.MAX_RETRIES)%nat →
  Connection.dbConnect outcomes c = Connection.mkRun Connection.Connected c 0 0
  ∧ Connection.dbConnect outcomes (Connection.on_error c)
    = Connection.mkRun Connection.Connected
        (Connection.mkCached true true false 0) 0 0
  ∧ (∀ o, Connection.attempts
            (Connection.dbConnect (o :: outcomes)
               (Connection.on_disconnected c)) ≠ 0%nat)
  ∧ Connection.retries
      (Connection.cached
         (Connection.dbConnect [false] (Connection.on_disconnected c)))
    = S (Connection.retries c)
  ∧ (∀ i, (i < 3 - Connection.retries c)%nat →
       Connection.dbConnect (replicate i false ++ true :: outcomes)
         (Connection.on_disconnected c)
       = Connection.mkRun Connection.Connected
           (Connection.mkCached true true false 0) (S i)
           (2000 * Z.of_nat i))
  ∧ Connection.dbConnect
      (replicate (3 - Connection.retries c) false ++ outcomes)
      (Connection.on_disconnected c)
    = Connection.mkRun Connection.Thrown
        (Connection.mkCached false false false 3)
        (3 - Connection.retries c)
        (2000 * (Z.of_nat (3 - Connection.retries c) - 1)).
Proof.
  destruct c as [cn pr ic rt].
  cbn [Connection.conn Connection.promise Connection.isConnecting
         Connection.retries].
  unfold Connection.MAX_RETRIES. intros -> -> -> Hr.
  assert (Nat.leb 3 rt = false) as Hle by (apply Nat.leb_gt; lia).
  assert (Connection.budget
            (Connection.on_disconnected (Connection.mkCached true true false rt))
          = (3 - rt)%nat) as Hb.
  { unfold Connection.budget, Connection.MAX_RETRIES.
    cbn [Connection.on_disconnected Connection.retries]. by rewrite Hle. }
  split; [|split; [|split; [|split; [|split]]]].
  - by destruct outcomes as [|[] ?].
  - destruct outcomes as [|[] ?];
      cbn [Connection.dbConnect Connection.on_error Connection.conn
             Connection.promise Connection.isConnecting Connection.retries
             andb];
      unfold Connection.MAX_RETRIES; by rewrite Hle.
  - intros o.
    cbn [Connection.dbConnect Connection.on_disconnected Connection.conn
           Connection.promise Connection.isConnecting Connection.retries
           andb].
    unfold Connection.MAX_RETRIES. rewrite Hle.
    cbn [Connection.promise Connection.retries].
    destruct o; [done|].
    by destruct (Nat.ltb _ _).
  - clear Hle Hb. destruct rt as [|[|[|rt]]]; [reflexivity..|lia].
  - intros i Hi. apply dbConnect_first_success; [done|done|].
    rewrite Hb. exact Hi.
  - rewrite <- Hb. apply dbConnect_exhausted; done.
Qed.

Lemma connection_events_witness :
  let c := Connection.cached (Connection.dbConnect [true] Connection.fresh) in
  Connection.dbConnect [false] (Connection.on_error c)
  = Connection.mkRun Connection.Connected c 0 0
  ∧ Connection.attempts
      (Connection.dbConnect [false; true] (Connection.on_disconnected c))
    ≠ 0%nat
  ∧ Connection.retries
      (Connection.cached
         (Connection.dbConnect [false] (Connection.on_disconnected c)))
    = 1%nat
  ∧ Connection.result
      (Connection.dbConnect [false; false; false; true]
         (Connection.on_disconnected c))
    = Connection.Thrown.
Proof.
  intros c.
  destruct (connection_events [false] c eq_refl eq_refl eq_refl
              ltac:(vm_compute; lia)) as (_ & H2 & _).
  destruct (connection_events [true] c eq_refl eq_refl eq_refl
              ltac:(vm_compute; lia)) as (_ & _ & H3 & H4 & _ & H6).
  split; [exact H2|]. split; [exact (H3 false)|]. split; [exact H4|].
  exact (f_equal Connection.result H6).
Defined.

(** * Requests with a timeout *)

Lemma backoff_schedule_S (base : Z) (retries k : nat) :
  backoff_schedule base (S retries) (S k)
  = Fetch.backoffTime base (S retries) :: backoff_schedule base retries k.
Proof.
  unfold backoff_schedule. cbn [seq fmap list_fmap]. f_equal.
  rewrite <- fmap_S_seq, <- list_fmap_compose. done.
Qed.

Lemma fetchWithRetry_settles (base : Z) (k retries : nat)
    (o : Fetch.Outcome) (rest : list Fetch.Outcome) :
  (k ≤ retries)%nat → (o = Fetch.Aborted → k = retries) →
  Fetch.fetchWithRetry base (replicate k Fetch.Aborted ++ o :: rest) retries
  = Fetch.mkRun (Fetch.outcome_result o) (S k)
      (backoff_schedule base retries k).
Proof.
  revert retries. induction k as [|k IH]; intros retries Hk Ho.
  - cbn [replicate app]. destruct o; try done.
    rewrite <- (Ho eq_refl). done.
  - destruct retries as [|retries]; [lia|].
    cbn [replicate app Fetch.fetchWithRetry].
    rewrite IH by (try lia; intros ?; lia || (specialize (Ho H); lia)).
    cbn [Fetch.result Fetch.fetches Fetch.waits].
    by rewrite backoff_schedule_S.
Qed.

(** X23: a request is repeated only when its timeout aborted it, and at
    most [retries] times: the call settles with the first fetch that
    answers or fails otherwise, and with the abort itself once the
    retries are used up, so it never makes more than [retries + 1]
    fetches.  Before the retry with [r] retries left it sleeps
    [1000 * 2 ** (base - r)] ms. *)
Theorem fetchWithRetry_retries_only_aborts (base : Z) (k retries : nat)
    (o : Fetch.Outcome) (rest : list Fetch.Outcome) :
  (k ≤ retries)%nat → (o = Fetch.Aborted → k = retries) →
  let r := Fetch.fetchWithRetry base
             (replicate k Fetch.Aborted ++ o :: rest) retries in
  Fetch.result r = Fetch.outcome_result o
  ∧ Fetch.fetches r = S k
  ∧ (Fetch.fetches r ≤ retries + 1)%nat
  ∧ Fetch.waits r
    = (λ j, Fetch.backoffTime base (retries - j)) <$> seq 0 k.
Proof.
  intros Hk Ho r. subst r. rewrite fetchWithRetry_settles by done.
  cbn [Fetch.result Fetch.fetches Fetch.waits].
  repeat split; [lia].
Qed.

Lemma fetchWithRetry_retries_only_aborts_witness :
  let r := Fetch.fetchWithRetry 3
             [Fetch.Aborted; Fetch.Responded 200; Fetch.Aborted] 2 in
  Fetch.result r = Fetch.Response 200
  ∧ Fetch.fetches r = 2%nat
  ∧ (Fetch.fetches r ≤ 2 + 1)%nat
  ∧ Fetch.waits r = [Fetch.backoffTime 3 2]
  ∧ QArith_base.Qeq (Fetch.backoffTime 3 2) (QArith_base.inject_Z 2000).
Proof.
  intros r.
  destruct (fetchWithRetry_retries_only_aborts 3 1 2 (Fetch.Responded 200)
              [Fetch.Aborted]) as (H1 & H2 & H3 & H4);
    [lia|discriminate|].
  split; [exact H1|]. split; [exact H2|]. split; [exact H3|].
  split; [exact H4|]. reflexivity.
Defined.

(** * The exam page *)

Lemma set_keys_present (o : JsObject) (k : string) (v : JsValue) :
  k ∈ o.*1 → (Js.set o k v).*1 = o.*1.
Proof.
  induction o as [|[k' v'] o IH]; intros Hin; [by apply elem_of_nil in Hin|].
  cbn [Js.set]. destruct (String.eqb k' k) eqn:E; [done|].
  rewrite !fmap_cons. f_equal. apply IH.
  apply elem_of_cons in Hin as [->|Hin]; [|done].
  cbn in E. by rewrite String.eqb_refl in E.
Qed.

Lemma get_set (o : JsObject) (k k' : string) (v : JsValue) :
  get (Js.set o k v) k' = if String.eqb k k' then v else get o k'.
Proof.
  induction o as [|[k0 v0] o IH]; cbn [Js.set get].
  - by destruct (String.eqb k k').
  - destruct (String.eqb k0 k) eqn:E; cbn [get].
    + apply String.eqb_eq in E. subst k0. by destruct (String.eqb k k').
    + rewrite IH. destruct (String.eqb k0 k') eqn:E'; [|done].
      apply String.eqb_eq in E'. subst k0. by rewrite String.eqb_sym, E.
Qed.

Lemma keyed_length (n : nat) (o : JsObject) : keyed n o → length o = n.
Proof.
  intros H. apply Permutation_length in H.
  by rewrite !length_fmap, length_seq in H.
Qed.

Lemma keyed_elem (n : nat) (o : JsObject) (i : Z) :
  keyed n o → (0 ≤ i < Z.of_nat n)%Z → pretty i ∈ o.*1.
Proof.
  intros H Hi. rewrite H. apply list_elem_of_fmap.
  exists (Z.to_nat i). split; [f_equal; lia|].
  apply elem_of_seq. lia.
Qed.

Lemma step_keeps (n : nat) (s : Exam.State) (e : Exam.Event) :
  keyed n (Exam.answers s) → in_range s →
  (length (Exam.questions s) ≤ n)%nat → Exam.on_palette s e →
  keyed n (Exam.answers (Exam.step s e)) ∧ in_range (Exam.step s e)
  ∧ Exam.questions (Exam.step s e) = Exam.questions s.
Proof.
  unfold in_range, keyed. intros Hk Hr Hn He.
  destruct e as [o| | |index]; cbn in *; unfold Exam.last_index.
  - split; [|split; [|done]].
    + unfold Exam.spread_with. rewrite set_keys_present; [done|].
      apply (keyed_elem n); [done|lia].
    + destruct (Z.ltb_spec (Exam.currentQuestion s)
                  (Z.of_nat (length (Exam.questions s)) - 1)); lia.
  - split; [done|]. split; [lia|done].
  - split; [done|]. split; [lia|done].
  - done.
Qed.

Lemma play_keeps (n : nat) (events : list Exam.Event) (s : Exam.State) :
  keyed n (Exam.answers s) → in_range s →
  (length (Exam.questions s) ≤ n)%nat →
  Forall (Exam.on_palette s) events →
  keyed n (Exam.answers (Exam.play events s))
  ∧ in_range (Exam.play events s)
  ∧ Exam.questions (Exam.play events s) = Exam.questions s.
Proof.
  unfold Exam.play. revert s.
  induction events as [|e events IH]; intros s Hk Hr Hn He; [done|].
  apply Forall_cons in He as [He Hes]. cbn [foldl].
  destruct (step_keeps n s e) as (Hk' & Hr' & Hq); [done..|].
  destruct (IH (Exam.step s e)) as (? & ? & Hq'); [done|done|by rewrite Hq| |].
  - eapply Forall_impl; [exact Hes|]. intros [] ?; cbn in *; by rewrite ?Hq.
  - rewrite Hq' , Hq. done.
Qed.

(** X24: on the exam page, pressing option, Previous, Next and palette
    buttons keeps the current question among the questions, never
    changes the question list, and keeps the keys of the answers
    object: an object that starts with the keys 0 .. n-1, n at least
    the number of questions, has exactly those keys ever after.  The
    answered counter is the number of keys, so it reads n throughout
    (50 with the store's first answers, whatever was answered) and the
    remaining counter is never positive. *)
Theorem answers_keep_their_keys (n : nat) (events : list Exam.Event)
    (s : Exam.State) :
  keyed n (Exam.answers s) → in_range s →
  (length (Exam.questions s) ≤ n)%nat →
  Forall (Exam.on_palette s) events →
  let s' := Exam.play events s in
  keyed n (Exam.answers s') ∧ in_range s'
  ∧ Exam.questions s' = Exam.questions s
  ∧ Exam.answeredCount s' = n
  ∧ (Exam.remainingCount s' ≤ 0)%Z.
Proof.
  intros Hk Hr Hn He s'.
  destruct (play_keeps n events s) as (Hk' & Hr' & Hq); [done..|].
  fold s' in Hk', Hr', Hq.
  assert (Exam.answeredCount s' = n) as Hc by by apply keyed_length.
  repeat split; try done; try apply Hr'.
  unfold Exam.remainingCount. rewrite Hc, Hq. lia.
Qed.

Lemma answers_keep_their_keys_witness :
  let s := Exam.initialized Exam.initialAnswers [[]; []; []] in
  let s' := Exam.play [Exam.Select 2; Exam.Nav 0; Exam.Select 1; Exam.Next] s in
  Exam.answeredCount s = 50%nat
  ∧ Exam.answeredCount s' = 50%nat
  ∧ (Exam.remainingCount s' ≤ 0)%Z.
Proof.
  intros s s'. split; [reflexivity|].
  apply (answers_keep_their_keys 50
           [Exam.Select 2; Exam.Nav 0; Exam.Select 1; Exam.Next] s).
  - unfold keyed. reflexivity.
  - unfold in_range. simpl. lia.
  - simpl. lia.
  - repeat constructor; simpl; lia.
Defined.

Lemma fmap_seq_insert {A} (f : nat → A) (n p : nat) (v : A) :
  (λ i, if Nat.eqb p i then v else f i) <$> seq 0 n
  = <[p := v]> (f <$> seq 0 n).
Proof.
  apply list_eq. intros i.
  destruct (decide (i < n)%nat) as [Hi|Hi].
  - rewrite list_lookup_fmap, lookup_seq_lt by done. cbn.
    destruct (Nat.eqb_spec p i) as [->|Hne].
    + rewrite list_lookup_insert_eq; [done|]. by rewrite length_fmap, length_seq.
    + rewrite list_lookup_insert_ne by done.
      by rewrite list_lookup_fmap, lookup_seq_lt.
  - rewrite list_lookup_fmap, lookup_seq_ge by lia. cbn.
    symmetry. apply lookup_ge_None.
    rewrite length_insert, length_fmap, length_seq. lia.
Qed.

Lemma calculateMarks_object (stored : list Question) (o : JsObject) :
  calculateMarks stored (JObj o) = Some (score_spec stored (ownValues o)).
Proof.
  unfold calculateMarks, score_spec. cbn [objectValues].
  by rewrite marks_loop_count.
Qed.

(** X25: choosing an option writes it under the position of the
    question on the page, so in the values the server enumerates it
    replaces the value at that position and no other; the score of the
    resulting answers is counted against the stored question list at
    the same positions, in whatever order the page shows the questions.
    The palette marks the question as answered unless the option
    number is 0. *)
Theorem selection_is_marked_by_position (n : nat) (stored : list Question)
    (optionIndex : Z) (s : Exam.State) :
  keyed n (Exam.answers s) → in_range s →
  (length (Exam.questions s) ≤ n)%nat → (N.of_nat n < 4294967295)%N →
  let s' := Exam.handleAnswerSelect optionIndex s in
  let position := Z.to_nat (Exam.currentQuestion s) in
  ownValues (Exam.answers s')
  = <[position := JNum optionIndex]> (ownValues (Exam.answers s))
  ∧ calculateMarks stored (JObj (Exam.answers s'))
    = Some (score_spec stored
              (<[position := JNum optionIndex]> (ownValues (Exam.answers s))))
  ∧ Exam.getQuestionStatus (Exam.currentQuestion s) s'
    = negb (optionIndex =? 0)%Z.
Proof.
  intros Hk Hr Hn Hmax s' position.
  assert (ownValues (Exam.answers s')
          = <[position := JNum optionIndex]> (ownValues (Exam.answers s)))
    as Hv.
  { assert (keyed n (Exam.answers s')) as Hk'.
    { unfold keyed. cbn. unfold Exam.spread_with.
      rewrite set_keys_present; [done|].
      apply (keyed_elem n); [done|]. unfold in_range in Hr. lia. }
    rewrite (ownValues_by_key _ n Hk' Hmax), (ownValues_by_key _ n Hk Hmax).
    rewrite <- fmap_seq_insert. apply list_fmap_ext. intros _ i _.
    cbn. unfold Exam.spread_with. rewrite get_set.
    unfold in_range in Hr.
    destruct (Nat.eqb_spec position i) as [<-|Hne].
    - unfold position. rewrite Z2Nat.id by lia. by rewrite String.eqb_refl.
    - destruct (String.eqb_spec (pretty (Exam.currentQuestion s))
                  (pretty (Z.of_nat i))) as [E|_]; [|done].
      apply (inj pretty) in E. unfold position in Hne. lia. }
  split; [done|]. split.
  - by rewrite calculateMarks_object, Hv.
  - unfold Exam.getQuestionStatus. cbn. unfold Exam.spread_with.
    by rewrite get_set, String.eqb_refl.
Qed.

Lemma selection_is_marked_by_position_witness :
  let s := Exam.handleQuestionNav 1
             (Exam.initialized [("1", JNull); ("0", JNum 2)] [[]; []]) in
  calculateMarks ex_q12 (JObj (Exam.answers (Exam.handleAnswerSelect 3 s)))
  = Some 2%Z.
Proof.
  intros s.
  destruct (selection_is_marked_by_position 2 ex_q12 3 s) as (_ & H & _).
  - apply Permutation_swap.
  - unfold in_range. simpl. lia.
  - simpl. lia.
  - simpl. lia.
  - exact H.
Defined.

Lemma jwtVerify_payload (token : Jwt) (key : string) (now : Z)
    (payload : JsObject) :
  jwtVerify token key now = Some payload → payload = jwt_payload token.
Proof.
  unfold jwtVerify. repeat case_match; congruence.
Qed.

(** Once a submission has been accepted, the same browser is refused
    whatever it sends and whenever. *)
Lemma Submit_after_success (h : Host) (cookie : option Jwt)
    (answers answers' : JsObject) (now now' : Z) (s : Server) :
  success (Submit.POST h (Exam.submission cookie answers now) s).1 = true →
  let s1 := (Submit.POST h (Exam.submission cookie answers now) s).2 in
  let again := Submit.POST h (Exam.submission cookie answers' now') s1 in
  again.2 = s1 ∧ success again.1 = false
  ∧ ((∃ token, cookie = Some token
               ∧ jwtVerify token (JWT_SECRET h) now' ≠ None) →
     status again.1 = 400%Z ∧ message again.1 = Submit.already_message).
Proof.
  unfold Submit.POST at 1 2.
  cbn [Exam.submission Submit.cookie Submit.json Submit.verify_now].
  destruct cookie as [token|]; [|discriminate].
  destruct (jwtVerify token (JWT_SECRET h) now) as [payload|] eqn:Hv;
    [|discriminate].
  apply jwtVerify_payload in Hv as Hp.
  cbn [mbind option_bind Submit.answers_of get String.eqb Ascii.eqb Bool.eqb
         truthy negb].
  destruct (get payload "studentId") as [| | | |i| |] eqn:Hid;
    try discriminate.
  destruct (findById (JStr i) (students s)) as [student|] eqn:Hst;
    [|discriminate].
  destruct (attempted student) eqn:Hatt; [discriminate|].
  destruct (findForm _ (forms s)) as [form|]; [|discriminate].
  destruct (calculateMarks (questions form) (JObj answers)) as [mark|];
    [|discriminate].
  intros _. cbn [fst snd].
  pose proof (find_student_id _ _ _ Hst) as Hi.
  unfold Submit.POST.
  cbn [Exam.submission Submit.cookie Submit.json Submit.verify_now].
  destruct (jwtVerify token (JWT_SECRET h) now') as [payload'|] eqn:Hv'.
  - apply jwtVerify_payload in Hv'. rewrite Hv', <- Hp.
    cbn [mbind option_bind Submit.answers_of get String.eqb Ascii.eqb
           Bool.eqb truthy negb].
    rewrite Hid. cbn [students].
    rewrite findById_updateOne by apply record_result_latch_keeping.
    rewrite Hi, String.eqb_refl, Hst. cbn. done.
  - cbn. split; [done|]. split; [done|].
    intros (token' & [= <-] & Hne). by rewrite Hv' in Hne.
Qed.

Lemma submitLoop_refused_step (h : Host) (cookie : option Jwt)
    (answers : JsObject) (d : Exam.Delivery) (net : list Exam.Delivery)
    (retries : nat) (s : Server) :
  refusing h cookie answers s → (retries < Exam.maxRetries)%nat →
  Exam.submitLoop h cookie answers (d :: net) retries s
  = let r := Exam.submitLoop h cookie answers net (S retries) s in
    Exam.mkSubmission (Exam.completed r)
      (if Nat.eqb retries (Exam.maxRetries - 1)
       then Some (shown h cookie answers s d) else Exam.toast r)
      (S (Exam.sent r)) (Exam.waiting r) (Exam.server r).
Proof.
  intros Hs Hr. cbn [Exam.submitLoop].
  apply Nat.ltb_lt in Hr. rewrite Hr.
  destruct d as [now| |now]; cbn [shown]; [| done |].
  - destruct (Hs now) as [-> ->]. done.
  - destruct (Hs now) as [-> _]. done.
Qed.

Lemma submitLoop_spent (h : Host) (cookie : option Jwt) (answers : JsObject)
    (net : list Exam.Delivery) (s : Server) :
  Exam.submitLoop h cookie answers net Exam.maxRetries s
  = Exam.mkSubmission false None 0 false s.
Proof. by destruct net. Qed.

Lemma submitLoop_refused (h : Host) (cookie : option Jwt)
    (answers : JsObject) (net : list Exam.Delivery) (retries : nat)
    (s : Server) :
  refusing h cookie answers s →
  let r := Exam.submitLoop h cookie answers net retries s in
  Exam.completed r = false ∧ Exam.server r = s.
Proof.
  intros Hs. revert retries.
  induction net as [|d net IH]; intros retries.
  - cbn [Exam.submitLoop]. by destruct (Nat.ltb retries Exam.maxRetries).
  - destruct (Nat.ltb_spec retries Exam.maxRetries) as [Hr|Hr].
    + rewrite submitLoop_refused_step by done. cbn. apply IH.
    + cbn [Exam.submitLoop]. apply Nat.ltb_ge in Hr. by rewrite Hr.
Qed.

(** X26: the submission loop of the page against the server.  When the
    first request is served and accepted but its response is lost, no
    later attempt of the loop is accepted: the page never reaches the
    completed screen, the store stays as the first request left it, and
    after two more attempts (three requests in all) the loop stops with
    the toast of the last one, which reads "Exam already attempted"
    when that attempt was answered under a credential that verifies. *)
Theorem lost_response_is_not_recovered (h : Host) (cookie : option Jwt)
    (answers : JsObject) (now : Z) (net : list Exam.Delivery) (s : Server) :
  success (Submit.POST h (Exam.submission cookie answers now) s).1 = true →
  let s1 := (Submit.POST h (Exam.submission cookie answers now) s).2 in
  let r := Exam.submitLoop h cookie answers (Exam.Unheard now :: net) 0 s in
  Exam.completed r = false ∧ Exam.server r = s1
  ∧ (∀ d2 d3 rest, net = d2 :: d3 :: rest →
       Exam.sent r = 3%nat ∧ Exam.waiting r = false
       ∧ Exam.toast r = Some (shown h cookie answers s1 d3))
  ∧ (∀ token now3, cookie = Some token →
       jwtVerify token (JWT_SECRET h) now3 ≠ None →
       shown h cookie answers s1 (Exam.Answered now3)
       = Submit.already_message).
Proof.
  intros Hok s1 r.
  assert (refusing h cookie answers s1) as Hs1.
  { intros now'.
    destruct (Submit_after_success h cookie answers answers now now' s Hok)
      as (? & ? & _). done. }
  assert (r = let r' := Exam.submitLoop h cookie answers net 1 s1 in
              Exam.mkSubmission (Exam.completed r') (Exam.toast r')
                (S (Exam.sent r')) (Exam.waiting r') (Exam.server r')) as ->.
  { done. }
  cbn [Exam.completed Exam.server Exam.sent Exam.waiting Exam.toast].
  destruct (submitLoop_refused h cookie answers net 1 s1 Hs1) as [Hc Hsv].
  split; [done|]. split; [done|]. split.
  - intros d2 d3 rest ->.
    rewrite !submitLoop_refused_step by (done || (unfold Exam.maxRetries; lia)).
    rewrite submitLoop_spent. done.
  - intros token now3 -> Hv. cbn [shown].
    destruct (Submit_after_success h (Some token) answers answers now now3 s
                Hok) as (_ & _ & H).
    apply H. by exists token.
Qed.

Lemma lost_response_is_not_recovered_witness :
  let answers := [("0", JNum 2); ("1", JNum 3)] in
  let r := Exam.submitLoop ex_host (Some ex_session) answers
             [Exam.Unheard 3000; Exam.Undelivered; Exam.Answered 5000] 0
             ex_claimed in
  Exam.completed r = false
  ∧ Exam.sent r = 3%nat
  ∧ Exam.toast r = Some "Exam already attempted"
  ∧ attempted_of "s1" (Exam.server r) = Some true.
Proof.
  intros answers r.
  destruct (lost_response_is_not_recovered ex_host (Some ex_session) answers
              3000 [Exam.Undelivered; Exam.Answered 5000] ex_claimed eq_refl)
    as (H1 & H2 & H3 & H4).
  destruct (H3 _ _ _ eq_refl) as (H5 & _ & H6).
  split; [exact H1|]. split; [exact H5|]. split.
  - unfold r. rewrite H6.
    rewrite (H4 ex_session 5000%Z eq_refl); [reflexivity|].
    vm_compute. discriminate.
  - etransitivity; [exact (f_equal (attempted_of "s1") H2)|]. reflexivity.
Defined.
